(** * Direction-of-close pipeline: feature derivation, labelling, backtest

    A shallow embedding of the notebook [random_forrest_close_direction]:
    the helpers [create_ohlc_features], [create_calendar_features],
    [predict], [backtest], [convert_date_format], the target-labelling
    cell and the macro-announcement cells, together with the properties
    of them that the specification states.

    pandas tables are modelled as column-major frames of dynamically typed
    cells, and exceptions as an error monad.  Floating-point numbers are
    modelled as rationals extended with the two infinities and the missing
    value; every arithmetic operation is followed by a rounding function
    about which only monotonicity and the exactness of 0, 1 and 100 are
    assumed (overflow and the sign of zero are not modelled).  What the
    notebook leaves to its libraries is a parameter: the square root, sine
    and cosine, the date parsers, the classifier, and the policy of a
    rolling aggregation on non-numeric columns. *)

From Stdlib Require Import ZArith QArith Qround String Ascii Bool Lia Lqa.
From Stdlib Require Import DecimalString Sorted List.
Import ListNotations.

Local Open Scope string_scope.
Local Open Scope list_scope.
Local Open Scope Z_scope.

(* ------------------------------------------------------------------ *)
(** ** Errors raised by the modelled code *)

Inductive error : Type :=
| MissingColumn (name : string)        (* KeyError on a column label *)
| NonNumeric                           (* arithmetic on a non-numeric cell *)
| NotADate                             (* a cell that is not a datetime *)
| NotAString                           (* a string method on another cell *)
| UnparseableDate (s : string)         (* a date string that does not parse *)
| BadWindow (h : Z)                    (* rolling(h) with h < 0 *)
| BadSpan (h : Z)                      (* ewm(span = h) with h < 1 *)
| ZeroStep                             (* range(_, _, 0) *)
| NoObjectsToConcatenate               (* pd.concat([]) *)
| LengthMismatch                       (* values and index of unequal length *)
| ClassifierError.                     (* raised inside the classifier *)

Inductive result (A : Type) : Type :=
| Ok (a : A)
| Raise (e : error).
Arguments Ok {A} a.
Arguments Raise {A} e.

Definition bind {A B} (r : result A) (k : A -> result B) : result B :=
  match r with
  | Ok a => k a
  | Raise e => Raise e
  end.

Notation "x <- c ;; k" := (bind c (fun x => k))
  (at level 61, c at next level, right associativity).
Notation "' p <- c ;; k" := (bind c (fun x => match x with p => k end))
  (at level 61, p pattern, c at next level, right associativity).

Fixpoint mapM {A B} (f : A -> result B) (l : list A) : result (list B) :=
  match l with
  | [] => Ok []
  | a :: l' => b <- f a ;; bs <- mapM f l' ;; Ok (b :: bs)
  end.

(* ------------------------------------------------------------------ *)
(** ** Floating-point values *)

(** The routines of the numeric libraries the notebook calls: the rounding
    applied after each arithmetic operation, the square root, and numpy's
    sine and cosine. *)
Class FloatOps : Type := {
  rnd : Q -> Q;
  fsqrt : Q -> Q;
  np_sin : Q -> Q;
  np_cos : Q -> Q;
  rnd_mono : forall x y : Q, (x <= y)%Q -> (rnd x <= rnd y)%Q;
  rnd_0 : (rnd 0 == 0)%Q;
  rnd_1 : (rnd 1 == 1)%Q;
  rnd_100 : (rnd 100 == 100)%Q
}.

Inductive fval : Type :=
| Fin (q : Q)
| PInf
| NInf
| NaN.

Definition Qlt_bool (a b : Q) : bool := negb (Qle_bool b a).

Definition notna (x : fval) : bool :=
  match x with NaN => false | _ => true end.

Definition of_Z (z : Z) : fval := Fin (inject_Z z).
Definition of_nat (n : nat) : fval := of_Z (Z.of_nat n).

Definition fneg (x : fval) : fval :=
  match x with
  | Fin q => Fin (- q)
  | PInf => NInf
  | NInf => PInf
  | NaN => NaN
  end.

(** [x > y] and [x < y] as Python evaluates them: false on a missing value. *)
Definition fgt (x y : fval) : bool :=
  match x, y with
  | Fin a, Fin b => Qlt_bool b a
  | PInf, Fin _ | PInf, NInf | Fin _, NInf => true
  | _, _ => false
  end.

Definition flt (x y : fval) : bool := fgt y x.

Section Arithmetic.
Context {F : FloatOps}.

Definition fadd (x y : fval) : fval :=
  match x, y with
  | NaN, _ | _, NaN => NaN
  | Fin a, Fin b => Fin (rnd (a + b))
  | PInf, NInf | NInf, PInf => NaN
  | PInf, _ | _, PInf => PInf
  | NInf, _ | _, NInf => NInf
  end.

Definition fsub (x y : fval) : fval := fadd x (fneg y).

(** The sign of an infinite product or quotient; zero counts as +0. *)
Definition signed_inf (negative : bool) : fval :=
  if negative then NInf else PInf.

Definition fmul (x y : fval) : fval :=
  match x, y with
  | NaN, _ | _, NaN => NaN
  | Fin a, Fin b => Fin (rnd (a * b))
  | Fin a, PInf | PInf, Fin a =>
      if Qeq_bool a 0 then NaN else signed_inf (Qlt_bool a 0)
  | Fin a, NInf | NInf, Fin a =>
      if Qeq_bool a 0 then NaN else signed_inf (negb (Qlt_bool a 0))
  | PInf, PInf | NInf, NInf => PInf
  | PInf, NInf | NInf, PInf => NInf
  end.

Definition fdiv (x y : fval) : fval :=
  match x, y with
  | NaN, _ | _, NaN => NaN
  | Fin a, Fin b =>
      if Qeq_bool b 0
      then if Qeq_bool a 0 then NaN else signed_inf (Qlt_bool a 0)
      else Fin (rnd (a / b))
  | Fin _, PInf | Fin _, NInf => Fin 0
  | PInf, Fin b => signed_inf (Qlt_bool b 0)
  | NInf, Fin b => signed_inf (negb (Qlt_bool b 0))
  | _, _ => NaN
  end.

Definition fsqrt_val (x : fval) : fval :=
  match x with
  | Fin q => if Qlt_bool q 0 then NaN else Fin (fsqrt q)
  | PInf => PInf
  | _ => NaN
  end.

Definition fsum (l : list fval) : fval := fold_left fadd l (Fin 0).

End Arithmetic.

(** Exact rational arithmetic: the instance on which the examples run.
    Its square root, sine and cosine are coarse rational stand-ins; no
    statement below depends on their values. *)
Definition sqrt_approx (q : Q) : Q :=
  Z.sqrt (Qnum q * 1000000000000 / Z.pos (Qden q)) # 1000000.

Definition sin_approx (x : Q) : Q := (x - x * x * x / 6)%Q.
Definition cos_approx (x : Q) : Q := (1 - x * x / 2)%Q.

Definition exact_ops : FloatOps.
Proof.
  refine {| rnd := fun q => q; fsqrt := sqrt_approx;
            np_sin := sin_approx; np_cos := cos_approx |}.
  - intros x y Hxy; exact Hxy.
  - reflexivity.
  - reflexivity.
  - reflexivity.
Defined.

(** Arithmetic rounded down to multiples of 1/1024: an instance with a
    rounding that is not exact. *)
Definition round_down (q : Q) : Q := Qfloor (q * 1024) # 1024.

Definition coarse_ops : FloatOps.
Proof.
  refine {| rnd := round_down; fsqrt := sqrt_approx;
            np_sin := sin_approx; np_cos := cos_approx |}.
  - intros x y Hxy. unfold round_down.
    assert (H : (Qfloor (x * 1024) <= Qfloor (y * 1024))%Z).
    { apply Qfloor_resp_le. apply Qmult_le_compat_r; [exact Hxy|discriminate]. }
    unfold Qle. cbn [Qnum Qden]. lia.
  - reflexivity.
  - reflexivity.
  - reflexivity.
Defined.

(** Arithmetic in which the numbers from 2^53 on are rounded down to even
    integers, the spacing of the float64 between 2^53 and 2^54: an instance
    in which the conversion of a large integer to a float is not exact. *)
Definition even_above_2_53 (q : Q) : Q :=
  if Qle_bool (inject_Z 9007199254740992) q
  then inject_Z (2 * Qfloor (q / 2))
  else q.

Definition wide_ops : FloatOps.
Proof.
  refine {| rnd := even_above_2_53; fsqrt := sqrt_approx;
            np_sin := sin_approx; np_cos := cos_approx |}.
  - intros x y Hxy. unfold even_above_2_53.
    assert (Hhalf : forall a b : Q,
               (a <= b)%Q -> (Qfloor (a / 2) <= Qfloor (b / 2))%Z).
    { intros a b Hab. apply Qfloor_resp_le. unfold Qdiv.
      apply Qmult_le_compat_r; [exact Hab|discriminate]. }
    destruct (Qle_bool (inject_Z 9007199254740992) x) eqn:Ex;
      destruct (Qle_bool (inject_Z 9007199254740992) y) eqn:Ey.
    + rewrite <- Zle_Qle. specialize (Hhalf x y Hxy). lia.
    + apply Qle_bool_iff in Ex.
      assert (Qle_bool (inject_Z 9007199254740992) y = true).
      { apply Qle_bool_iff. eapply Qle_trans; eauto. }
      congruence.
    + apply Qle_bool_iff in Ey.
      assert (Hx : (x < inject_Z 9007199254740992)%Q).
      { apply Qnot_le_lt. intros H. apply Qle_bool_iff in H. congruence. }
      apply Qlt_le_weak. eapply Qlt_le_trans; [exact Hx|].
      rewrite <- Zle_Qle. specialize (Hhalf _ _ Ey).
      change (Qfloor (inject_Z 9007199254740992 / 2))
        with 4503599627370496%Z in Hhalf.
      lia.
    + exact Hxy.
  - reflexivity.
  - reflexivity.
  - reflexivity.
Defined.

(* ------------------------------------------------------------------ *)
(** ** Frames: the model of a pandas DataFrame *)

(** A cell holds a float (missing = [NaN]), an integer, a string, or a
    datetime in nanoseconds since 1970-01-01 (missing = [VNaT]). *)
Inductive cell : Type :=
| VFloat (x : fval)
| VInt (z : Z)
| VStr (s : string)
| VTime (ns : Z)
| VNaT.

Definition isna (c : cell) : bool :=
  match c with
  | VFloat NaN | VNaT => true
  | _ => false
  end.

(** Columns are kept in their order of creation; every column is as long
    as the index. *)
Record frame : Type := {
  index : list Z;
  columns : list (string * list cell)
}.

Definition nrows (df : frame) : nat := length (index df).

Definition range_index (n : nat) : list Z := map Z.of_nat (seq 0 n).

Fixpoint lookup_col (name : string) (cs : list (string * list cell))
  : option (list cell) :=
  match cs with
  | [] => None
  | (n, c) :: cs' => if String.eqb n name then Some c else lookup_col name cs'
  end.

(** [df[name]] *)
Definition get_col (df : frame) (name : string) : result (list cell) :=
  match lookup_col name (columns df) with
  | Some c => Ok c
  | None => Raise (MissingColumn name)
  end.

Fixpoint assign (name : string) (c : list cell) (cs : list (string * list cell))
  : list (string * list cell) :=
  match cs with
  | [] => [(name, c)]
  | (n, c0) :: cs' =>
      if String.eqb n name then (n, c) :: cs' else (n, c0) :: assign name c cs'
  end.

(** [df[name] = c]: replaces the column in place, or appends it. *)
Definition set_col (name : string) (c : list cell) (df : frame) : frame :=
  {| index := index df; columns := assign name c (columns df) |}.

(** [df.drop(columns=names)] *)
Definition drop_cols (names : list string) (df : frame) : result frame :=
  _ <- mapM (get_col df) names ;;
  Ok {| index := index df;
        columns := filter (fun nc => negb (existsb (String.eqb (fst nc)) names))
                          (columns df) |}.

(** [df.columns = names] *)
Definition rename_cols (names : list string) (df : frame) : result frame :=
  if Nat.eqb (length names) (length (columns df))
  then Ok {| index := index df;
             columns := combine names (map snd (columns df)) |}
  else Raise LengthMismatch.

(** [df[names]] *)
Definition select_cols (df : frame) (names : list string) : result frame :=
  cs <- mapM (fun n => c <- get_col df n ;; Ok (n, c)) names ;;
  Ok {| index := index df; columns := cs |}.

(** A cell read as a float, as arithmetic and comparisons on a numeric
    column do: an integer is converted to the nearest float, which is the
    integer itself only when it is representable.  Strings and dates are
    not numbers; a column of them is outside the numeric steps of the
    model. *)
Definition cell_to_float {F : FloatOps} (c : cell) : result fval :=
  match c with
  | VFloat x => Ok x
  | VInt z => Ok (Fin (rnd (inject_Z z)))
  | _ => Raise NonNumeric
  end.

(** A column read as floats, as arithmetic on it does. *)
Definition numeric {F : FloatOps} (df : frame) (name : string)
  : result (list fval) :=
  c <- get_col df name ;; mapM cell_to_float c.

Definition floats (l : list fval) : list cell := map VFloat l.

Fixpoint zip_with {A B C} (f : A -> B -> C) (l : list A) (m : list B) : list C :=
  match l, m with
  | a :: l', b :: m' => f a b :: zip_with f l' m'
  | _, _ => []
  end.

(** [s.shift(n)]: rows move down by [n] (up when [n] is negative) and the
    vacated rows are filled with the missing value. *)
Definition shift {A} (fill : A) (n : Z) (l : list A) : list A :=
  if 0 <=? n
  then firstn (length l) (repeat fill (Z.to_nat n) ++ l)
  else skipn (Z.to_nat (- n)) l
       ++ repeat fill (Nat.min (Z.to_nat (- n)) (length l)).

(** Python's slice [a:b] on a sequence: negative bounds count from the
    end, and bounds are clipped to the sequence. *)
Definition slice_bound (len : Z) (default : Z) (i : option Z) : Z :=
  match i with
  | None => default
  | Some i => if i <? 0 then Z.max 0 (i + len) else Z.min i len
  end.

Definition py_slice {A} (a b : option Z) (l : list A) : list A :=
  let len := Z.of_nat (length l) in
  let lo := slice_bound len 0 a in
  let hi := slice_bound len len b in
  firstn (Z.to_nat (hi - lo)) (skipn (Z.to_nat lo) l).

(** [df.iloc[a:b]] *)
Definition iloc (df : frame) (a b : option Z) : frame :=
  {| index := py_slice a b (index df);
     columns := map (fun nc => (fst nc, py_slice a b (snd nc))) (columns df) |}.

(** [range(lo, hi, step)], with CPython's length computation. *)
Definition range_len (lo hi step : Z) : Z :=
  if (0 <? step) && (lo <? hi) then 1 + (hi - 1 - lo) / step
  else if (step <? 0) && (hi <? lo) then 1 + (lo - 1 - hi) / (- step)
  else 0.

Definition range_items (lo hi step : Z) : list Z :=
  map (fun k => lo + Z.of_nat k * step)
      (seq 0 (Z.to_nat (range_len lo hi step))).

Definition py_range (lo hi step : Z) : result (list Z) :=
  if step =? 0 then Raise ZeroStep else Ok (range_items lo hi step).

(** [pd.concat(frames)]: rows are stacked; the columns are those of the
    frames (the frames stacked here all carry the same columns). *)
Definition concat_frames (fs : list frame) : result frame :=
  match fs with
  | [] => Raise NoObjectsToConcatenate
  | f :: _ =>
      Ok {| index := flat_map index fs;
            columns :=
              map (fun nc =>
                     (fst nc,
                      flat_map (fun g =>
                                  match lookup_col (fst nc) (columns g) with
                                  | Some c => c
                                  | None => repeat (VFloat NaN) (nrows g)
                                  end) fs))
                  (columns f) |}
  end.

(* ------------------------------------------------------------------ *)
(** ** Target labelling (cell "Create Targets") *)

Definition label_up (tomorrow close : fval) : cell :=
  VInt (if fgt tomorrow close then 1 else 0).

(** [df['tomorrow'] = df['close'].shift(-1)]
    [df['target'] = (df['tomorrow'] > df['close']).astype(int)]
    The shift turns the closes into floats, and the comparison is one of
    floats. *)
Definition create_targets {F : FloatOps} (df : frame) : result frame :=
  close <- numeric df "close" ;;
  let df := set_col "tomorrow" (floats (shift NaN (-1) close)) df in
  tomorrow <- numeric df "tomorrow" ;;
  close <- numeric df "close" ;;
  Ok (set_col "target" (zip_with label_up tomorrow close) df).

(** The baseline split: [train = df.iloc[:-300]], [test = df.iloc[-300:]]. *)
Definition baseline_split (df : frame) : frame * frame :=
  (iloc df None (Some (-300)), iloc df (Some (-300)) None).

(* ------------------------------------------------------------------ *)
(** ** Walk-forward backtest *)

(** The classifier is an external capability: fitting may fail, and so may
    predicting; a fitted model labels the rows of a feature table. *)
Record classifier : Type := {
  fitted : Type;
  fit : frame -> list cell -> result fitted;
  predict_labels : fitted -> frame -> result (list cell)
}.

Definition predict (train test : frame) (predictors : list string)
  (model : classifier) : result frame :=
  x_train <- select_cols train predictors ;;
  y_train <- get_col train "target" ;;
  m <- fit model x_train y_train ;;
  x_test <- select_cols test predictors ;;
  preds <- predict_labels model m x_test ;;
  if negb (Nat.eqb (length preds) (nrows test)) then Raise LengthMismatch else
  y_test <- get_col test "target" ;;
  Ok {| index := index test;
        columns := [("target", y_test); ("Predictions", preds)] |}.

(** One loop iteration of [backtest]: the boundary [i] with its train and
    test slices. *)
Record fold : Type := {
  boundary : Z;
  train : frame;
  test : frame
}.

Definition fold_at (data : frame) (step i : Z) : fold :=
  {| boundary := i;
     train := iloc data (Some 0) (Some i);
     test := iloc data (Some i) (Some (i + step)) |}.

Definition folds (data : frame) (start step : Z) : result (list fold) :=
  bs <- py_range start (Z.of_nat (nrows data)) step ;;
  Ok (map (fold_at data step) bs).

(** [start=500, step=50] *)
Definition default_start : Z := 500.
Definition default_step : Z := 50.

Definition backtest (data : frame) (model : classifier)
  (predictors : list string) (start step : Z) : result frame :=
  fs <- folds data start step ;;
  all_predictions <-
    mapM (fun f => predict (train f) (test f) predictors model) fs ;;
  concat_frames all_predictions.

(* ------------------------------------------------------------------ *)
(** ** Technical features ([create_ohlc_features]) *)

(** [f"{prefix}{h}"] *)
Definition fmt (prefix : string) (h : Z) : string :=
  (prefix ++ NilZero.string_of_int (Z.to_int h))%string.

Definition predictor_names (h : Z) : list string :=
  [ fmt "Close_Ratio_" h; fmt "Trend_" h; fmt "Volatility_" h;
    fmt "Momentum_" h; fmt "EMA_" h; fmt "RSI_" h;
    fmt "Bollinger_Upper_" h; fmt "Bollinger_Lower_" h;
    fmt "Cumulative_Return_" h ].

Definition default_horizons : list Z := [2; 5; 10; 15; 20].

(** The rows of a window of size [h] that ends at row [t], inclusive. *)
Definition window {A} (h t : nat) (l : list A) : list A :=
  skipn (S t - h) (firstn (S t) l).

(** Rows kept by a boolean mask. *)
Definition select {A} (mask : list bool) (l : list A) : list A :=
  map snd (filter fst (combine mask l)).

Definition filter_rows (mask : list bool) (df : frame) : frame :=
  {| index := select mask (index df);
     columns := map (fun nc => (fst nc, select mask (snd nc))) (columns df) |}.

(** [df.dropna(subset=subset, how="all")]: a row is kept when at least one
    of its cells in the subset is present. *)
Definition keep_row (cols : list (list cell)) (r : nat) : bool :=
  existsb (fun c => match nth_error c r with
                    | Some v => negb (isna v)
                    | None => false
                    end) cols.

Definition dropna_all (subset : list string) (df : frame) : result frame :=
  cols <- mapM (get_col df) subset ;;
  Ok (filter_rows (map (keep_row cols) (seq 0 (nrows df))) df).

(** Whether a rolling aggregation of a whole table leaves its non-numeric
    columns out (older pandas) or rejects them (pandas 2). *)
Class RollingPolicy : Type := { drops_nuisance_columns : bool }.

Section Technical.
Context {F : FloatOps} {R : RollingPolicy}.

(** The window routines ([rolling], [ewm]) read an infinite value as a
    missing one. *)
Definition prep_value (x : fval) : fval :=
  match x with
  | Fin q => Fin q
  | _ => NaN
  end.

(** [s.rolling(h).agg()] with the default [min_periods = h]: the value at
    row [t] is missing unless the window that ends at [t] holds [h]
    observations. *)
Definition rolling_at (h : nat) (agg : list fval -> fval) (l : list fval)
  (t : nat) : fval :=
  let obs := filter notna (map prep_value (window h t l)) in
  if (h <=? length obs)%nat then agg obs else NaN.

Definition rolling (h : nat) (agg : list fval -> fval) (l : list fval)
  : list fval :=
  map (rolling_at h agg l) (seq 0 (length l)).

Definition mean (obs : list fval) : fval :=
  fdiv (fsum obs) (of_nat (length obs)).

(** Sample standard deviation (one degree of freedom removed). *)
Definition sample_std (obs : list fval) : fval :=
  if (length obs <=? 1)%nat then NaN
  else
    let m := mean obs in
    fsqrt_val (fdiv (fsum (map (fun x => fmul (fsub x m) (fsub x m)) obs))
                    (of_nat (length obs - 1))).

Definition rolling_mean (h : nat) := rolling h mean.
Definition rolling_sum (h : nat) := rolling h fsum.
Definition rolling_std (h : nat) := rolling h sample_std.

(** [s.diff()] *)
Definition diff (l : list fval) : list fval :=
  zip_with fsub l (shift NaN 1 l).

(** [s.ffill()] *)
Fixpoint ffill_from (last : fval) (l : list fval) : list fval :=
  match l with
  | [] => []
  | x :: l' => let y := if notna x then x else last in y :: ffill_from y l'
  end.

(** [s.pct_change()], which pads missing values forward first. *)
Definition pct_change (l : list fval) : list fval :=
  let data := ffill_from NaN l in
  zip_with (fun x p => fsub (fdiv x p) (Fin 1)) data (shift NaN 1 data).

Definition feqb (x y : fval) : bool :=
  match x, y with
  | Fin a, Fin b => Qeq_bool a b
  | PInf, PInf | NInf, NInf => true
  | _, _ => false
  end.

(** [s.ewm(span=h, adjust=False).mean()]: the smoothing factor is
    1 / (1 + (h - 1) / 2); the state is the running average and the
    weight it carries, which decays over missing rows. *)
Definition ewm_alpha (span : Z) : fval :=
  fdiv (Fin 1) (fadd (Fin 1) (fdiv (fsub (of_Z span) (Fin 1)) (Fin 2))).

Definition ewm_step (alpha : fval) (st : fval * fval) (cur : fval)
  : fval * fval :=
  let '(weighted, old_wt) := st in
  if notna weighted then
    let old_wt' := fmul old_wt (fsub (Fin 1) alpha) in
    if notna cur then
      ((if feqb weighted cur then weighted
        else fdiv (fadd (fmul old_wt' weighted) (fmul alpha cur))
                  (fadd old_wt' alpha)),
       Fin 1)
    else (weighted, old_wt')
  else (cur, old_wt).

Fixpoint ewm_scan (alpha : fval) (st : fval * fval) (l : list fval)
  : list fval :=
  match l with
  | [] => []
  | cur :: l' =>
      let st' := ewm_step alpha st cur in fst st' :: ewm_scan alpha st' l'
  end.

Definition ewm_mean (span : Z) (l : list fval) : list fval :=
  match map prep_value l with
  | [] => []
  | x0 :: l' => x0 :: ewm_scan (ewm_alpha span) (x0, Fin 1) l'
  end.

(** The columns of one horizon, as functions of the close and target
    columns. *)
Definition close_ratio (close averages : list fval) : list fval :=
  zip_with fdiv close averages.

Definition trend (h : nat) (target : list fval) : list fval :=
  rolling_sum h (shift NaN 1 target).

Definition momentum (h : Z) (close : list fval) : list fval :=
  zip_with fsub close (shift NaN h close).

Definition gain (h : nat) (close : list fval) : list fval :=
  rolling_mean h (map (fun d => if fgt d (Fin 0) then d else Fin 0)
                      (diff close)).

Definition loss (h : nat) (close : list fval) : list fval :=
  rolling_mean h (map (fun d => fneg (if flt d (Fin 0) then d else Fin 0))
                      (diff close)).

Definition rsi_value (g l : fval) : fval :=
  fsub (Fin 100) (fdiv (Fin 100) (fadd (Fin 1) (fdiv g l))).

Definition rsi (h : nat) (close : list fval) : list fval :=
  zip_with rsi_value (gain h close) (loss h close).

Definition bollinger_upper (averages std : list fval) : list fval :=
  zip_with fadd averages (map (fmul (Fin 2)) std).

Definition bollinger_lower (averages std : list fval) : list fval :=
  zip_with fsub averages (map (fmul (Fin 2)) std).

Definition cumulative_return (h : nat) (close : list fval) : list fval :=
  rolling_sum h (pct_change close).

(** [df.rolling(w).mean()] on a whole table: every numeric column is
    averaged; a column that is not numeric is left out or rejected,
    according to the policy of the pandas version. *)
Fixpoint rolling_mean_columns (w : nat) (cs : list (string * list cell))
  : result (list (string * list cell)) :=
  match cs with
  | [] => Ok []
  | (n, c) :: cs' =>
      match mapM cell_to_float c with
      | Ok x =>
          rest <- rolling_mean_columns w cs' ;;
          Ok ((n, floats (rolling_mean w x)) :: rest)
      | Raise e =>
          if drops_nuisance_columns then rolling_mean_columns w cs'
          else Raise e
      end
  end.

(** The nine columns of a horizon, in the order in which the loop body
    assigns them; [averages] is the close column of the rolling averages
    of the table. *)
Definition horizon_columns (h : Z) (close averages target : list fval)
  : list (string * list cell) :=
  let w := Z.to_nat h in
  let std := rolling_std w close in
  [ (fmt "Close_Ratio_" h, floats (close_ratio close averages));
    (fmt "Trend_" h, floats (trend w target));
    (fmt "Volatility_" h, floats (rolling_std w close));
    (fmt "Momentum_" h, floats (momentum h close));
    (fmt "EMA_" h, floats (ewm_mean h close));
    (fmt "RSI_" h, floats (rsi w close));
    (fmt "Bollinger_Upper_" h, floats (bollinger_upper averages std));
    (fmt "Bollinger_Lower_" h, floats (bollinger_lower averages std));
    (fmt "Cumulative_Return_" h, floats (cumulative_return w close)) ].

Definition assign_all (cs : list (string * list cell)) (df : frame) : frame :=
  fold_left (fun d nc => set_col (fst nc) (snd nc) d) cs df.

(** The body of the loop for a horizon that is not skipped.  [rolling]
    rejects a negative window and [ewm] a span below one.  The names of the
    new columns never equal "close" or "target", so both columns are read
    once, in the order in which the body first needs them. *)
Definition add_horizon (h : Z) (df : frame) : result frame :=
  if h <? 0 then Raise (BadWindow h) else
  rolling_averages <- rolling_mean_columns (Z.to_nat h) (columns df) ;;
  close <- numeric df "close" ;;
  averages <- numeric {| index := index df; columns := rolling_averages |}
                      "close" ;;
  target <- numeric df "target" ;;
  if h <? 1 then Raise (BadSpan h) else
  Ok (assign_all (horizon_columns h close averages target) df).

(** The loop over the horizons: the frame and the predictor list are
    threaded through the iterations. *)
Fixpoint add_horizons (horizons : list Z) (df : frame)
  (predictors : list string) : result (frame * list string) :=
  match horizons with
  | [] => Ok (df, predictors)
  | horizon :: rest =>
      if Z.of_nat (nrows df) <? horizon
      then add_horizons rest df predictors
      else
        df' <- add_horizon horizon df ;;
        add_horizons rest df' (predictors ++ predictor_names horizon)
  end.

Definition create_ohlc_features (df : frame) (horizons : list Z)
  : result (frame * list string) :=
  ' (df1, predictors) <- add_horizons horizons df [] ;;
  df2 <- dropna_all predictors df1 ;;
  Ok (df2, predictors).

End Technical.

(* ------------------------------------------------------------------ *)
(** ** Dates *)

Definition ns_per_day : Z := 86400000000000.

(** Days since 1970-01-01 of a timestamp (rounded down). *)
Definition days_of (ns : Z) : Z := ns / ns_per_day.

(** The proleptic Gregorian calendar, by the usual era arithmetic. *)
Definition days_from_civil (y m d : Z) : Z :=
  let y := if m <=? 2 then y - 1 else y in
  let era := y / 400 in
  let yoe := y - era * 400 in
  let doy := (153 * (if 2 <? m then m - 3 else m + 9) + 2) / 5 + d - 1 in
  let doe := yoe * 365 + yoe / 4 - yoe / 100 + doy in
  era * 146097 + doe - 719468.

Definition civil_from_days (z : Z) : Z * Z * Z :=
  let z := z + 719468 in
  let era := z / 146097 in
  let doe := z - era * 146097 in
  let yoe := (doe - doe / 1460 + doe / 36524 - doe / 146096) / 365 in
  let doy := doe - (365 * yoe + yoe / 4 - yoe / 100) in
  let mp := (5 * doy + 2) / 153 in
  let d := doy - (153 * mp + 2) / 5 + 1 in
  let m := if mp <? 10 then mp + 3 else mp - 9 in
  let y := yoe + era * 400 in
  (if m <=? 2 then y + 1 else y, m, d).

Definition year_of (ns : Z) : Z := fst (fst (civil_from_days (days_of ns))).
Definition month_of (ns : Z) : Z := snd (fst (civil_from_days (days_of ns))).
Definition day_of (ns : Z) : Z := snd (civil_from_days (days_of ns)).

(** Monday is 0; 1970-01-01 was a Thursday. *)
Definition dayofweek (ns : Z) : Z := (days_of ns + 3) mod 7.

Definition quarter_of (ns : Z) : Z := (month_of ns - 1) / 3 + 1.

(** The ISO week is counted from the year that holds the week's Thursday. *)
Definition iso_week (ns : Z) : Z :=
  let thursday := days_of ns - dayofweek ns + 3 in
  let y := fst (fst (civil_from_days thursday)) in
  (thursday - days_from_civil y 1 1) / 7 + 1.

Definition is_month_start (ns : Z) : bool := day_of ns =? 1.
Definition is_month_end (ns : Z) : bool :=
  snd (civil_from_days (days_of ns + 1)) =? 1.

Definition midnight (ymd : Z * Z * Z) : Z :=
  let '(y, m, d) := ymd in days_from_civil y m d * ns_per_day.

(** The date parsers of the libraries: [pd.to_datetime] on a string and
    [datetime.strptime(_, "%b %d, %Y")]. *)
Class DateParsers : Type := {
  parse_datetime : string -> option Z;
  strptime_bdY : string -> option (Z * Z * Z)
}.

(* ------------------------------------------------------------------ *)
(** ** Calendar features ([create_calendar_features]) *)

Definition calendar_predictors : list string :=
  [ "day_of_week"; "day_of_month"; "week_of_year"; "month"; "year";
    "quarter"; "is_month_end"; "is_month_start"; "day_of_week_sin";
    "day_of_week_cos"; "month_sin"; "month_cos" ].

(** [np.pi] *)
Definition np_pi : Q := 884279719003555 # 281474976710656.

(** A [.dt] field of a datetime cell; a missing date gives a missing
    field. *)
Definition dt_field (f : Z -> Z) (c : cell) : result cell :=
  match c with
  | VTime ns => Ok (VInt (f ns))
  | VNaT => Ok (VFloat NaN)
  | _ => Raise NotADate
  end.

(** A boolean [.dt] field followed by [.astype(int)]. *)
Definition dt_flag (f : Z -> bool) (c : cell) : result cell :=
  match c with
  | VTime ns => Ok (VInt (if f ns then 1 else 0))
  | VNaT => Ok (VInt 0)
  | _ => Raise NotADate
  end.

(** [df[name] = f(df[src])], cell by cell. *)
Definition derive (src name : string) (f : cell -> result cell) (df : frame)
  : result frame :=
  c <- get_col df src ;;
  v <- mapM f c ;;
  Ok (set_col name v df).

Section Calendar.
Context {F : FloatOps} {P : DateParsers}.

(** [pd.to_datetime] on one cell.  Integers are nanoseconds since the
    epoch; finite floats are outside the model. *)
Definition to_datetime (c : cell) : result cell :=
  match c with
  | VTime ns => Ok (VTime ns)
  | VNaT => Ok VNaT
  | VFloat NaN => Ok VNaT
  | VInt z => Ok (VTime z)
  | VStr s =>
      match parse_datetime s with
      | Some ns => Ok (VTime ns)
      | None => Raise (UnparseableDate s)
      end
  | VFloat _ => Raise NotADate
  end.

(** [np.sin(2 * np.pi * x / period)] and its cosine. *)
Definition turn (period : Z) (x : fval) : fval :=
  fdiv (fmul (Fin (2 * np_pi)) x) (of_Z period).

Definition apply_fn (f : Q -> Q) (x : fval) : fval :=
  match x with
  | Fin q => Fin (f q)
  | _ => NaN
  end.

Definition cyclical (f : Q -> Q) (period : Z) (c : cell) : result cell :=
  x <- cell_to_float c ;; Ok (VFloat (apply_fn f (turn period x))).

Definition create_calendar_features (df : frame) (date_col : string)
  : result (frame * list string) :=
  df <- derive date_col date_col to_datetime df ;;
  df <- derive date_col "day_of_week" (dt_field dayofweek) df ;;
  df <- derive date_col "day_of_month" (dt_field day_of) df ;;
  df <- derive date_col "week_of_year" (dt_field iso_week) df ;;
  df <- derive date_col "month" (dt_field month_of) df ;;
  df <- derive date_col "year" (dt_field year_of) df ;;
  df <- derive date_col "quarter" (dt_field quarter_of) df ;;
  df <- derive date_col "is_month_end" (dt_flag is_month_end) df ;;
  df <- derive date_col "is_month_start" (dt_flag is_month_start) df ;;
  df <- derive "day_of_week" "day_of_week_sin" (cyclical np_sin 7) df ;;
  df <- derive "day_of_week" "day_of_week_cos" (cyclical np_cos 7) df ;;
  df <- derive "month" "month_sin" (cyclical np_sin 12) df ;;
  df <- derive "month" "month_cos" (cyclical np_cos 12) df ;;
  Ok (df, calendar_predictors).

End Calendar.

(* ------------------------------------------------------------------ *)
(** ** Macro announcement tables (cell "Macro Data") *)

(** [date_string.split(" (")[0]] *)
Fixpoint before_paren (s : string) : string :=
  match s with
  | EmptyString => EmptyString
  | String c s' =>
      if String.prefix " (" s then EmptyString else String c (before_paren s')
  end.

(** [(a - b).dt.days] on one row. *)
Definition timedelta_days (a b : cell) : result cell :=
  match a, b with
  | VTime x, VTime y => Ok (VFloat (of_Z ((x - y) / ns_per_day)))
  | VNaT, VTime _ | VTime _, VNaT | VNaT, VNaT => Ok (VFloat NaN)
  | _, _ => Raise NotADate
  end.

Fixpoint zip_withM {A B C} (f : A -> B -> result C) (l : list A) (m : list B)
  : result (list C) :=
  match l, m with
  | a :: l', b :: m' => c <- f a b ;; cs <- zip_withM f l' m' ;; Ok (c :: cs)
  | _, _ => Ok []
  end.

(** [(a - b).dt.days] on two columns.  The difference of two columns
    without rows has no datetime type, and [.dt] rejects it. *)
Definition timedelta_days_column (a b : list cell) : result (list cell) :=
  match b with
  | [] => Raise NotADate
  | _ :: _ => zip_withM timedelta_days a b
  end.

(** [parsed_date.strftime("%Y-%m-%d")]: the year is written without
    leading zeros, the month and the day with two digits. *)
Definition two_digits (n : Z) : string :=
  String.append (if n <? 10 then "0" else "")
                (NilZero.string_of_int (Z.to_int n)).

Definition strftime_Ymd (date : Z * Z * Z) : string :=
  let '(y, m, d) := date in
  (NilZero.string_of_int (Z.to_int y) ++ "-" ++ two_digits m ++ "-"
   ++ two_digits d)%string.

Definition macro_columns (flag : string) : list string :=
  ["date"; "time"; "actual"; "forecast"; "previous"; flag].

Section Macro.
Context {F : FloatOps} {P : DateParsers}.

(** The date is parsed, written out again as year-month-day and read by
    [pd.to_datetime], which refuses a date outside its range and reads a
    year of fewer than four digits as it sees fit. *)
Definition convert_date_format (c : cell) : result cell :=
  match c with
  | VStr date_string =>
      let main_date_part := before_paren date_string in
      match strptime_bdY main_date_part with
      | Some parsed_date =>
          match parse_datetime (strftime_Ymd parsed_date) with
          | Some ns => Ok (VTime ns)
          | None => Raise (UnparseableDate (strftime_Ymd parsed_date))
          end
      | None => Raise (UnparseableDate date_string)
      end
  | _ => Raise NotAString
  end.

(** The steps the three tables share: the change, and the day count to
    the date of the row that [shift(offset)] brings alongside. *)
Definition announcement_gaps (change : string) (offset : Z) (df : frame)
  : result frame :=
  forecast <- numeric df "forecast" ;;
  previous <- numeric df "previous" ;;
  let df := set_col change (floats (zip_with fsub forecast previous)) df in
  date <- get_col df "date" ;;
  let df := set_col "next_announcement_date" (shift VNaT offset date) df in
  next <- get_col df "next_announcement_date" ;;
  date <- get_col df "date" ;;
  days <- timedelta_days_column next date ;;
  Ok (set_col "days_until_next_announcement" days df).

Definition un_rate (sheet : frame) : result frame :=
  let df := set_col "un_announcement" (repeat (VInt 1) (nrows sheet)) sheet in
  df <- rename_cols (macro_columns "un_announcement") df ;;
  df <- derive "date" "date" convert_date_format df ;;
  df <- announcement_gaps "unempl_change" (-1) df ;;
  drop_cols ["time"; "previous"; "forecast"; "actual";
             "next_announcement_date"] df.

Definition cpi (sheet : frame) : result frame :=
  let df := set_col "cpi_announcement" (repeat (VInt 1) (nrows sheet)) sheet in
  df <- rename_cols (macro_columns "cpi_announcement") df ;;
  df <- derive "date" "date" convert_date_format df ;;
  df <- announcement_gaps "cpi_change" (-1) df ;;
  drop_cols ["time"; "previous"; "forecast"; "actual";
             "next_announcement_date"] df.

Definition interest_rates (sheet : frame) : result frame :=
  let df :=
    set_col "interest_announcement" (repeat (VInt 1) (nrows sheet)) sheet in
  df <- rename_cols (macro_columns "interest_announcement") df ;;
  df <- announcement_gaps "interest_change" 1 df ;;
  drop_cols ["time"; "previous"; "forecast"; "actual"] df.

End Macro.


(* ------------------------------------------------------------------ *)
(** ** Reading and changing single cells *)

(** The list [l] with its element at position [t] replaced by [v]. *)
Definition update {A} (t : nat) (v : A) (l : list A) : list A :=
  firstn t l ++ match skipn t l with
                | [] => []
                | _ :: rest => v :: rest
                end.

(** The frame [df] with the cell at row position [t] of column [name]
    replaced by [v]. *)
Definition set_cell (name : string) (t : nat) (v : cell) (df : frame) : frame :=
  match lookup_col name (columns df) with
  | Some c => set_col name (update t v c) df
  | None => df
  end.

Fixpoint position (x : Z) (l : list Z) : option nat :=
  match l with
  | [] => None
  | y :: l' => if x =? y then Some O else option_map S (position x l')
  end.

(** [df.at[label, name]]: the cell of column [name] in the row labelled
    [label], if there is such a row and column. *)
Definition cell_at (df : frame) (label : Z) (name : string) : option cell :=
  match lookup_col name (columns df), position label (index df) with
  | Some c, Some p => nth_error c p
  | _, _ => None
  end.

(* ------------------------------------------------------------------ *)
(** ** Assembling the predictors (cells "Feature Addition") *)

(** [list(df.columns[8:14])] *)
Definition fed_predictors (df : frame) : list string :=
  py_slice (Some 8) (Some 14) (map fst (columns df)).

Section Assembly.
Context {F : FloatOps} {R : RollingPolicy} {P : DateParsers}.

(** The cells that follow the merge, in their order: the calendar
    features, the technical features with the default horizons, the slice
    of the column names, and the list of all predictors. *)
Definition assemble_predictors (df : frame) : result (frame * list string) :=
  ' (df, calendar) <- create_calendar_features df "date" ;;
  ' (df, ohlc_predictors) <- create_ohlc_features df default_horizons ;;
  Ok (df, calendar ++ fed_predictors df ++ ohlc_predictors).

End Assembly.

(* ================================================================== *)
(** * Notions used in the statements *)

(** The horizons that the loop of [create_ohlc_features] does not skip. *)
Definition processed (df : frame) (hs : list Z) : list Z :=
  filter (fun h => h <=? Z.of_nat (nrows df)) hs.

(** A value that is a non-negative number or plus infinity. *)
Definition nonneg (x : fval) : Prop :=
  match x with
  | Fin q => (0 <= q)%Q
  | PInf => True
  | _ => False
  end.

(** The cell at row [t] of the column [n] of a list of columns. *)
Definition peek (t : nat) (cs : list (string * list cell)) (n : string)
  : option (option cell) :=
  option_map (fun c => nth_error c t) (lookup_col n cs).

(** Two lists of named columns with the same names and the same row [t]. *)
Definition same_row (t : nat) (nc1 nc2 : string * list cell) : Prop :=
  fst nc1 = fst nc2 /\ nth_error (snd nc1) t = nth_error (snd nc2) t.

(** The number of rows that a mask keeps. *)
Fixpoint count_true (mask : list bool) : nat :=
  match mask with
  | [] => 0
  | b :: m => (if b then 1 else 0) + count_true m
  end.

(** The columns of a horizon, given the close and the target columns. *)
Definition horizon_columns_of {F : FloatOps} (h : Z) (close target : list fval)
  : list (string * list cell) :=
  horizon_columns h close (rolling_mean (Z.to_nat h) close) target.

(** The columns that the loop adds to a table. *)
Definition added {F : FloatOps} (df : frame) (hs : list Z)
  : list (string * list cell) :=
  match numeric df "close", numeric df "target" with
  | Ok close, Ok target =>
      flat_map (fun h => horizon_columns_of h close target) (processed df hs)
  | _, _ => []
  end.


(** A table all of whose cells are numbers. *)
Definition is_number (c : cell) : bool :=
  match c with
  | VFloat _ | VInt _ => true
  | _ => false
  end.

Definition all_numeric (df : frame) : Prop :=
  Forall (fun nc => Forall (fun c => is_number c = true) (snd nc))
         (columns df).

(** The day counts [days] run from the date of each row to the date of
    the next row; the last row has none. *)
Definition counts_to_next (dates days : list cell) : Prop :=
  length days = length dates /\
  (forall r a b,
      nth_error dates r = Some (VTime a) ->
      nth_error dates (S r) = Some (VTime b) ->
      nth_error days r = Some (VFloat (of_Z ((b - a) / ns_per_day)))) /\
  (forall r x,
      nth_error dates r = Some x ->
      nth_error dates (S r) = None ->
      nth_error days r = Some (VFloat NaN)).

(** The day counts [days] run from the date of each row to the date of
    the previous row; the first row has none, and neither has a row whose
    date, or the date before it, is missing. *)
Definition counts_to_previous (dates days : list cell) : Prop :=
  length days = length dates /\
  (forall r a b,
      nth_error dates (S r) = Some (VTime a) ->
      nth_error dates r = Some (VTime b) ->
      nth_error days (S r) = Some (VFloat (of_Z ((b - a) / ns_per_day)))) /\
  (forall x,
      nth_error dates 0 = Some x ->
      nth_error days 0 = Some (VFloat NaN)) /\
  (forall r a b,
      nth_error dates (S r) = Some a ->
      nth_error dates r = Some b ->
      a = VNaT \/ b = VNaT ->
      nth_error days (S r) = Some (VFloat NaN)).

(** The cells of the first column of a table. *)
Definition first_column (df : frame) : option (list cell) :=
  match columns df with
  | (_, c) :: _ => Some c
  | [] => None
  end.

(** The column that an announcement cell goes on to call "date": the
    first column once the flag has been assigned, which is the first
    column of the sheet unless that column is itself named like the
    flag. *)
Definition dates_read (flag : string) (sheet : frame) (raw : list cell)
  : Prop :=
  first_column (set_col flag (repeat (VInt 1) (nrows sheet)) sheet) = Some raw
  /\ (forall n c rest,
        columns sheet = (n, c) :: rest -> n <> flag -> raw = c).

(** The table [out] has the rows of the sheet in their order, its dates
    are the parsed dates of the sheet, every one of them present, and the
    day count of a row is taken to the date of the next row. *)
Definition gaps_to_next {P : DateParsers} (flag : string)
  (sheet out : frame) : Prop :=
  exists raw dates days,
    dates_read flag sheet raw /\
    mapM convert_date_format raw = Ok dates /\
    Forall (fun c => exists ns, c = VTime ns) dates /\
    index out = index sheet /\
    get_col out "date" = Ok dates /\
    get_col out "days_until_next_announcement" = Ok days /\
    counts_to_next dates days.

(** The table [out] has the rows of the sheet in their order, its dates
    are the dates of the sheet as they are, and the day count of a row is
    taken to the date of the previous row. *)
Definition gaps_to_previous (flag : string) (sheet out : frame) : Prop :=
  exists dates days,
    dates_read flag sheet dates /\
    index out = index sheet /\
    get_col out "date" = Ok dates /\
    get_col out "days_until_next_announcement" = Ok days /\
    counts_to_previous dates days.

(** A cell of a datetime column. *)
Definition is_datetime (c : cell) : Prop :=
  match c with
  | VTime _ | VNaT => True
  | _ => False
  end.

(** Every column of the table is as long as its index. *)
Definition well_formed (df : frame) : Prop :=
  Forall (fun nc => length (snd nc) = nrows df) (columns df).

(** The cells that a table contributes to the column [n] of a
    concatenation: missing values where it has no such column. *)
Definition column_or_missing (n : string) (g : frame) : list cell :=
  match lookup_col n (columns g) with
  | Some c => c
  | None => repeat (VFloat NaN) (nrows g)
  end.

(** The rows at the positions [a, b) of a table: the labels at these
    positions and, under every column name, the cells at these positions. *)
Definition rows (a b : nat) (df : frame) : frame :=
  {| index := firstn (b - a) (skipn a (index df));
     columns :=
       map (fun nc => (fst nc, firstn (b - a) (skipn a (snd nc))))
           (columns df) |}.

(** A value that is a number: neither missing nor infinite. *)
Definition finite (x : fval) : Prop :=
  match x with
  | Fin _ => True
  | _ => False
  end.

(** The length of the months of the Gregorian calendar. *)
Definition is_leap (y : Z) : bool :=
  (y mod 4 =? 0) && (negb (y mod 100 =? 0) || (y mod 400 =? 0)).

Definition days_in_month (y m : Z) : Z :=
  if m =? 2 then (if is_leap y then 29 else 28)
  else if (m =? 4) || (m =? 6) || (m =? 9) || (m =? 11) then 30 else 31.

(** The names of the columns once the prices are labelled and merged with
    the table of the consumer prices. *)
Definition merged_names : list string :=
  [ "date"; "open"; "high"; "low"; "close"; "volume"; "tomorrow"; "target";
    "cpi_announcement"; "cpi_change"; "days_until_next_announcement" ].

(* ================================================================== *)
(** * Example data *)

(** The two policies of a rolling aggregation. *)
Definition rejecting : RollingPolicy := {| drops_nuisance_columns := false |}.
Definition dropping : RollingPolicy := {| drops_nuisance_columns := true |}.

(** The closes of the scenario of the specification. *)
Definition five_closes : frame :=
  {| index := range_index 5;
     columns := [("close", floats (map of_Z [100; 102; 101; 105; 103]))] |}.

(** The same table once labelled. *)
Definition five_labelled : frame :=
  {| index := range_index 5;
     columns :=
       [ ("close", floats (map of_Z [100; 102; 101; 105; 103]));
         ("tomorrow", floats [of_Z 102; of_Z 101; of_Z 105; of_Z 103; NaN]);
         ("target", [VInt 1; VInt 0; VInt 1; VInt 0; VInt 0]) ] |}.

(** The labelled table with its column of dates. *)
Definition five_dated : frame :=
  set_col "date"
    (map (fun d => VTime (midnight (2024, 1, d))) [1; 2; 3; 4; 5])
    five_labelled.

(** A classifier that labels every row 1, on which the examples run. *)
Definition always_up : classifier :=
  {| fitted := unit;
     fit := fun _ _ => Ok tt;
     predict_labels := fun _ x => Ok (repeat (VInt 1) (nrows x)) |}.

(** Plain parsers for the two date forms of the examples, "Nov 13, 2024"
    and "2024-11-13". *)
Definition digit_of (c : ascii) : option Z :=
  let n := Z.of_nat (nat_of_ascii c) - 48 in
  if (0 <=? n) && (n <=? 9) then Some n else None.

Fixpoint number_of (s : string) (acc : Z) : option Z :=
  match s with
  | EmptyString => Some acc
  | String c s' =>
      match digit_of c with
      | Some d => number_of s' (10 * acc + d)
      | None => None
      end
  end.

Definition month_abbreviations : list (string * Z) :=
  [ ("Jan", 1); ("Feb", 2); ("Mar", 3); ("Apr", 4); ("May", 5); ("Jun", 6);
    ("Jul", 7); ("Aug", 8); ("Sep", 9); ("Oct", 10); ("Nov", 11); ("Dec", 12) ].

Definition month_of_abbreviation (s : string) : option Z :=
  option_map snd (find (fun p => String.eqb (fst p) s) month_abbreviations).

Fixpoint before_comma (s : string) : string :=
  match s with
  | EmptyString => EmptyString
  | String c s' =>
      if String.prefix ", " s then EmptyString else String c (before_comma s')
  end.

(** "Nov 13, 2024" *)
Definition plain_strptime_bdY (s : string) : option (Z * Z * Z) :=
  let rest := substring 4 (String.length s - 4) s in
  let day := before_comma rest in
  let year := substring (String.length day + 2)
                        (String.length rest - String.length day - 2) rest in
  match month_of_abbreviation (substring 0 3 s),
        number_of day 0, number_of year 0 with
  | Some m, Some d, Some y => Some (y, m, d)
  | _, _, _ => None
  end.

(** "2024-11-13", for the years that a timestamp in nanoseconds holds
    in full. *)
Definition plain_parse_datetime (s : string) : option Z :=
  match number_of (substring 0 4 s) 0, number_of (substring 5 2 s) 0,
        number_of (substring 8 2 s) 0 with
  | Some y, Some m, Some d =>
      if (1678 <=? y) && (y <=? 2261) then Some (midnight (y, m, d)) else None
  | _, _, _ => None
  end.

Definition plain_parsers : DateParsers :=
  {| parse_datetime := plain_parse_datetime;
     strptime_bdY := plain_strptime_bdY |}.

(** The first rows of the CPI sheet of the notebook, and three rate
    decisions of the Fed, latest first. *)
Definition cpi_sheet : frame :=
  {| index := range_index 3;
     columns :=
       [ ("Release Date",
          [VStr "Nov 13, 2024 (Oct)"; VStr "Oct 10, 2024 (Sep)";
           VStr "Sep 11, 2024 (Aug)"]);
         ("Time", [VStr "08:30"; VStr "08:30"; VStr "08:30"]);
         ("Actual", floats [Fin (2 # 1000); Fin (2 # 1000); Fin (2 # 1000)]);
         ("Forecast", floats [NaN; Fin (1 # 1000); Fin (2 # 1000)]);
         ("Previous", floats [Fin (2 # 1000); Fin (2 # 1000); Fin (2 # 1000)])
       ] |}.

Definition fed_sheet : frame :=
  {| index := range_index 3;
     columns :=
       [ ("Release Date",
          [VTime (midnight (2024, 11, 7)); VTime (midnight (2024, 9, 18));
           VTime (midnight (2024, 7, 31))]);
         ("Time", [VStr "14:00"; VStr "14:00"; VStr "14:00"]);
         ("Actual", floats [Fin (475 # 100); Fin (500 # 100); Fin (550 # 100)]);
         ("Forecast", floats [Fin (475 # 100); Fin (525 # 100); Fin (550 # 100)]);
         ("Previous", floats [Fin (500 # 100); Fin (550 # 100); Fin (550 # 100)])
       ] |}.


Definition dated_by_string : frame :=
  {| index := range_index 1;
     columns := [ ("date", [VStr "2024-01-01"]); ("close", [VFloat (of_Z 100)]) ] |}.

(** A table whose second date is missing. *)
Definition dated_with_gap : frame :=
  {| index := range_index 2;
     columns := [ ("date", [VTime (midnight (2024, 1, 1)); VNaT]);
                  ("close", [VFloat (of_Z 100); VFloat (of_Z 101)]) ] |}.

(** The sheet of the consumer prices under other column names, with
    other times and other actual values. *)
Definition cpi_sheet_relabelled : frame :=
  {| index := range_index 3;
     columns :=
       [ ("Date",
          [VStr "Nov 13, 2024 (Oct)"; VStr "Oct 10, 2024 (Sep)";
           VStr "Sep 11, 2024 (Aug)"]);
         ("Hour", [VStr "14:30"; VStr "14:30"; VStr "14:30"]);
         ("Value", floats [Fin (3 # 1000); NaN; Fin (4 # 1000)]);
         ("Expected", floats [NaN; Fin (1 # 1000); Fin (2 # 1000)]);
         ("Before", floats [Fin (2 # 1000); Fin (2 # 1000); Fin (2 # 1000)])
       ] |}.

(** Three days of prices, labelled and merged with the table of the
    consumer prices, whose announcement falls on the second day. *)
Definition merged_prices : frame :=
  {| index := range_index 3;
     columns :=
       [ ("date", map (fun d => VTime (midnight (2024, 11, d))) [12; 13; 14]);
         ("open", floats (map of_Z [100; 102; 101]));
         ("high", floats (map of_Z [103; 104; 106]));
         ("low", floats (map of_Z [99; 100; 100]));
         ("close", floats (map of_Z [102; 101; 105]));
         ("volume", floats (map of_Z [1000; 1200; 900]));
         ("tomorrow", floats [of_Z 101; of_Z 105; NaN]);
         ("target", [VInt 0; VInt 1; VInt 0]);
         ("cpi_announcement", floats [NaN; of_Z 1; NaN]);
         ("cpi_change", floats [NaN; NaN; NaN]);
         ("days_until_next_announcement", floats [NaN; of_Z (-34); NaN]) ] |}.

(* ================================================================== *)
(** * Properties *)

(** ** The error monad and lists *)

Lemma bind_ok {A B} (r : result A) (k : A -> result B) (b : B) :
  bind r k = Ok b -> exists a, r = Ok a /\ k a = Ok b.
Proof.
  destruct r as [a|e]; simpl; intros H; [exists a; auto | discriminate].
Qed.

Ltac inv_bind H :=
  let a := fresh "v" in
  let Ha := fresh "Hv" in
  apply bind_ok in H; destruct H as (a & Ha & H).

Ltac inv_bind_as H a Ha :=
  apply bind_ok in H; destruct H as (a & Ha & H).

Lemma mapM_length {A B} (f : A -> result B) (l : list A) (bs : list B) :
  mapM f l = Ok bs -> length bs = length l.
Proof.
  revert bs; induction l as [|a l IH]; simpl; intros bs H.
  - injection H as <-; reflexivity.
  - inv_bind H. inv_bind H. injection H as <-. simpl. f_equal. now apply IH.
Qed.

Lemma mapM_nth {A B} (f : A -> result B) (l : list A) (bs : list B) :
  mapM f l = Ok bs ->
  forall t a, nth_error l t = Some a ->
  exists b, nth_error bs t = Some b /\ f a = Ok b.
Proof.
  revert bs; induction l as [|a0 l IH]; simpl; intros bs H t a Ht.
  - destruct t; discriminate.
  - inv_bind H. inv_bind H. injection H as <-.
    destruct t as [|t]; simpl in *.
    + injection Ht as <-. eauto.
    + eapply IH; eauto.
Qed.

Section FloatCells.
Context {F : FloatOps}.

Lemma mapM_floats (l : list fval) : mapM cell_to_float (floats l) = Ok l.
Proof.
  unfold floats. induction l as [|x l IH]; simpl; [reflexivity|].
  rewrite IH. reflexivity.
Qed.

End FloatCells.

Lemma nth_error_zip_with {A B C} (f : A -> B -> C) (l : list A) (m : list B) t :
  nth_error (zip_with f l m) t =
  match nth_error l t, nth_error m t with
  | Some a, Some b => Some (f a b)
  | _, _ => None
  end.
Proof.
  revert m t; induction l as [|a l IH]; intros [|b m] [|t]; simpl; auto.
  destruct (nth_error l t); reflexivity.
Qed.

Lemma zip_with_length {A B C} (f : A -> B -> C) (l : list A) (m : list B) :
  length (zip_with f l m) = Nat.min (length l) (length m).
Proof.
  revert m; induction l as [|a l IH]; intros [|b m]; simpl; auto.
Qed.

(** ** Columns of a frame *)

Lemma lookup_assign_same name c cs :
  lookup_col name (assign name c cs) = Some c.
Proof.
  induction cs as [|[n c0] cs IH]; simpl.
  - now rewrite String.eqb_refl.
  - destruct (String.eqb n name) eqn:E; simpl; rewrite E; auto.
Qed.

Lemma lookup_assign_other name other c cs :
  other <> name ->
  lookup_col other (assign name c cs) = lookup_col other cs.
Proof.
  intros Hne. induction cs as [|[n c0] cs IH]; simpl.
  - destruct (String.eqb name other) eqn:E; auto.
    apply String.eqb_eq in E. congruence.
  - destruct (String.eqb n name) eqn:E; simpl.
    + apply String.eqb_eq in E. subst n.
      destruct (String.eqb name other) eqn:E'; auto.
      apply String.eqb_eq in E'. congruence.
    + destruct (String.eqb n other); auto.
Qed.

Lemma get_set_same name c df : get_col (set_col name c df) name = Ok c.
Proof. unfold get_col, set_col; simpl. now rewrite lookup_assign_same. Qed.

Lemma get_set_other name other c df :
  other <> name -> get_col (set_col name c df) other = get_col df other.
Proof.
  intros H. unfold get_col, set_col; simpl. now rewrite lookup_assign_other.
Qed.

Section NumericColumns.
Context {F : FloatOps}.

Lemma numeric_set_same name l df :
  numeric (set_col name (floats l) df) name = Ok l.
Proof. unfold numeric. rewrite get_set_same. simpl. apply mapM_floats. Qed.

Lemma numeric_set_other name other c df :
  other <> name -> numeric (set_col name c df) other = numeric df other.
Proof. intros H. unfold numeric. now rewrite get_set_other. Qed.

(** ** Shifts and slices *)

Lemma shift_up_one {A} (fill : A) (l : list A) :
  shift fill (-1) l = match l with [] => [] | _ :: l' => l' ++ [fill] end.
Proof. destruct l; reflexivity. Qed.

Lemma shift_down_one {A} (fill : A) (l : list A) :
  shift fill 1 l = firstn (length l) (fill :: l).
Proof. reflexivity. Qed.

Lemma shift_length {A} (fill : A) (n : Z) (l : list A) :
  length (shift fill n l) = length l.
Proof.
  unfold shift. destruct (0 <=? n).
  - rewrite length_firstn, length_app, repeat_length. lia.
  - rewrite length_app, length_skipn, repeat_length. lia.
Qed.

End NumericColumns.

Lemma nth_error_shift_up_one {A} (fill : A) (l : list A) t :
  (t < length l)%nat ->
  nth_error (shift fill (-1) l) t =
  match nth_error l (S t) with Some x => Some x | None => Some fill end.
Proof.
  intros Ht. rewrite shift_up_one. destruct l as [|a l]; simpl in *; [lia|].
  destruct (nth_error l t) eqn:E.
  - rewrite nth_error_app1; auto. apply nth_error_Some. congruence.
  - apply nth_error_None in E. rewrite nth_error_app2 by lia.
    replace (t - length l)%nat with 0%nat by lia. reflexivity.
Qed.

Lemma nth_error_shift_down_one {A} (fill : A) (l : list A) t :
  (t < length l)%nat ->
  nth_error (shift fill 1 l) t =
  match t with O => Some fill | S t' => nth_error l t' end.
Proof.
  intros Ht. rewrite shift_down_one, nth_error_firstn.
  destruct (Nat.ltb_spec t (length l)); [|lia]. destruct t; reflexivity.
Qed.

Lemma py_slice_from {A} (a : Z) (l : list A) :
  py_slice (Some a) None l =
  skipn (Z.to_nat (slice_bound (Z.of_nat (length l)) 0 (Some a))) l.
Proof.
  unfold py_slice. cbn [slice_bound].
  apply firstn_all2. rewrite length_skipn.
  destruct (a <? 0); lia.
Qed.

Lemma last_in_skipn {A} (rows : list A) (last : A) k :
  (k <= length rows)%nat -> In last (skipn k (rows ++ [last])).
Proof.
  intros Hk. rewrite skipn_app. apply in_or_app. right.
  replace (k - length rows)%nat with 0%nat by lia. now left.
Qed.

Lemma py_slice_map {A B} (f : A -> B) a b (l : list A) :
  py_slice a b (map f l) = map f (py_slice a b l).
Proof.
  unfold py_slice. rewrite length_map, skipn_map, firstn_map. reflexivity.
Qed.

(* ------------------------------------------------------------------ *)
(** ** Target labelling *)

Section TargetLabels.
Context {F : FloatOps}.

Lemma create_targets_columns df out :
  create_targets df = Ok out ->
  exists close,
    numeric df "close" = Ok close /\
    out = set_col "target" (zip_with label_up (shift NaN (-1) close) close)
            (set_col "tomorrow" (floats (shift NaN (-1) close)) df).
Proof.
  unfold create_targets. intros H. inv_bind H.
  rewrite numeric_set_same in H. cbn [bind] in H.
  rewrite numeric_set_other in H by discriminate.
  rewrite Hv in H. cbn [bind] in H. injection H as <-. eauto.
Qed.

(** C1, as the code has it: the closes are compared as floats, an integer
    close being converted to a float first.  For every row but the last
    the label is 1 when the next close is greater than the row's close and
    0 otherwise; on the last row, whose next close is missing, the
    comparison is false and the label is 0.  No row is removed, and the
    baseline split keeps the last row in its test set. *)
Theorem create_targets_labels df out :
  create_targets df = Ok out ->
  exists close target,
    numeric df "close" = Ok close /\
    get_col out "target" = Ok target /\
    index out = index df /\
    length target = length close /\
    (forall t today tomorrow,
        nth_error close t = Some today ->
        nth_error close (S t) = Some tomorrow ->
        nth_error target t = Some (VInt (if fgt tomorrow today then 1 else 0))) /\
    (forall t today,
        nth_error close t = Some today ->
        nth_error close (S t) = None ->
        nth_error target t = Some (VInt 0)) /\
    (forall rows last,
        index out = rows ++ [last] ->
        In last (index (snd (baseline_split out)))).
Proof.
  intros H. destruct (create_targets_columns _ _ H) as (close & Hc & ->).
  exists close, (zip_with label_up (shift NaN (-1) close) close).
  split; [exact Hc|]. split; [apply get_set_same|]. split; [reflexivity|].
  split.
  { rewrite zip_with_length, shift_length. lia. }
  assert (Hrow : forall t today,
             nth_error close t = Some today ->
             nth_error (zip_with label_up (shift NaN (-1) close) close) t =
             Some (label_up (match nth_error close (S t) with
                             | Some x => x | None => NaN end) today)).
  { intros t today Ht. rewrite nth_error_zip_with, Ht.
    rewrite nth_error_shift_up_one
      by (apply nth_error_Some; congruence).
    destruct (nth_error close (S t)); reflexivity. }
  split; [|split].
  - intros t today tomorrow Ht Hn. rewrite (Hrow _ _ Ht), Hn. reflexivity.
  - intros t today Ht Hn. rewrite (Hrow _ _ Ht), Hn. reflexivity.
  - intros rows last Hidx. cbn [baseline_split snd iloc index].
    rewrite py_slice_from. cbn [set_col index] in *. rewrite Hidx.
    rewrite length_app. cbn [length slice_bound].
    change (-300 <? 0) with true. cbv iota.
    apply last_in_skipn. lia.
Qed.

End TargetLabels.

Example create_targets_five : create_targets (F := exact_ops) five_closes = Ok five_labelled.
Proof. reflexivity. Qed.

Lemma create_targets_labels_witness :
  create_targets (F := exact_ops) five_closes = Ok five_labelled /\
  exists close target,
    numeric (F := exact_ops) five_closes "close" = Ok close /\
    get_col five_labelled "target" = Ok target /\
    index five_labelled = index five_closes /\
    length target = length close /\
    (forall t today tomorrow,
        nth_error close t = Some today ->
        nth_error close (S t) = Some tomorrow ->
        nth_error target t = Some (VInt (if fgt tomorrow today then 1 else 0))) /\
    (forall t today,
        nth_error close t = Some today ->
        nth_error close (S t) = None ->
        nth_error target t = Some (VInt 0)) /\
    (forall rows last,
        index five_labelled = rows ++ [last] ->
        In last (index (snd (baseline_split five_labelled)))).
Proof.
  split; [reflexivity|].
  apply (create_targets_labels (F := exact_ops) five_closes five_labelled). reflexivity.
Defined.

(** Integer closes are compared after their conversion to floats: of the
    closes 2^53, 2^53 + 1 and 2^53 + 2 the first two become the same float,
    so the first row is not labelled as a rise. *)
Example create_targets_of_large_integers :
  create_targets (F := wide_ops)
    {| index := range_index 3;
       columns := [("close", [VInt 9007199254740992; VInt 9007199254740993;
                              VInt 9007199254740994])] |}
  = Ok {| index := range_index 3;
          columns := [("close", [VInt 9007199254740992; VInt 9007199254740993;
                                 VInt 9007199254740994]);
                      ("tomorrow", floats [of_Z 9007199254740992;
                                           of_Z 9007199254740994; NaN]);
                      ("target", [VInt 0; VInt 1; VInt 0])] |}.
Proof. vm_compute. reflexivity. Qed.

(** On the scenario the last row gets the label 0, which is a present
    value, the labelled table still has its five rows, and the last row
    is part of the baseline test set. *)
Lemma last_target_is_zero_not_missing :
  exists out target,
    create_targets (F := exact_ops) five_closes = Ok out /\
    get_col out "target" = Ok target /\
    nth_error target 4 = Some (VInt 0) /\
    isna (VInt 0) = false /\
    nrows out = 5%nat /\
    In 4 (index (snd (baseline_split out))).
Proof.
  exists five_labelled, [VInt 1; VInt 0; VInt 1; VInt 0; VInt 0].
  repeat split; try reflexivity. vm_compute. tauto.
Qed.

(* ------------------------------------------------------------------ *)
(** ** Ranges and slices *)

Lemma range_items_nil lo hi step :
  0 < step -> hi <= lo -> range_items lo hi step = [].
Proof.
  intros Hs Hle. unfold range_items, range_len.
  destruct (Z.ltb_spec 0 step); [|lia].
  destruct (Z.ltb_spec lo hi); [lia|].
  destruct (Z.ltb_spec step 0); [lia|]. reflexivity.
Qed.

Lemma range_len_step lo hi step :
  0 < step -> lo < hi ->
  range_len lo hi step = 1 + range_len (lo + step) hi step
  /\ 0 <= range_len (lo + step) hi step.
Proof.
  intros Hs Hlt. unfold range_len.
  destruct (Z.ltb_spec 0 step); [|lia].
  destruct (Z.ltb_spec lo hi); [|lia].
  destruct (Z.ltb_spec step 0); [lia|]. cbn [andb].
  destruct (Z.ltb_spec (lo + step) hi).
  - replace (hi - 1 - lo) with (hi - 1 - (lo + step) + 1 * step) by ring.
    rewrite Z.div_add by lia.
    assert (0 <= (hi - 1 - (lo + step)) / step) by (apply Z.div_pos; lia).
    lia.
  - rewrite Z.div_small by lia. lia.
Qed.

Lemma range_items_cons lo hi step :
  0 < step -> lo < hi ->
  range_items lo hi step = lo :: range_items (lo + step) hi step.
Proof.
  intros Hs Hlt. unfold range_items.
  destruct (range_len_step lo hi step Hs Hlt) as [-> Hnn].
  rewrite Z2Nat.inj_add by lia. change (Z.to_nat 1) with 1%nat.
  cbn [Nat.add seq map]. f_equal; [cbn; lia|].
  rewrite <- seq_shift, map_map. apply map_ext. intros k. lia.
Qed.

Lemma range_items_ind (P : Z -> list Z -> Prop) hi step :
  0 < step ->
  (forall lo, hi <= lo -> P lo []) ->
  (forall lo, lo < hi ->
     P (lo + step) (range_items (lo + step) hi step) ->
     P lo (lo :: range_items (lo + step) hi step)) ->
  forall lo, P lo (range_items lo hi step).
Proof.
  intros Hs Hnil Hcons lo.
  remember (Z.to_nat (hi - lo)) as m eqn:Hm.
  revert lo Hm. induction m as [m IH] using lt_wf_ind. intros lo Hm.
  destruct (Z_lt_le_dec lo hi) as [Hlt|Hle].
  - rewrite range_items_cons by assumption. apply Hcons; [assumption|].
    apply (IH (Z.to_nat (hi - (lo + step)))); [lia|reflexivity].
  - rewrite range_items_nil by assumption. now apply Hnil.
Qed.

Lemma range_items_bounds lo hi step i :
  0 < step -> In i (range_items lo hi step) -> lo <= i < hi.
Proof.
  intros Hs. revert i.
  apply (range_items_ind
           (fun lo items => forall i, In i items -> lo <= i < hi) hi step Hs).
  - intros lo' _ i [].
  - intros lo' Hlt IH i [<-|Hin]; [lia|]. specialize (IH i Hin). lia.
Qed.

Lemma range_items_nth lo hi step k i :
  nth_error (range_items lo hi step) k = Some i -> i = lo + Z.of_nat k * step.
Proof.
  unfold range_items. intros H.
  destruct (nth_error (seq 0 (Z.to_nat (range_len lo hi step))) k) as [j|] eqn:E.
  - rewrite (map_nth_error _ _ _ E) in H. injection H as <-.
    assert (Hk : (k < length (seq 0 (Z.to_nat (range_len lo hi step))))%nat)
      by (apply nth_error_Some; congruence).
    rewrite length_seq in Hk.
    rewrite nth_error_nth' with (d := 0%nat) in E by (rewrite length_seq; lia).
    rewrite seq_nth in E by lia. injection E as <-. reflexivity.
  - apply nth_error_None in E. rewrite <- (length_map
      (fun k => lo + Z.of_nat k * step)) in E.
    apply nth_error_None in E. congruence.
Qed.

Lemma py_slice_nonneg {A} (i j : Z) (l : list A) :
  0 <= i -> 0 <= j ->
  py_slice (Some i) (Some j) l =
  firstn (Z.to_nat (Z.min j (Z.of_nat (length l)) - Z.min i (Z.of_nat (length l))))
         (skipn (Z.to_nat (Z.min i (Z.of_nat (length l)))) l).
Proof.
  intros Hi Hj. unfold py_slice, slice_bound.
  destruct (Z.ltb_spec i 0); [lia|]. destruct (Z.ltb_spec j 0); [lia|].
  reflexivity.
Qed.

Lemma py_slice_prefix {A} (i : Z) (l : list A) :
  0 <= i -> py_slice (Some 0) (Some i) l = firstn (Z.to_nat i) l.
Proof.
  intros Hi. rewrite py_slice_nonneg by lia.
  rewrite (Z.min_l 0) by lia. rewrite Z.sub_0_r. cbn [Z.to_nat skipn].
  destruct (Z_le_gt_dec i (Z.of_nat (length l))).
  - now rewrite Z.min_l by lia.
  - rewrite Z.min_r by lia. rewrite Nat2Z.id, firstn_all.
    symmetry. apply firstn_all2. lia.
Qed.

Lemma py_slice_block {A} (i step : Z) (l : list A) :
  0 <= i < Z.of_nat (length l) -> 0 < step ->
  py_slice (Some i) (Some (i + step)) l =
  firstn (Z.to_nat (Z.min (i + step) (Z.of_nat (length l)) - i))
         (skipn (Z.to_nat i) l).
Proof.
  intros Hi Hs. rewrite py_slice_nonneg by lia.
  now rewrite (Z.min_l i) by lia.
Qed.

Lemma block_then_rest {A} (i step : Z) (l : list A) :
  0 <= i < Z.of_nat (length l) -> 0 < step ->
  py_slice (Some i) (Some (i + step)) l ++ skipn (Z.to_nat (i + step)) l
  = skipn (Z.to_nat i) l.
Proof.
  intros Hi Hs. rewrite py_slice_block by assumption.
  set (k := Z.to_nat (Z.min (i + step) (Z.of_nat (length l)) - i)).
  assert (Hrest : skipn (Z.to_nat (i + step)) l = skipn k (skipn (Z.to_nat i) l)).
  { rewrite skipn_skipn. subst k.
    destruct (Z_le_gt_dec (i + step) (Z.of_nat (length l))).
    - rewrite Z.min_l by lia. f_equal. lia.
    - rewrite Z.min_r by lia. rewrite !skipn_all2 by lia. reflexivity. }
  rewrite Hrest. apply firstn_skipn.
Qed.




Lemma firstn_seq (k a m : nat) : firstn k (seq a m) = seq a (Nat.min k m).
Proof.
  revert a m; induction k as [|k IH]; intros a [|m]; simpl; auto.
  now rewrite IH.
Qed.

Lemma in_range_index_block (n a k : nat) (y : Z) :
  In y (firstn k (skipn a (range_index n))) <->
  Z.of_nat a <= y < Z.min (Z.of_nat a + Z.of_nat k) (Z.of_nat n).
Proof.
  unfold range_index. rewrite skipn_map, firstn_map, skipn_seq, firstn_seq.
  rewrite in_map_iff. split.
  - intros (j & <- & Hj). apply in_seq in Hj. lia.
  - intros Hy. exists (Z.to_nat y). split; [lia|]. apply in_seq. lia.
Qed.

Lemma StronglySorted_app_lt (l1 l2 : list Z) x y :
  StronglySorted Z.lt (l1 ++ l2) -> In x l1 -> In y l2 -> x < y.
Proof.
  induction l1 as [|a l1 IH]; simpl; intros Hs Hx Hy; [contradiction|].
  apply StronglySorted_inv in Hs. destruct Hs as [Hs Hall].
  destruct Hx as [->|Hx]; [|now apply IH].
  rewrite Forall_forall in Hall. apply Hall. apply in_or_app. now right.
Qed.

Lemma lookup_iloc df a b n :
  lookup_col n (columns (iloc df a b))
  = option_map (py_slice a b) (lookup_col n (columns df)).
Proof.
  cbn [iloc columns]. induction (columns df) as [|[m c] cs IH]; [reflexivity|].
  cbn [map lookup_col fst snd]. destruct (String.eqb m n); auto.
Qed.

Lemma lookup_col_in n cs c : lookup_col n cs = Some c -> In (n, c) cs.
Proof.
  induction cs as [|[m c0] cs IH]; cbn [lookup_col]; [discriminate|].
  destruct (String.eqb_spec m n) as [->|].
  - intros [= ->]. now left.
  - intros H. right. now apply IH.
Qed.

Lemma well_formed_lookup df n c :
  well_formed df -> lookup_col n (columns df) = Some c ->
  length c = nrows df.
Proof.
  unfold well_formed. rewrite Forall_forall. intros Hwf H.
  apply (Hwf (n, c)). now apply lookup_col_in.
Qed.

Lemma py_slice_rows {A} (i j : Z) (l : list A) :
  0 <= i <= j ->
  py_slice (Some i) (Some j) l
  = firstn (Z.to_nat j - Z.to_nat i) (skipn (Z.to_nat i) l).
Proof.
  intros Hij. rewrite py_slice_nonneg by lia.
  destruct (Z_le_gt_dec (Z.of_nat (length l)) i) as [Hout|Hin].
  - rewrite (Z.min_r i) by lia. rewrite Nat2Z.id.
    rewrite !skipn_all2 by lia. now rewrite !firstn_nil.
  - rewrite (Z.min_l i) by lia.
    destruct (Z_le_gt_dec j (Z.of_nat (length l))) as [Hj|Hj].
    + rewrite Z.min_l by lia. f_equal. lia.
    + rewrite Z.min_r by lia.
      rewrite !firstn_all2; [reflexivity| |]; rewrite length_skipn; lia.
Qed.

Lemma iloc_rows df (i j : Z) :
  0 <= i <= j ->
  iloc df (Some i) (Some j) = rows (Z.to_nat i) (Z.to_nat j) df.
Proof.
  intros Hij. unfold iloc, rows. f_equal.
  - now apply py_slice_rows.
  - apply map_ext. intros [n c]. cbn [fst snd]. f_equal.
    now apply py_slice_rows.
Qed.

Lemma column_of_iloc df a b n c :
  lookup_col n (columns df) = Some c ->
  column_or_missing n (iloc df a b) = py_slice a b c.
Proof.
  intros H. unfold column_or_missing. now rewrite lookup_iloc, H.
Qed.

(* ------------------------------------------------------------------ *)
(** ** Walk-forward backtest *)

Lemma folds_ok data start step :
  step <> 0 ->
  folds data start step =
  Ok (map (fold_at data step)
          (range_items start (Z.of_nat (nrows data)) step)).
Proof.
  intros Hs. unfold folds, py_range.
  destruct (Z.eqb_spec step 0); [contradiction|]. reflexivity.
Qed.

Lemma predict_index tr te predictors model out :
  predict tr te predictors model = Ok out -> index out = index te.
Proof.
  unfold predict. intros H.
  inv_bind_as H x_train H1. inv_bind_as H y_train H2. inv_bind_as H m H3.
  inv_bind_as H x_test H4. inv_bind_as H preds H5.
  destruct (negb (Nat.eqb (length preds) (nrows te))); [discriminate|].
  inv_bind_as H y_test H6. injection H as <-. reflexivity.
Qed.

Lemma predictions_index predictors model fs :
  forall outs,
    mapM (fun f => predict (train f) (test f) predictors model) fs = Ok outs ->
    flat_map index outs = flat_map (fun f => index (test f)) fs.
Proof.
  induction fs as [|f fs IH]; intros outs H; cbn [mapM] in H.
  - injection H as <-. reflexivity.
  - inv_bind_as H o Ho. inv_bind_as H os Hos. injection H as <-.
    cbn [flat_map]. now rewrite (predict_index _ _ _ _ _ Ho), (IH os Hos).
Qed.

Lemma concat_frames_index fs out :
  concat_frames fs = Ok out -> index out = flat_map index fs.
Proof.
  destruct fs as [|f fs]; cbn [concat_frames]; [discriminate|].
  intros H. injection H as <-. reflexivity.
Qed.



(** C3: in every fold the train slice is the table of the rows at the
    positions [0, i) and the test slice the table of the rows at the
    positions [i, min (i + step) N) that follow them: the labels of the
    table, and the cells of each of its columns, begin with those of the
    train slice followed by those of the test slice.  So every label of
    the train slice is smaller than every label of the test slice when the
    labels increase along the table. *)
Theorem fold_train_precedes_test data start step fs f :
  0 <= start -> 1 <= step ->
  folds data start step = Ok fs -> In f fs ->
  start <= boundary f < Z.of_nat (nrows data) /\
  train f = rows 0 (Z.to_nat (boundary f)) data /\
  test f = rows (Z.to_nat (boundary f)) (Z.to_nat (boundary f + step)) data /\
  index (train f) = firstn (Z.to_nat (boundary f)) (index data) /\
  index (test f) =
    firstn (Z.to_nat (Z.min (boundary f + step) (Z.of_nat (nrows data))
                      - boundary f))
           (skipn (Z.to_nat (boundary f)) (index data)) /\
  (exists later, index data = index (train f) ++ index (test f) ++ later) /\
  (forall n c, lookup_col n (columns data) = Some c ->
     exists later,
       c = column_or_missing n (train f) ++ column_or_missing n (test f)
           ++ later) /\
  (StronglySorted Z.lt (index data) ->
   forall x y, In x (index (train f)) -> In y (index (test f)) -> x < y) /\
  (index data = range_index (nrows data) ->
   (forall x, In x (index (train f)) <-> 0 <= x < boundary f) /\
   (forall y, In y (index (test f)) <->
              boundary f <= y
              < Z.min (boundary f + step) (Z.of_nat (nrows data)))).
Proof.
  intros Hstart Hstep Hfs Hin. rewrite folds_ok in Hfs by lia.
  injection Hfs as <-. apply in_map_iff in Hin. destruct Hin as (i & <- & Hi).
  apply range_items_bounds in Hi; [|lia].
  cbn [fold_at boundary train test].
  split; [exact Hi|].
  split; [now rewrite iloc_rows by lia|].
  split; [apply iloc_rows; lia|].
  assert (Hcols : forall n c, lookup_col n (columns data) = Some c ->
            exists later,
              c = column_or_missing n (iloc data (Some 0) (Some i))
                  ++ column_or_missing n (iloc data (Some i) (Some (i + step)))
                  ++ later).
  { intros n c Hc. rewrite !(column_of_iloc _ _ _ _ _ Hc).
    rewrite py_slice_prefix, py_slice_rows by lia.
    eexists. now rewrite firstn_skipn, firstn_skipn. }
  cbn [iloc index].
  assert (Htrain : py_slice (Some 0) (Some i) (index data)
                   = firstn (Z.to_nat i) (index data))
    by (apply py_slice_prefix; lia).
  assert (Htest : py_slice (Some i) (Some (i + step)) (index data)
                  = firstn (Z.to_nat (Z.min (i + step) (Z.of_nat (nrows data))
                                      - i))
                           (skipn (Z.to_nat i) (index data)))
    by (apply py_slice_block; unfold nrows in Hi; lia).
  rewrite Htrain, Htest.
  set (k := Z.to_nat (Z.min (i + step) (Z.of_nat (nrows data)) - i)).
  assert (Hsplit : index data
                   = firstn (Z.to_nat i) (index data)
                     ++ firstn k (skipn (Z.to_nat i) (index data))
                     ++ skipn k (skipn (Z.to_nat i) (index data))).
  { now rewrite firstn_skipn, firstn_skipn. }
  split; [reflexivity|]. split; [reflexivity|].
  split; [eexists; exact Hsplit|]. split; [exact Hcols|]. split.
  - intros Hsorted x y Hx Hy. rewrite Hsplit in Hsorted.
    apply (StronglySorted_app_lt _ _ x y Hsorted Hx).
    apply in_or_app. now left.
  - intros Hrange. split.
    + intros x. rewrite Hrange.
      pose proof (in_range_index_block (nrows data) 0 (Z.to_nat i) x) as Hx.
      cbn [skipn] in Hx. rewrite Hx. lia.
    + intros y. rewrite Hrange, in_range_index_block. subst k. lia.
Qed.

(** C9: when the table has no more rows than [start], the loop of
    [backtest] runs no fold and the concatenation of the empty list of
    predictions raises. *)
Theorem backtest_without_folds data model predictors start step :
  Z.of_nat (nrows data) <= start -> 1 <= step ->
  folds data start step = Ok [] /\
  backtest data model predictors start step = Raise NoObjectsToConcatenate.
Proof.
  intros Hshort Hstep.
  assert (Hfolds : folds data start step = Ok []).
  { rewrite folds_ok by lia. now rewrite range_items_nil by lia. }
  split; [exact Hfolds|]. unfold backtest. rewrite Hfolds. reflexivity.
Qed.

(** A zero step is rejected by [range] before any fold is built. *)
Remark backtest_zero_step data model predictors start :
  backtest data model predictors start 0 = Raise ZeroStep.
Proof. reflexivity. Qed.

(** The scenario of the specification: start = 3 and step = 1 on five rows
    give the folds train [0:3] / test [3:4] and train [0:4] / test [4:5]. *)
Example folds_five :
  folds five_labelled 3 1
  = Ok [fold_at five_labelled 1 3; fold_at five_labelled 1 4]
  /\ map (fun f => (index (train f), index (test f)))
         [fold_at five_labelled 1 3; fold_at five_labelled 1 4]
     = [([0; 1; 2], [3]); ([0; 1; 2; 3], [4])].
Proof. split; reflexivity. Qed.

Example backtest_five :
  backtest five_labelled always_up ["close"] 3 1
  = Ok {| index := [3; 4];
          columns := [("target", [VInt 0; VInt 0]);
                      ("Predictions", [VInt 1; VInt 1])] |}.
Proof. reflexivity. Qed.


Lemma fold_train_precedes_test_witness :
  exists f3 f4,
    (0 <= 3 /\ 1 <= 1 /\
     folds five_labelled 3 1 = Ok [f3; f4] /\ In f4 [f3; f4]) /\
    boundary f4 = 4 /\
    train f4
    = {| index := [0; 1; 2; 3];
         columns := [ ("close", floats (map of_Z [100; 102; 101; 105]));
                      ("tomorrow", floats (map of_Z [102; 101; 105; 103]));
                      ("target", [VInt 1; VInt 0; VInt 1; VInt 0]) ] |} /\
    test f4
    = {| index := [4];
         columns := [ ("close", floats [of_Z 103]);
                      ("tomorrow", floats [NaN]);
                      ("target", [VInt 0]) ] |} /\
    (forall x y, In x (index (train f4)) -> In y (index (test f4)) -> x < y).
Proof.
  exists (fold_at five_labelled 1 3), (fold_at five_labelled 1 4).
  assert (Hfolds : folds five_labelled 3 1
                   = Ok [fold_at five_labelled 1 3; fold_at five_labelled 1 4])
    by reflexivity.
  assert (Hin : In (fold_at five_labelled 1 4)
                   [fold_at five_labelled 1 3; fold_at five_labelled 1 4])
    by (right; left; reflexivity).
  split; [repeat split; try lia; assumption|].
  destruct (fold_train_precedes_test five_labelled 3 1 _ _
              ltac:(lia) ltac:(lia) Hfolds Hin)
    as (_ & Htrain & Htest & _ & _ & _ & _ & Hsorted & _).
  split; [reflexivity|].
  split; [rewrite Htrain; reflexivity|].
  split; [rewrite Htest; reflexivity|].
  apply Hsorted. repeat constructor; lia.
Defined.

Lemma backtest_without_folds_witness :
  (Z.of_nat (nrows five_labelled) <= default_start /\ 1 <= default_step) /\
  folds five_labelled default_start default_step = Ok [] /\
  backtest five_labelled always_up ["close"] default_start default_step
  = Raise NoObjectsToConcatenate.
Proof.
  split; [unfold default_start, default_step; cbn; lia|].
  apply (backtest_without_folds five_labelled always_up ["close"]
           default_start default_step);
    unfold default_start, default_step; cbn; lia.
Defined.

(* ------------------------------------------------------------------ *)
(** ** Technical features: which horizons are processed *)

Ltac name_neq := unfold fmt; cbn; discriminate.

Lemma assign_all_index cs df : index (assign_all cs df) = index df.
Proof.
  unfold assign_all. revert df. induction cs as [|nc cs IH]; intros df.
  - reflexivity.
  - cbn [fold_left]. now rewrite IH.
Qed.

Lemma lookup_assign_present n m c cs :
  lookup_col n cs <> None -> lookup_col n (assign m c cs) <> None.
Proof.
  intros H. destruct (string_dec n m) as [->|Hne].
  - rewrite lookup_assign_same. discriminate.
  - now rewrite lookup_assign_other.
Qed.

Lemma assign_all_present cs df n :
  In n (map fst cs) \/ lookup_col n (columns df) <> None ->
  lookup_col n (columns (assign_all cs df)) <> None.
Proof.
  unfold assign_all. revert df. induction cs as [|[m c] cs IH]; intros df H.
  - destruct H as [[]|H]; exact H.
  - cbn [fold_left fst snd]. apply IH. cbn [map fst In] in H.
    destruct H as [[<-|H]|H].
    + right. cbn [set_col columns]. rewrite lookup_assign_same. discriminate.
    + now left.
    + right. cbn [set_col columns]. now apply lookup_assign_present.
Qed.

Lemma lookup_filter_rows mask df n :
  lookup_col n (columns (filter_rows mask df))
  = option_map (select mask) (lookup_col n (columns df)).
Proof.
  cbn [filter_rows columns]. induction (columns df) as [|[m c] cs IH].
  - reflexivity.
  - cbn [map lookup_col fst snd]. destruct (String.eqb m n); auto.
Qed.

Lemma mapM_get_col_ok df names :
  Forall (fun n => lookup_col n (columns df) <> None) names ->
  exists cols, mapM (get_col df) names = Ok cols.
Proof.
  induction 1 as [|n names Hn _ IH]; cbn [mapM].
  - eauto.
  - destruct IH as (cols & ->). unfold get_col at 1.
    destruct (lookup_col n (columns df)) as [c|]; [|congruence].
    cbn [bind]. eauto.
Qed.

Lemma select_none {A} (mask : list bool) (l : list A) :
  Forall (fun b => b = false) mask -> select mask l = [].
Proof.
  intros H. revert l. induction H as [|b mask -> _ IH]; intros [|a l]; auto.
  apply IH.
Qed.

Section NumericTables.
Context {F : FloatOps}.

Lemma mapM_numbers c :
  Forall (fun x => is_number x = true) c ->
  exists x, mapM cell_to_float c = Ok x.
Proof.
  induction 1 as [|v c Hv _ (x & IH)]; cbn [mapM]; [eauto|].
  rewrite IH. destruct v; try discriminate; cbn; eauto.
Qed.

End NumericTables.

Lemma floats_are_numbers l : Forall (fun c => is_number c = true) (floats l).
Proof. unfold floats. apply Forall_forall. intros c Hc.
  apply in_map_iff in Hc. now destruct Hc as (x & <- & _). Qed.

Lemma all_numeric_set_floats name l df :
  all_numeric df -> all_numeric (set_col name (floats l) df).
Proof.
  unfold all_numeric. cbn [set_col columns].
  induction 1 as [|[n c] cs Hc Hcs IH]; cbn [assign].
  - constructor; [apply floats_are_numbers|constructor].
  - destruct (String.eqb n name); constructor; auto.
    cbn [snd]. apply floats_are_numbers.
Qed.

Section TechnicalLoop.
Context {F : FloatOps} {R : RollingPolicy}.

Lemma rolling_averages_of_close w cs :
  forall ra c x,
    rolling_mean_columns w cs = Ok ra ->
    lookup_col "close" cs = Some c ->
    mapM cell_to_float c = Ok x ->
    lookup_col "close" ra = Some (floats (rolling_mean w x)).
Proof.
  induction cs as [|[n c0] cs IH]; intros ra c x Hra Hc Hx; [discriminate|].
  cbn [rolling_mean_columns lookup_col] in Hra, Hc.
  destruct (String.eqb n "close") eqn:E.
  - injection Hc as ->. rewrite Hx in Hra.
    inv_bind_as Hra rest Hrest. injection Hra as <-.
    cbn [lookup_col]. now rewrite E.
  - destruct (mapM cell_to_float c0).
    + inv_bind_as Hra rest Hrest. injection Hra as <-.
      cbn [lookup_col]. rewrite E. eauto.
    + destruct drops_nuisance_columns; [eauto|discriminate].
Qed.

Lemma rolling_mean_columns_ok w df :
  all_numeric df -> exists ra, rolling_mean_columns w (columns df) = Ok ra.
Proof.
  unfold all_numeric.
  induction 1 as [|[n c] cs Hc _ (ra & IH)]; cbn [rolling_mean_columns];
    [eauto|].
  destruct (mapM_numbers c Hc) as (x & ->). rewrite IH. cbn [bind]. eauto.
Qed.

Lemma numeric_averages df w ra close :
  rolling_mean_columns w (columns df) = Ok ra ->
  numeric df "close" = Ok close ->
  numeric {| index := index df; columns := ra |} "close"
  = Ok (rolling_mean w close).
Proof.
  intros Hra Hc. unfold numeric, get_col in Hc.
  destruct (lookup_col "close" (columns df)) as [c|] eqn:El; [|discriminate].
  cbn [bind] in Hc. unfold numeric, get_col. cbn [columns].
  rewrite (rolling_averages_of_close w _ _ _ _ Hra El Hc). cbn [bind].
  apply mapM_floats.
Qed.

Lemma add_horizon_ok h df close target :
  1 <= h ->
  all_numeric df ->
  numeric df "close" = Ok close ->
  numeric df "target" = Ok target ->
  add_horizon h df = Ok (assign_all (horizon_columns_of h close target) df).
Proof.
  intros Hh Hnum Hc Ht. unfold add_horizon.
  destruct (Z.ltb_spec h 0); [lia|].
  destruct (rolling_mean_columns_ok (Z.to_nat h) df Hnum) as (ra & Hra).
  rewrite Hra. cbn [bind]. rewrite Hc. cbn [bind].
  rewrite (numeric_averages _ _ _ _ Hra Hc). cbn [bind].
  rewrite Ht. cbn [bind].
  destruct (Z.ltb_spec h 1); [lia|]. reflexivity.
Qed.

Lemma add_horizon_inv h df df1 :
  add_horizon h df = Ok df1 ->
  exists close target,
    numeric df "close" = Ok close /\ numeric df "target" = Ok target /\
    df1 = assign_all (horizon_columns_of h close target) df.
Proof.
  unfold add_horizon. destruct (h <? 0); [discriminate|]. intros H.
  inv_bind_as H ra Hra. inv_bind_as H close Hc.
  rewrite (numeric_averages _ _ _ _ Hra Hc) in H. cbn [bind] in H.
  inv_bind_as H target Ht. destruct (h <? 1); [discriminate|].
  injection H as <-. eauto.
Qed.

Lemma horizon_columns_names h close target :
  map fst (horizon_columns_of h close target) = predictor_names h.
Proof. reflexivity. Qed.

Lemma horizon_keeps_close h close target df :
  numeric (assign_all (horizon_columns_of h close target) df) "close"
  = numeric df "close".
Proof.
  unfold assign_all, horizon_columns_of, horizon_columns.
  cbn [fold_left fst snd].
  rewrite !numeric_set_other by name_neq. reflexivity.
Qed.

Lemma horizon_keeps_target h close target df :
  numeric (assign_all (horizon_columns_of h close target) df) "target"
  = numeric df "target".
Proof.
  unfold assign_all, horizon_columns_of, horizon_columns.
  cbn [fold_left fst snd].
  rewrite !numeric_set_other by name_neq. reflexivity.
Qed.

Lemma horizon_keeps_numeric h close target df :
  all_numeric df ->
  all_numeric (assign_all (horizon_columns_of h close target) df).
Proof.
  intros H. unfold assign_all, horizon_columns_of, horizon_columns.
  cbn [fold_left fst snd]. now repeat apply all_numeric_set_floats.
Qed.

Lemma add_horizons_skips_all hs df ps :
  Forall (fun h => Z.of_nat (nrows df) < h) hs ->
  add_horizons hs df ps = Ok (df, ps).
Proof.
  induction 1 as [|h hs Hh _ IH]; cbn [add_horizons]; [reflexivity|].
  destruct (Z.ltb_spec (Z.of_nat (nrows df)) h); [exact IH|lia].
Qed.

Lemma add_horizons_ok hs :
  forall df ps close target,
    all_numeric df ->
    numeric df "close" = Ok close ->
    numeric df "target" = Ok target ->
    Forall (fun h => 1 <= h) hs ->
    exists df',
      add_horizons hs df ps
      = Ok (df', ps ++ flat_map predictor_names (processed df hs)) /\
      index df' = index df /\
      (forall n,
          In n (flat_map predictor_names (processed df hs))
          \/ lookup_col n (columns df) <> None ->
          lookup_col n (columns df') <> None).
Proof.
  induction hs as [|h hs IH]; intros df ps close target Hnum Hc Ht Hpos.
  - exists df. cbn. rewrite app_nil_r. repeat split; auto.
    intros n [[]|H]; exact H.
  - inversion Hpos as [|? ? Hh Hpos']; subst.
    cbn [add_horizons processed filter].
    destruct (Z.ltb_spec (Z.of_nat (nrows df)) h) as [Hskip|Hrun].
    + destruct (Z.leb_spec h (Z.of_nat (nrows df))); [lia|].
      apply (IH df ps close target); assumption.
    + destruct (Z.leb_spec h (Z.of_nat (nrows df))); [|lia].
      rewrite (add_horizon_ok h df close target) by assumption. cbn [bind].
      set (df1 := assign_all (horizon_columns_of h close target) df).
      assert (Hidx : index df1 = index df) by apply assign_all_index.
      destruct (IH df1 (ps ++ predictor_names h) close target)
        as (df' & Hrun' & Hidx' & Hcols).
      { unfold df1. now apply horizon_keeps_numeric. }
      { unfold df1. now rewrite horizon_keeps_close. }
      { unfold df1. now rewrite horizon_keeps_target. }
      { assumption. }
      assert (Hproc : processed df1 hs = processed df hs).
      { unfold processed, nrows. now rewrite Hidx. }
      rewrite Hproc in *.
      exists df'. cbn [flat_map]. rewrite Hrun', <- app_assoc.
      split; [reflexivity|]. split; [congruence|].
      intros n Hn. apply Hcols.
      destruct Hn as [Hn|Hn].
      * apply in_app_or in Hn. destruct Hn as [Hn|Hn]; [|now left].
        right. apply assign_all_present. left.
        now rewrite horizon_columns_names.
      * right. apply assign_all_present. now right.
Qed.

(** C5, as the code has it: a horizon is skipped exactly when it is
    greater than the number of rows, so a horizon equal to the number of
    rows is processed.  On a table of numbers with a close and a target
    column and horizons that are window sizes (at least 1), no error is
    raised, the predictor
    list holds the nine names of every horizon that is not skipped, in
    order, and nothing for a skipped one, and each listed predictor is a
    column of the returned table. *)
Theorem horizons_above_length_are_skipped df hs close target :
  all_numeric df ->
  numeric df "close" = Ok close ->
  numeric df "target" = Ok target ->
  Forall (fun h => 1 <= h) hs ->
  exists out,
    create_ohlc_features df hs
    = Ok (out,
          flat_map predictor_names
                   (filter (fun h => h <=? Z.of_nat (nrows df)) hs)) /\
    (forall h p,
        In h hs -> h <= Z.of_nat (nrows df) -> In p (predictor_names h) ->
        lookup_col p (columns out) <> None).
Proof.
  intros Hnum Hc Ht Hpos.
  destruct (add_horizons_ok hs df [] close target Hnum Hc Ht Hpos)
    as (df1 & Hrun & Hidx & Hcols).
  unfold create_ohlc_features. rewrite Hrun. cbn [bind app].
  fold (processed df hs).
  destruct (mapM_get_col_ok df1 (flat_map predictor_names (processed df hs)))
    as (cols & Hget).
  { apply Forall_forall. intros n Hn. apply Hcols. now left. }
  unfold dropna_all. rewrite Hget. cbn [bind].
  eexists. split; [reflexivity|].
  intros h p Hin Hle Hp. rewrite lookup_filter_rows.
  assert (Hpresent : lookup_col p (columns df1) <> None).
  { apply Hcols. left. apply in_flat_map. exists h. split; [|exact Hp].
    apply filter_In. split; [exact Hin|]. now apply Z.leb_le. }
  destruct (lookup_col p (columns df1)); [discriminate|congruence].
Qed.

(** C10: when every horizon exceeds the number of rows, nothing is added,
    the predictor list is empty, and the final drop, which keeps a row
    only if one of the (no) predictors is present in it, keeps no row: the
    returned table has the columns of the input and no rows. *)
Theorem all_horizons_skipped_drops_every_row df hs :
  Forall (fun h => Z.of_nat (nrows df) < h) hs ->
  create_ohlc_features df hs
  = Ok ({| index := [];
           columns := map (fun nc => (fst nc, [])) (columns df) |}, [])
  /\ (index df <> [] ->
      {| index := [];
         columns := map (fun nc => (fst nc, [])) (columns df) |} <> df).
Proof.
  intros Hskip. split.
  - unfold create_ohlc_features.
    rewrite add_horizons_skips_all by assumption.
    cbn [bind dropna_all mapM]. unfold filter_rows.
    assert (Hnone : forall A (l : list A),
               select (map (keep_row []) (seq 0 (nrows df))) l = []).
    { intros A l. apply select_none. apply Forall_forall.
      intros b Hb. apply in_map_iff in Hb. now destruct Hb as (r & <- & _). }
    rewrite Hnone. do 3 f_equal. apply map_ext. intros nc.
    now rewrite Hnone.
  - intros Hne Heq. apply Hne. now rewrite <- Heq.
Qed.

End TechnicalLoop.

Lemma horizons_above_length_are_skipped_witness :
  (all_numeric five_labelled /\
   numeric (F := exact_ops) five_labelled "close"
   = Ok (map of_Z [100; 102; 101; 105; 103]) /\
   numeric (F := exact_ops) five_labelled "target" = Ok (map of_Z [1; 0; 1; 0; 0]) /\
   Forall (fun h => 1 <= h) [2; 5; 6]) /\
  exists out,
    create_ohlc_features (F := exact_ops) (R := rejecting)
      five_labelled [2; 5; 6]
    = Ok (out, predictor_names 2 ++ predictor_names 5) /\
    (forall h p,
        In h [2; 5; 6] -> h <= 5 -> In p (predictor_names h) ->
        lookup_col p (columns out) <> None).
Proof.
  split.
  - split; [repeat constructor|]. split; [reflexivity|].
    split; [reflexivity|]. repeat constructor; lia.
  - apply (horizons_above_length_are_skipped (F := exact_ops) (R := rejecting)
             five_labelled [2; 5; 6] (map of_Z [100; 102; 101; 105; 103])
             (map of_Z [1; 0; 1; 0; 0])).
    + repeat constructor.
    + reflexivity.
    + reflexivity.
    + repeat constructor; lia.
Defined.

(** A horizon equal to the number of rows is not skipped: on the five-row
    table the horizon 5 yields its nine predictors. *)
Lemma horizon_equal_to_length_is_processed :
  Z.of_nat (nrows five_labelled) <= 5 /\
  exists out,
    create_ohlc_features (F := exact_ops) (R := rejecting) five_labelled [5]
    = Ok (out, predictor_names 5) /\
    length (predictor_names 5) = 9%nat /\
    nrows out = 5%nat.
Proof.
  split; [cbn; lia|].
  eexists. split; [|split; [reflexivity|]].
  - vm_compute. reflexivity.
  - reflexivity.
Qed.

(** A column of dates is rejected by the rolling average of pandas 2 and
    left out by older versions. *)
Example nuisance_column_policy :
  create_ohlc_features (F := exact_ops) (R := rejecting) five_dated [2]
  = Raise NonNumeric
  /\ exists out,
       create_ohlc_features (F := exact_ops) (R := dropping) five_dated [2]
       = Ok (out, predictor_names 2).
Proof. split; [reflexivity|]. eexists. vm_compute. reflexivity. Qed.

(** A horizon below one is not a window size: it is not skipped, and the
    window routines reject it. *)
Example nonpositive_horizon_raises :
  create_ohlc_features (F := exact_ops) (R := rejecting) five_labelled [0] = Raise (BadSpan 0)
  /\ create_ohlc_features (F := exact_ops) (R := rejecting) five_labelled [-1]
     = Raise (BadWindow (-1)).
Proof. split; reflexivity. Qed.

Lemma all_horizons_skipped_drops_every_row_witness :
  Forall (fun h => Z.of_nat (nrows five_labelled) < h) [10; 15; 20] /\
  create_ohlc_features (F := exact_ops) (R := rejecting) five_labelled [10; 15; 20]
  = Ok ({| index := [];
           columns := [("close", []); ("tomorrow", []); ("target", [])] |}, []).
Proof.
  split; [repeat constructor; cbn; lia|].
  apply (all_horizons_skipped_drops_every_row (F := exact_ops)
           (R := rejecting) five_labelled [10; 15; 20]).
  repeat constructor; cbn; lia.
Defined.

(* ------------------------------------------------------------------ *)
(** ** Technical features: the range of the RSI *)

Lemma Qlt_bool_false a b : (b <= a)%Q -> Qlt_bool a b = false.
Proof.
  intros H. unfold Qlt_bool. apply Qle_bool_iff in H. now rewrite H.
Qed.


Lemma Qeq_bool_false_pos a : (0 < a)%Q -> Qeq_bool a 0 = false.
Proof.
  intros H. destruct (Qeq_bool a 0) eqn:E; [|reflexivity].
  apply Qeq_bool_eq in E. lra.
Qed.


Lemma filter_all {A} (p : A -> bool) (l : list A) :
  Forall (fun x => p x = true) l -> filter p l = l.
Proof.
  induction 1 as [|x l Hx _ IH]; cbn [filter]; [reflexivity|].
  now rewrite Hx, IH.
Qed.



Lemma filter_shorter {A} (p : A -> bool) (l : list A) :
  (length (filter p l) <= length l)%nat.
Proof.
  induction l as [|x l IH]; cbn [filter length]; [lia|].
  destruct (p x); cbn [length]; lia.
Qed.

Section RSI.
Context {F : FloatOps}.

Lemma rnd_nonneg q : (0 <= q)%Q -> (0 <= rnd q)%Q.
Proof. intros H. pose proof (rnd_mono 0 q H). pose proof rnd_0. lra. Qed.


Lemma nonneg_notna x : nonneg x -> notna x = true.
Proof. destruct x; simpl; intros H; auto; contradiction. Qed.





Lemma nth_error_rolling h agg l t :
  nth_error (rolling h agg l) t =
  if (t <? length l)%nat then Some (rolling_at h agg l t) else None.
Proof.
  unfold rolling. rewrite nth_error_map.
  destruct (Nat.ltb_spec t (length l)) as [Hlt|Hge].
  - rewrite nth_error_nth' with (d := 0%nat) by (now rewrite length_seq).
    now rewrite seq_nth.
  - assert (E : nth_error (seq 0 (length l)) t = None)
      by (apply nth_error_None; now rewrite length_seq).
    now rewrite E.
Qed.

Lemma rolling_length h agg l : length (rolling h agg l) = length l.
Proof. unfold rolling. now rewrite length_map, length_seq. Qed.










End RSI.

(* ------------------------------------------------------------------ *)
(** ** Technical features: the trend and the label of the same row *)

Lemma peek_same_row t cs1 cs2 n :
  Forall2 (same_row t) cs1 cs2 -> peek t cs1 n = peek t cs2 n.
Proof.
  unfold peek. induction 1 as [|[n1 c1] [n2 c2] cs1 cs2 [Hn Hc] _ IH].
  - reflexivity.
  - cbn [fst snd] in *. subst n2. cbn [lookup_col].
    destruct (String.eqb n1 n); [cbn; now rewrite Hc|exact IH].
Qed.

Lemma peek_assign_all t cs df n :
  peek t (columns (assign_all cs df)) n
  = match peek t (rev cs) n with
    | Some x => Some x
    | None => peek t (columns df) n
    end.
Proof.
  unfold assign_all. induction cs as [|[m c] cs IH] using rev_ind.
  - reflexivity.
  - rewrite fold_left_app, rev_app_distr. cbn [fold_left rev app fst snd].
    unfold peek in *. cbn [set_col columns lookup_col].
    destruct (String.eqb m n) eqn:E.
    + apply String.eqb_eq in E. subst m. now rewrite lookup_assign_same.
    + rewrite lookup_assign_other; [exact IH|].
      intros ->. now rewrite String.eqb_refl in E.
Qed.

Lemma select_nth {A} (mask : list bool) :
  forall (col : list A) t,
    nth_error mask t = Some true ->
    nth_error (select mask col) (count_true (firstn t mask)) = nth_error col t.
Proof.
  unfold select. induction mask as [|b m IH]; intros col t Ht.
  - destruct t; discriminate.
  - destruct col as [|x col];
      [cbn [combine filter map]; now rewrite !nth_error_nil|].
    destruct t as [|t]; cbn [nth_error] in Ht.
    + injection Ht as ->. reflexivity.
    + cbn [firstn count_true combine filter fst].
      destruct b; cbn [map snd Nat.add nth_error]; now apply IH.
Qed.

Lemma in_select {A} (mask : list bool) :
  forall (l : list A) x,
    In x (select mask l) ->
    exists r, nth_error mask r = Some true /\ nth_error l r = Some x.
Proof.
  unfold select. induction mask as [|b m IH]; intros [|y l] x Hx;
    try contradiction.
  cbn [combine filter fst] in Hx. destruct b; cbn [map snd In] in Hx.
  - destruct Hx as [<-|Hx]; [exists 0%nat; auto|].
    destruct (IH l x Hx) as (r & ? & ?). exists (S r). auto.
  - destruct (IH l x Hx) as (r & ? & ?). exists (S r). auto.
Qed.

Lemma position_none x l : ~ In x l -> position x l = None.
Proof.
  induction l as [|y l IH]; cbn [position In]; intros H; [reflexivity|].
  destruct (Z.eqb_spec x y) as [->|_]; [exfalso; auto|].
  rewrite IH; auto.
Qed.

Lemma position_select (mask : list bool) :
  forall idx t label,
    NoDup idx ->
    nth_error idx t = Some label ->
    nth_error mask t = Some true ->
    position label (select mask idx) = Some (count_true (firstn t mask)).
Proof.
  unfold select. induction mask as [|b m IH]; intros idx t label Hnd Hl Ht.
  - destruct t; discriminate.
  - destruct idx as [|y idx]; [destruct t; discriminate|].
    inversion Hnd as [|? ? Hnotin Hnd']; subst.
    destruct t as [|t]; cbn [nth_error] in Hl, Ht.
    + injection Hl as ->. injection Ht as ->.
      cbn. now rewrite Z.eqb_refl.
    + assert (Hne : label <> y).
      { intros ->. apply Hnotin. eapply nth_error_In; eauto. }
      cbn [firstn count_true combine filter fst].
      destruct b; cbn [map snd position Nat.add].
      * destruct (Z.eqb_spec label y); [contradiction|].
        now rewrite (IH idx t label Hnd' Hl Ht).
      * now apply IH.
Qed.

Lemma NoDup_nth_error_inj {A} (l : list A) i j x :
  NoDup l -> nth_error l i = Some x -> nth_error l j = Some x -> i = j.
Proof.
  intros Hnd Hi Hj. apply (proj1 (NoDup_nth_error l) Hnd).
  - apply nth_error_Some. congruence.
  - congruence.
Qed.

Lemma cell_at_filter_rows mask df t label b n :
  NoDup (index df) ->
  nth_error (index df) t = Some label ->
  nth_error mask t = Some b ->
  cell_at (filter_rows mask df) label n
  = if b then match peek t (columns df) n with
              | Some x => x
              | None => None
              end
    else None.
Proof.
  intros Hnd Hl Hb. unfold cell_at, peek. rewrite lookup_filter_rows.
  cbn [filter_rows index].
  destruct b.
  - rewrite (position_select mask (index df) t label Hnd Hl Hb).
    destruct (lookup_col n (columns df)) as [c|]; cbn [option_map];
      [|reflexivity].
    now apply select_nth.
  - rewrite position_none.
    + now destruct (option_map (select mask) (lookup_col n (columns df))).
    + intros Hin. apply in_select in Hin. destruct Hin as (r & Hr & Hx).
      assert (r = t) by (eapply NoDup_nth_error_inj; eauto).
      subst r. congruence.
Qed.

Lemma update_length {A} t (v : A) l : length (update t v l) = length l.
Proof.
  unfold update. rewrite length_app, length_firstn.
  pose proof (length_skipn t l) as Hs.
  destruct (skipn t l); cbn [length] in *; lia.
Qed.

Lemma update_prefix {A} t (v : A) l : firstn t (update t v l) = firstn t l.
Proof.
  unfold update. rewrite firstn_app, firstn_firstn, Nat.min_id, length_firstn.
  destruct (Nat.le_gt_cases t (length l)) as [Hle|Hgt].
  - replace (t - Nat.min t (length l))%nat with 0%nat by lia.
    cbn [firstn]. apply app_nil_r.
  - rewrite skipn_all2 by lia. rewrite firstn_nil. apply app_nil_r.
Qed.

Lemma mapM_firstn {A B} (f : A -> result B) n :
  forall l bs, mapM f l = Ok bs -> mapM f (firstn n l) = Ok (firstn n bs).
Proof.
  induction n as [|n IH]; intros l bs H; [reflexivity|].
  destruct l as [|a l]; cbn [mapM] in H.
  - injection H as <-. reflexivity.
  - inv_bind H. inv_bind H. injection H as <-.
    cbn [firstn mapM]. rewrite Hv. cbn [bind].
    rewrite (IH l v0 Hv0). reflexivity.
Qed.

Lemma set_cell_index n t v df : index (set_cell n t v df) = index df.
Proof. unfold set_cell. now destruct (lookup_col n (columns df)). Qed.

Lemma set_cell_lookup_other n m t v df :
  m <> n ->
  lookup_col m (columns (set_cell n t v df)) = lookup_col m (columns df).
Proof.
  intros Hne. unfold set_cell. destruct (lookup_col n (columns df)); auto.
  cbn [set_col columns]. now apply lookup_assign_other.
Qed.

Lemma set_cell_lookup_same n t v df c :
  lookup_col n (columns df) = Some c ->
  lookup_col n (columns (set_cell n t v df)) = Some (update t v c).
Proof.
  intros H. unfold set_cell. rewrite H. cbn [set_col columns].
  apply lookup_assign_same.
Qed.

Lemma Forall2_rev {A B} (R : A -> B -> Prop) l1 l2 :
  Forall2 R l1 l2 -> Forall2 R (rev l1) (rev l2).
Proof.
  induction 1; cbn [rev]; [constructor|].
  apply Forall2_app; [assumption|]. now repeat constructor.
Qed.

Lemma predictor_is_not_target hs n :
  In n (flat_map predictor_names hs) -> n <> "target".
Proof.
  intros Hin. apply in_flat_map in Hin. destruct Hin as (h & _ & Hn).
  cbn [predictor_names In] in Hn.
  repeat (destruct Hn as [<-|Hn]; [name_neq|]). contradiction.
Qed.

Section TrendAndLabel.
Context {F : FloatOps} {R : RollingPolicy}.

Lemma shifted_prefix (tg : list fval) t :
  (t < length tg)%nat -> firstn (S t) (shift NaN 1 tg) = NaN :: firstn t tg.
Proof.
  intros Ht. rewrite shift_down_one, firstn_firstn.
  replace (Nat.min (S t) (length tg)) with (S t) by lia. reflexivity.
Qed.

(** The trend at row [t] is a function of the labels of the rows before
    [t]. *)
Lemma trend_row_independent w tg1 tg2 t :
  length tg1 = length tg2 ->
  firstn t tg1 = firstn t tg2 ->
  nth_error (trend w tg1) t = nth_error (trend w tg2) t.
Proof.
  intros Hlen Hpre. unfold trend, rolling_sum.
  rewrite !nth_error_rolling, !shift_length, Hlen.
  destruct (Nat.ltb_spec t (length tg2)) as [Ht|]; [|reflexivity].
  f_equal. unfold rolling_at, window.
  rewrite !shifted_prefix by lia. now rewrite Hpre.
Qed.

(** More precisely, it reads the labels of the [w] rows before [t] only. *)
Lemma trend_reads_previous_labels w tg1 tg2 t :
  length tg1 = length tg2 ->
  (forall r, (t - w <= r < t)%nat -> nth_error tg1 r = nth_error tg2 r) ->
  nth_error (trend w tg1) t = nth_error (trend w tg2) t.
Proof.
  intros Hlen Hsame. unfold trend, rolling_sum.
  rewrite !nth_error_rolling, !shift_length, Hlen.
  destruct (Nat.ltb_spec t (length tg2)) as [Ht|]; [|reflexivity].
  f_equal. unfold rolling_at, window.
  rewrite !shifted_prefix by lia.
  destruct (Nat.le_gt_cases w t) as [Hw|Hw].
  - replace (S t - w)%nat with (S (t - w)) by lia. cbn [skipn].
    assert (E : skipn (t - w) (firstn t tg1) = skipn (t - w) (firstn t tg2)).
    { apply nth_error_ext. intros i. rewrite !nth_error_skipn, !nth_error_firstn.
      destruct (Nat.ltb_spec (t - w + i) t); [|reflexivity].
      apply Hsame. lia. }
    now rewrite E.
  - replace (S t - w)%nat with 0%nat by lia.
    cbn [skipn map prep_value filter notna].
    pose proof (filter_shorter notna (map prep_value (firstn t tg1))) as L1.
    pose proof (filter_shorter notna (map prep_value (firstn t tg2))) as L2.
    rewrite length_map, length_firstn in L1, L2.
    destruct (Nat.leb_spec w (length (filter notna
                                        (map prep_value (firstn t tg1)))));
      [lia|].
    destruct (Nat.leb_spec w (length (filter notna
                                        (map prep_value (firstn t tg2)))));
      [lia|].
    reflexivity.
Qed.

Lemma processed_same_index df1 df2 hs :
  index df1 = index df2 -> processed df1 hs = processed df2 hs.
Proof. intros H. unfold processed, nrows. now rewrite H. Qed.

Lemma add_horizons_shape hs :
  forall df ps df' ps',
    add_horizons hs df ps = Ok (df', ps') ->
    ps' = ps ++ flat_map predictor_names (processed df hs) /\
    index df' = index df /\
    df' = assign_all (added df hs) df /\
    (processed df hs <> [] ->
     exists close target,
       numeric df "close" = Ok close /\ numeric df "target" = Ok target).
Proof.
  induction hs as [|h hs IH]; intros df ps df' ps' H.
  - cbn in H. injection H as <- <-. unfold added, processed. cbn [filter flat_map].
    rewrite app_nil_r. repeat split; auto.
    + now destruct (numeric df "close"), (numeric df "target").
    + intros Hne. congruence.
  - cbn [add_horizons] in H. unfold added, processed in *. cbn [filter].
    destruct (Z.ltb_spec (Z.of_nat (nrows df)) h) as [Hskip|Hrun].
    + destruct (Z.leb_spec h (Z.of_nat (nrows df))); [lia|].
      now apply IH.
    + destruct (Z.leb_spec h (Z.of_nat (nrows df))); [|lia].
      inv_bind H. rename v into df1.
      destruct (add_horizon_inv _ _ _ Hv) as (close & target & Hc & Ht & ->).
      set (df1 := assign_all (horizon_columns_of h close target) df) in *.
      assert (Hidx : index df1 = index df) by apply assign_all_index.
      destruct (IH _ _ _ _ H) as (Hps & Hidx' & Hdf & _).
      assert (Hc1 : numeric df1 "close" = Ok close)
        by (unfold df1; now rewrite horizon_keeps_close).
      assert (Ht1 : numeric df1 "target" = Ok target)
        by (unfold df1; now rewrite horizon_keeps_target).
      rewrite Hc1, Ht1 in Hdf. rewrite Hc, Ht.
      assert (Hn : nrows df1 = nrows df) by (unfold nrows; now rewrite Hidx).
      rewrite Hn in *. cbn [flat_map].
      split; [now rewrite Hps, <- app_assoc|]. split; [congruence|].
      split; [|eauto].
      rewrite Hdf. unfold assign_all, df1, assign_all.
      now rewrite fold_left_app.
Qed.

Lemma horizon_columns_same_row h close tg1 tg2 t :
  length tg1 = length tg2 ->
  firstn t tg1 = firstn t tg2 ->
  Forall2 (same_row t) (horizon_columns_of h close tg1)
          (horizon_columns_of h close tg2).
Proof.
  intros Hlen Hpre. unfold horizon_columns_of, horizon_columns.
  constructor; [split; reflexivity|].
  constructor.
  - split; [reflexivity|]. cbn [snd]. unfold floats.
    rewrite !nth_error_map.
    now rewrite (trend_row_independent _ tg1 tg2 t Hlen Hpre).
  - repeat (constructor; [split; reflexivity|]). constructor.
Qed.

Lemma Forall2_flat_map {A B C} (rel : B -> C -> Prop) (f : A -> list B)
  (g : A -> list C) (l : list A) :
  (forall a, Forall2 rel (f a) (g a)) ->
  Forall2 rel (flat_map f l) (flat_map g l).
Proof.
  intros H. induction l as [|a l IH]; cbn [flat_map]; [constructor|].
  now apply Forall2_app.
Qed.

Lemma get_col_lookup df n c :
  get_col df n = Ok c -> lookup_col n (columns df) = Some c.
Proof.
  unfold get_col. destruct (lookup_col n (columns df)); [|discriminate].
  now intros [= ->].
Qed.

Lemma keep_row_same t df1 df2 ps :
  forall cs1 cs2,
    mapM (get_col df1) ps = Ok cs1 ->
    mapM (get_col df2) ps = Ok cs2 ->
    (forall n, In n ps -> peek t (columns df1) n = peek t (columns df2) n) ->
    keep_row cs1 t = keep_row cs2 t.
Proof.
  induction ps as [|n ps IH]; intros cs1 cs2 H1 H2 Hsame; cbn [mapM] in H1, H2.
  - injection H1 as <-. injection H2 as <-. reflexivity.
  - inv_bind H1. inv_bind H1. injection H1 as <-.
    inv_bind H2. inv_bind H2. injection H2 as <-.
    apply get_col_lookup in Hv, Hv1.
    pose proof (Hsame n (or_introl eq_refl)) as Hn. unfold peek in Hn.
    rewrite Hv, Hv1 in Hn. cbn [option_map] in Hn. injection Hn as Hn.
    unfold keep_row in *. cbn [existsb]. rewrite Hn. f_equal.
    apply IH; auto. intros m Hm. apply Hsame. now right.
Qed.

Lemma nth_error_mask cs n t :
  (t < n)%nat ->
  nth_error (map (keep_row cs) (seq 0 n)) t = Some (keep_row cs t).
Proof.
  intros Ht. rewrite nth_error_map.
  rewrite nth_error_nth' with (d := 0%nat) by (now rewrite length_seq).
  now rewrite seq_nth.
Qed.

Lemma two_runs_same_row hs df ps df1 ps1 df2 ps2 t v :
  add_horizons hs df ps = Ok (df1, ps1) ->
  add_horizons hs (set_cell "target" t v df) ps = Ok (df2, ps2) ->
  ps1 = ps2 /\
  ps1 = ps ++ flat_map predictor_names (processed df hs) /\
  index df1 = index df /\
  index df2 = index df /\
  forall n, n <> "target" ->
            peek t (columns df1) n = peek t (columns df2) n.
Proof.
  intros H1 H2. set (df0 := set_cell "target" t v df) in *.
  destruct (add_horizons_shape _ _ _ _ _ H1) as (Hps1 & Hi1 & -> & Hnum1).
  destruct (add_horizons_shape _ _ _ _ _ H2) as (Hps2 & Hi2 & -> & Hnum2).
  assert (Hidx0 : index df0 = index df) by apply set_cell_index.
  assert (Hproc : processed df0 hs = processed df hs)
    by now apply processed_same_index.
  rewrite Hproc in *.
  split; [congruence|]. split; [exact Hps1|].
  split; [exact Hi1|]. split; [congruence|].
  intros n Hn. rewrite !peek_assign_all.
  assert (Hbase : peek t (columns df0) n = peek t (columns df) n).
  { unfold peek, df0. now rewrite set_cell_lookup_other. }
  rewrite Hbase.
  assert (Hrel : Forall2 (same_row t) (added df hs) (added df0 hs)).
  { unfold added. rewrite Hproc.
    destruct (processed df hs) as [|h0 hs0] eqn:EP.
    - destruct (numeric df "close"), (numeric df "target"),
        (numeric df0 "close"), (numeric df0 "target"); constructor.
    - destruct Hnum1 as (c1 & tg1 & Hc1 & Ht1); [discriminate|].
      destruct Hnum2 as (c2 & tg2 & Hc2 & Ht2); [discriminate|].
      rewrite Hc1, Ht1, Hc2, Ht2.
      assert (c2 = c1).
      { unfold numeric, get_col, df0 in Hc2.
        rewrite set_cell_lookup_other in Hc2 by discriminate.
        unfold numeric, get_col in Hc1. congruence. }
      subst c2.
      unfold numeric, get_col in Ht1.
      destruct (lookup_col "target" (columns df)) as [col|] eqn:El;
        [|discriminate].
      cbn [bind] in Ht1.
      unfold numeric, get_col, df0 in Ht2.
      rewrite (set_cell_lookup_same _ t v _ _ El) in Ht2. cbn [bind] in Ht2.
      assert (Hlen : length tg1 = length tg2).
      { apply mapM_length in Ht1 as L1. apply mapM_length in Ht2 as L2.
        rewrite update_length in L2. congruence. }
      assert (Hpre : firstn t tg1 = firstn t tg2).
      { apply (mapM_firstn _ t) in Ht1. apply (mapM_firstn _ t) in Ht2.
        rewrite update_prefix in Ht2. congruence. }
      apply Forall2_flat_map. intros h.
      now apply horizon_columns_same_row. }
  now rewrite (peek_same_row t _ _ n (Forall2_rev _ _ _ Hrel)).
Qed.

(** Every column but the label itself has, in the row of the changed
    label, the same cell in both runs. *)
Lemma features_ignore_label_of_same_row df hs t v label out1 ps1 out2 ps2 n :
  NoDup (index df) ->
  nth_error (index df) t = Some label ->
  create_ohlc_features df hs = Ok (out1, ps1) ->
  create_ohlc_features (set_cell "target" t v df) hs = Ok (out2, ps2) ->
  n <> "target" ->
  cell_at out1 label n = cell_at out2 label n.
Proof.
  intros Hnd Hl H1 H2 Hn. unfold create_ohlc_features in H1, H2.
  inv_bind_as H1 r1 Hrun1. destruct r1 as [df1 p1].
  inv_bind_as H1 o1 Hdrop1. injection H1 as <- <-.
  inv_bind_as H2 r2 Hrun2. destruct r2 as [df2 p2].
  inv_bind_as H2 o2 Hdrop2. injection H2 as <- <-.
  destruct (two_runs_same_row _ _ _ _ _ _ _ _ _ Hrun1 Hrun2)
    as (<- & Hps & Hi1 & Hi2 & Hsame).
  unfold dropna_all in Hdrop1, Hdrop2.
  inv_bind_as Hdrop1 cs1 Hcs1. injection Hdrop1 as <-.
  inv_bind_as Hdrop2 cs2 Hcs2. injection Hdrop2 as <-.
  assert (Ht : (t < length (index df))%nat)
    by (apply nth_error_Some; congruence).
  assert (Hkeep : keep_row cs1 t = keep_row cs2 t).
  { apply (keep_row_same t df1 df2 _ _ _ Hcs1 Hcs2).
    intros m Hm. apply Hsame. rewrite Hps in Hm. cbn [app] in Hm.
    eapply predictor_is_not_target; eauto. }
  rewrite (cell_at_filter_rows _ df1 t label (keep_row cs1 t));
    [|congruence|congruence|apply nth_error_mask; unfold nrows; congruence].
  rewrite (cell_at_filter_rows _ df2 t label (keep_row cs2 t));
    [|congruence|congruence|apply nth_error_mask; unfold nrows; congruence].
  now rewrite Hkeep, (Hsame n Hn).
Qed.

(** C4: two runs of [create_ohlc_features] on tables that differ only in
    the label at row [t] return, in the row labelled like row [t], the
    same cell in every trend column. *)
Theorem trend_ignores_label_of_same_row
  df hs t v label out1 ps1 out2 ps2 h :
  NoDup (index df) ->
  nth_error (index df) t = Some label ->
  create_ohlc_features df hs = Ok (out1, ps1) ->
  create_ohlc_features (set_cell "target" t v df) hs = Ok (out2, ps2) ->
  cell_at out1 label (fmt "Trend_" h) = cell_at out2 label (fmt "Trend_" h).
Proof.
  intros Hnd Hl H1 H2.
  apply (features_ignore_label_of_same_row df hs t v label out1 ps1 out2 ps2);
    auto.
  name_neq.
Qed.

End TrendAndLabel.



(** The bound also holds where every operation is rounded down to a
    multiple of 1/1024. *)
Example rsi_rounded_down :
  exists r,
    nth_error (rsi (F := coarse_ops) 2
                   (map of_Z [100; 102; 101; 105; 103])) 2 = Some (Fin r)
    /\ (0 <= r <= 100)%Q /\ ~ (r == 200 # 3)%Q.
Proof.
  eexists. split; [vm_compute; reflexivity|].
  split; [split|]; unfold Qle, Qeq; cbn; lia.
Qed.

(** Changing the label of row 2 of the five-row table leaves the trend of
    row 2 as it was (and changes the trend of row 3). *)
Lemma trend_ignores_label_of_same_row_witness :
  NoDup (index five_labelled) /\
  nth_error (index five_labelled) 2 = Some 2 /\
  exists out1 ps1 out2 ps2,
    create_ohlc_features (F := exact_ops) (R := rejecting) five_labelled [2] = Ok (out1, ps1) /\
    create_ohlc_features (F := exact_ops) (R := rejecting)
      (set_cell "target" 2 (VInt 0) five_labelled) [2] = Ok (out2, ps2) /\
    cell_at out1 2 (fmt "Trend_" 2) = cell_at out2 2 (fmt "Trend_" 2) /\
    cell_at out1 2 (fmt "Trend_" 2) = Some (VFloat (Fin 1)) /\
    cell_at out1 3 (fmt "Trend_" 2) <> cell_at out2 3 (fmt "Trend_" 2).
Proof.
  assert (Hnd : NoDup (index five_labelled)).
  { cbn. repeat (constructor; [cbn; intuition discriminate|]). constructor. }
  assert (Hl : nth_error (index five_labelled) 2 = Some 2) by reflexivity.
  split; [exact Hnd|]. split; [exact Hl|].
  eexists. eexists. eexists. eexists.
  split; [vm_compute; reflexivity|].
  split; [vm_compute; reflexivity|].
  split; [|split; [vm_compute; reflexivity|vm_compute; discriminate]].
  eapply (trend_ignores_label_of_same_row (F := exact_ops) (R := rejecting)
            five_labelled [2] 2 (VInt 0) 2 _ _ _ _ 2 Hnd Hl);
    vm_compute; reflexivity.
Defined.

(* ------------------------------------------------------------------ *)
(** ** Macro announcement tables *)

Lemma derive_inv src name f df df' :
  derive src name f df = Ok df' ->
  exists c v, get_col df src = Ok c /\ mapM f c = Ok v /\ df' = set_col name v df.
Proof.
  unfold derive. intros H. inv_bind_as H c Hc. inv_bind_as H v Hv.
  injection H as <-. eauto.
Qed.

Lemma zip_withM_nth {A B C} (f : A -> B -> result C) :
  forall l m cs,
    zip_withM f l m = Ok cs ->
    length cs = Nat.min (length l) (length m) /\
    forall r a b,
      nth_error l r = Some a -> nth_error m r = Some b ->
      exists c, nth_error cs r = Some c /\ f a b = Ok c.
Proof.
  induction l as [|a0 l IH]; intros [|b0 m] cs H; cbn [zip_withM] in H;
    try (injection H as <-; split; [reflexivity|];
         intros [|r] a b Ha Hb; discriminate).
  inv_bind_as H c0 Hc0. inv_bind_as H cs0 Hcs0. injection H as <-.
  destruct (IH m cs0 Hcs0) as [Hlen Hnth]. split; [cbn; lia|].
  intros [|r] a b Ha Hb; cbn [nth_error] in *.
  - injection Ha as <-. injection Hb as <-. eauto.
  - eauto.
Qed.

Lemma lookup_dropped names cs n :
  ~ In n names ->
  lookup_col n (filter (fun nc => negb (existsb (String.eqb (fst nc)) names)) cs)
  = lookup_col n cs.
Proof.
  intros Hn. induction cs as [|[m c] cs IH]; [reflexivity|].
  cbn [filter fst lookup_col].
  destruct (String.eqb m n) eqn:E.
  - apply String.eqb_eq in E. subst m.
    assert (Hex : existsb (String.eqb n) names = false).
    { apply not_true_is_false. intros Hex. apply existsb_exists in Hex.
      destruct Hex as (x & Hx & Hxn). apply String.eqb_eq in Hxn.
      subst x. contradiction. }
    rewrite Hex. cbn [negb lookup_col]. now rewrite String.eqb_refl.
  - destruct (negb (existsb (String.eqb m) names)); [|exact IH].
    cbn [lookup_col]. now rewrite E.
Qed.

Lemma drop_cols_keeps names df out n :
  drop_cols names df = Ok out -> ~ In n names ->
  get_col out n = get_col df n.
Proof.
  unfold drop_cols. intros H Hn. inv_bind_as H cs Hcs. injection H as <-.
  unfold get_col. cbn [columns]. now rewrite lookup_dropped.
Qed.

Lemma timedelta_days_of_date a b c :
  timedelta_days a b = Ok c -> (exists y, b = VTime y) \/ b = VNaT.
Proof. destruct a, b; cbn; intros H; try discriminate; eauto. Qed.

Section MacroGaps.
Context {F : FloatOps} {P : DateParsers}.

Lemma announcement_gaps_dates change offset df out :
  String.eqb change "date" = false ->
  announcement_gaps change offset df = Ok out ->
  exists dates days,
    get_col df "date" = Ok dates /\
    index out = index df /\
    get_col out "date" = Ok dates /\
    get_col out "days_until_next_announcement" = Ok days /\
    zip_withM timedelta_days (shift VNaT offset dates) dates = Ok days.
Proof.
  intros Hne H. apply String.eqb_neq in Hne. unfold announcement_gaps in H.
  inv_bind_as H forecast Hf. inv_bind_as H previous Hp.
  inv_bind_as H dates Hd. rewrite get_set_same in H. cbn [bind] in H.
  rewrite get_set_other in H by discriminate. rewrite Hd in H. cbn [bind] in H.
  inv_bind_as H days Hdays. injection H as <-.
  rewrite get_set_other in Hd by (intros E; apply Hne; now rewrite E).
  exists dates, days. split; [exact Hd|]. split; [reflexivity|].
  split; [|split; [apply get_set_same|]].
  - rewrite !get_set_other by discriminate.
    rewrite get_set_other by (intros E; apply Hne; now rewrite E).
    exact Hd.
  - unfold timedelta_days_column in Hdays.
    destruct dates; [discriminate|exact Hdays].
Qed.

Lemma forward_counts dates days :
  zip_withM timedelta_days (shift VNaT (-1) dates) dates = Ok days ->
  counts_to_next dates days.
Proof.
  intros Hz.
  destruct (zip_withM_nth _ _ _ _ Hz) as [Hlen Hnth].
  rewrite shift_length, Nat.min_id in Hlen.
  split; [exact Hlen|]. split.
  - intros r a b Ha Hb.
    destruct (Hnth r (VTime b) (VTime a)) as (c & Hc & Hcalc); [|exact Ha|].
    + rewrite nth_error_shift_up_one by (apply nth_error_Some; congruence).
      now rewrite Hb.
    + cbn in Hcalc. congruence.
  - intros r x Hx Hlast.
    destruct (Hnth r VNaT x) as (c & Hc & Hcalc); [|exact Hx|].
    + rewrite nth_error_shift_up_one by (apply nth_error_Some; congruence).
      now rewrite Hlast.
    + destruct (timedelta_days_of_date _ _ _ Hcalc) as [[y ->]| ->];
        cbn in Hcalc; congruence.
Qed.

Lemma backward_counts dates days :
  zip_withM timedelta_days (shift VNaT 1 dates) dates = Ok days ->
  counts_to_previous dates days.
Proof.
  intros Hz.
  destruct (zip_withM_nth _ _ _ _ Hz) as [Hlen Hnth].
  rewrite shift_length, Nat.min_id in Hlen.
  split; [exact Hlen|]. split.
  - intros r a b Ha Hb.
    destruct (Hnth (S r) (VTime b) (VTime a)) as (c & Hc & Hcalc);
      [|exact Ha|].
    + rewrite nth_error_shift_down_one by (apply nth_error_Some; congruence).
      exact Hb.
    + cbn in Hcalc. congruence.
  - split.
    + intros x Hx.
      destruct (Hnth 0%nat VNaT x) as (c & Hc & Hcalc); [|exact Hx|].
      * now rewrite nth_error_shift_down_one
          by (apply nth_error_Some; congruence).
      * destruct (timedelta_days_of_date _ _ _ Hcalc) as [[y ->]| ->];
          cbn in Hcalc; congruence.
    + intros r a b Ha Hb Hmissing.
      destruct (Hnth (S r) b a) as (c & Hc & Hcalc); [|exact Ha|].
      * rewrite nth_error_shift_down_one
          by (apply nth_error_Some; congruence).
        exact Hb.
      * destruct Hmissing as [-> | ->]; [destruct b|destruct a];
          cbn in Hcalc; congruence.
Qed.

Lemma renamed_dates flag sheet df :
  rename_cols (macro_columns flag)
    (set_col flag (repeat (VInt 1) (nrows sheet)) sheet) = Ok df ->
  exists raw,
    dates_read flag sheet raw /\
    get_col df "date" = Ok raw /\
    index df = index sheet.
Proof.
  unfold rename_cols, dates_read, first_column.
  remember (set_col flag (repeat (VInt 1) (nrows sheet)) sheet) as df0
    eqn:Edf0.
  assert (Hidx : index df0 = index sheet) by (now subst df0).
  assert (Hcols0 : columns df0
                   = assign flag (repeat (VInt 1) (nrows sheet))
                            (columns sheet)) by (now subst df0).
  clear Edf0.
  destruct (length (macro_columns flag) =? length (columns df0))%nat eqn:E;
    [|discriminate].
  intros [= <-].
  destruct (columns df0) as [|[n0 c0] cs] eqn:E0; [discriminate|].
  exists c0. split; [split; [reflexivity|]|split; [reflexivity|exact Hidx]].
  intros n c rest Hcols Hne. rewrite Hcols in Hcols0. cbn [assign] in Hcols0.
  apply String.eqb_neq in Hne. rewrite Hne in Hcols0. congruence.
Qed.

Lemma convert_date_format_gives_dates raw : forall dates,
  mapM convert_date_format raw = Ok dates ->
  Forall (fun c => exists ns, c = VTime ns) dates.
Proof.
  induction raw as [|c raw IH]; intros dates H; cbn [mapM] in H.
  - injection H as <-. constructor.
  - inv_bind_as H x Hx. inv_bind_as H xs Hxs. injection H as <-.
    constructor; [|now apply IH].
    unfold convert_date_format in Hx. destruct c; try discriminate.
    destruct (strptime_bdY (before_paren s)); [|discriminate].
    destruct (parse_datetime (strftime_Ymd p)); [|discriminate].
    injection Hx as <-. eauto.
Qed.

Ltac not_dropped := cbn [In]; intuition discriminate.

Lemma dated_table_forward flag change sheet out :
  String.eqb change "date" = false ->
  (df <- rename_cols (macro_columns flag)
           (set_col flag (repeat (VInt 1) (nrows sheet)) sheet) ;;
   df <- derive "date" "date" convert_date_format df ;;
   df <- announcement_gaps change (-1) df ;;
   drop_cols ["time"; "previous"; "forecast"; "actual";
              "next_announcement_date"] df) = Ok out ->
  gaps_to_next flag sheet out.
Proof.
  intros Hne H.
  inv_bind_as H df1 H1. inv_bind_as H df2 H2. inv_bind_as H df3 H3.
  destruct (renamed_dates _ _ _ H1) as (raw & Hraw & Hget & Hidx).
  destruct (derive_inv _ _ _ _ _ H2) as (raw' & dates & Hget' & Hconv & ->).
  rewrite Hget in Hget'. injection Hget' as <-.
  destruct (announcement_gaps_dates change _ _ _ Hne H3)
    as (dates' & days & Hd0 & Hidx3 & Hd & Hy & Hz).
  rewrite get_set_same in Hd0. injection Hd0 as <-.
  exists raw, dates, days.
  split; [exact Hraw|]. split; [exact Hconv|].
  split; [now apply (convert_date_format_gives_dates raw)|].
  split; [|split; [|split]].
  - unfold drop_cols in H. inv_bind_as H dropped Hdropped.
    injection H as <-. cbn [index]. now rewrite Hidx3.
  - now rewrite (drop_cols_keeps _ _ _ "date" H) by not_dropped.
  - now rewrite (drop_cols_keeps _ _ _ "days_until_next_announcement" H)
      by not_dropped.
  - now apply forward_counts.
Qed.

(** C7: each announcement table has the rows of its sheet in their order
    and reads its dates from the first column of the sheet.  In the
    unemployment-rate and CPI tables the dates are the parsed dates and
    the day count of a row runs from its date to the date of the next row
    of the sheet, and is missing on the last row; in the Fed interest-rate
    table the dates are taken as they are and the count runs from the
    row's date to the date of the previous row, and is missing on the
    first row. *)
Theorem announcement_gap_directions sheet out :
  (un_rate sheet = Ok out -> gaps_to_next "un_announcement" sheet out) /\
  (cpi sheet = Ok out -> gaps_to_next "cpi_announcement" sheet out) /\
  (interest_rates sheet = Ok out ->
   gaps_to_previous "interest_announcement" sheet out).
Proof.
  split; [|split]; intros H.
  - now apply (dated_table_forward "un_announcement" "unempl_change").
  - now apply (dated_table_forward "cpi_announcement" "cpi_change").
  - unfold interest_rates in H.
    inv_bind_as H df1 H1. inv_bind_as H df3 H3.
    destruct (renamed_dates _ _ _ H1) as (raw & Hraw & Hget & Hidx).
    destruct (announcement_gaps_dates "interest_change" _ _ _ eq_refl H3)
      as (dates & days & Hd0 & Hidx3 & Hd & Hy & Hz).
    rewrite Hget in Hd0. injection Hd0 as <-.
    exists raw, days. split; [exact Hraw|]. split; [|split; [|split]].
    + unfold drop_cols in H. inv_bind_as H dropped Hdropped.
      injection H as <-. cbn [index]. now rewrite Hidx3.
    + now rewrite (drop_cols_keeps _ _ _ "date" H) by not_dropped.
    + now rewrite (drop_cols_keeps _ _ _ "days_until_next_announcement" H)
        by not_dropped.
    + now apply backward_counts.
Qed.

End MacroGaps.

Example convert_date_format_example :
  convert_date_format (P := plain_parsers) (VStr "Nov 13, 2024 (Oct)")
  = Ok (VTime (midnight (2024, 11, 13))).
Proof. reflexivity. Qed.

(** A date before the range of a timestamp is refused once it has been
    written out again, and a year below 1000 is written without its
    leading zeros. *)
Example convert_date_format_out_of_range :
  convert_date_format (P := plain_parsers) (VStr "Jan 01, 1600 (Dec)")
  = Raise (UnparseableDate "1600-01-01") /\
  strftime_Ymd (24, 1, 5) = "24-01-05".
Proof. split; reflexivity. Qed.

(** On the CPI sheet, which lists the latest announcement first, the day
    counts to the next row are negative, as the notebook prints them; on
    the Fed sheet the count to the previous row is positive. *)
Lemma announcement_gap_directions_witness :
  (exists out,
      cpi (F := exact_ops) (P := plain_parsers) cpi_sheet = Ok out /\
      gaps_to_next (P := plain_parsers) "cpi_announcement" cpi_sheet out /\
      get_col out "date"
      = Ok [VTime (midnight (2024, 11, 13)); VTime (midnight (2024, 10, 10));
            VTime (midnight (2024, 9, 11))] /\
      get_col out "days_until_next_announcement"
      = Ok [VFloat (of_Z (-34)); VFloat (of_Z (-29)); VFloat NaN]) /\
  (exists out,
      un_rate (F := exact_ops) (P := plain_parsers) cpi_sheet = Ok out /\
      gaps_to_next (P := plain_parsers) "un_announcement" cpi_sheet out /\
      get_col out "date"
      = Ok [VTime (midnight (2024, 11, 13)); VTime (midnight (2024, 10, 10));
            VTime (midnight (2024, 9, 11))] /\
      get_col out "days_until_next_announcement"
      = Ok [VFloat (of_Z (-34)); VFloat (of_Z (-29)); VFloat NaN]) /\
  (exists out,
      interest_rates (F := exact_ops) fed_sheet = Ok out /\
      gaps_to_previous "interest_announcement" fed_sheet out /\
      get_col out "date"
      = Ok [VTime (midnight (2024, 11, 7)); VTime (midnight (2024, 9, 18));
            VTime (midnight (2024, 7, 31))] /\
      get_col out "days_until_next_announcement"
      = Ok [VFloat NaN; VFloat (of_Z 50); VFloat (of_Z 49)]).
Proof.
  split; [|split].
  - eexists. split; [vm_compute; reflexivity|].
    split; [|split; vm_compute; reflexivity].
    apply (proj1 (proj2 (announcement_gap_directions
                           (F := exact_ops) (P := plain_parsers)
                           cpi_sheet _))).
    vm_compute. reflexivity.
  - eexists. split; [vm_compute; reflexivity|].
    split; [|split; vm_compute; reflexivity].
    apply (proj1 (announcement_gap_directions
                    (F := exact_ops) (P := plain_parsers) cpi_sheet _)).
    vm_compute. reflexivity.
  - eexists. split; [vm_compute; reflexivity|].
    split; [|split; vm_compute; reflexivity].
    apply (proj2 (proj2 (announcement_gap_directions
                           (F := exact_ops) (P := plain_parsers)
                           fed_sheet _))).
    vm_compute. reflexivity.
Defined.

(* ------------------------------------------------------------------ *)
(** ** Calendar features *)

Section CalendarFrame.
Context {F : FloatOps} {P : DateParsers}.

Lemma to_datetime_idempotent dates :
  Forall is_datetime dates -> mapM to_datetime dates = Ok dates.
Proof.
  induction 1 as [|c dates Hc _ IH]; cbn [mapM]; [reflexivity|].
  rewrite IH. destruct c; cbn in Hc; try contradiction; reflexivity.
Qed.


End CalendarFrame.



(* ================================================================== *)
(** * Further properties of the code *)


(** ** Slices *)

Lemma py_slice_upto {A} (k : Z) (l : list A) :
  py_slice None (Some k) l
  = firstn (Z.to_nat (slice_bound (Z.of_nat (length l))
                                  (Z.of_nat (length l)) (Some k))) l.
Proof.
  unfold py_slice. cbn [slice_bound]. now rewrite Z.sub_0_r.
Qed.

(** [l[:k] + l[k:] == l], for every [k]. *)
Lemma py_slice_split {A} (k : Z) (l : list A) :
  py_slice None (Some k) l ++ py_slice (Some k) None l = l.
Proof.
  rewrite py_slice_upto, py_slice_from. cbn [slice_bound].
  destruct (k <? 0); apply firstn_skipn.
Qed.

Lemma py_slice_append {A} (i j : Z) (l : list A) :
  0 <= i <= j ->
  py_slice (Some 0) (Some j) l
  = py_slice (Some 0) (Some i) l ++ py_slice (Some i) (Some j) l.
Proof.
  intros Hij. rewrite !py_slice_prefix by lia.
  rewrite (py_slice_nonneg i j) by lia.
  set (n := Z.of_nat (length l)).
  destruct (Z_le_gt_dec i n) as [Hi|Hi].
  - rewrite (Z.min_l i) by lia.
    rewrite <- (firstn_skipn (Z.to_nat i) (firstn (Z.to_nat j) l)) at 1.
    rewrite firstn_firstn. replace (Nat.min (Z.to_nat i) (Z.to_nat j))
      with (Z.to_nat i) by lia.
    f_equal. rewrite skipn_firstn_comm.
    destruct (Z_le_gt_dec j n).
    + rewrite Z.min_l by lia. f_equal. lia.
    + rewrite Z.min_r by lia. subst n.
      rewrite !firstn_all2; auto; rewrite length_skipn; lia.
  - rewrite (Z.min_r i), (Z.min_r j) by lia. rewrite Z.sub_diag.
    cbn [Z.to_nat firstn]. rewrite app_nil_r. subst n.
    rewrite !firstn_all2 by lia. reflexivity.
Qed.

(** ** The baseline split *)

(** The baseline split cuts the table in two without losing or repeating
    a row: the training rows followed by the test rows are the rows of the
    table, column by column.  The test set holds the last 300 rows, or
    every row when the table has fewer. *)
Theorem baseline_split_partitions df :
  index (fst (baseline_split df)) ++ index (snd (baseline_split df))
  = index df /\
  (forall n c,
      lookup_col n (columns df) = Some c ->
      exists a b,
        lookup_col n (columns (fst (baseline_split df))) = Some a /\
        lookup_col n (columns (snd (baseline_split df))) = Some b /\
        a ++ b = c) /\
  nrows (snd (baseline_split df)) = Nat.min 300 (nrows df).
Proof.
  cbn [baseline_split fst snd]. split; [apply py_slice_split|]. split.
  - intros n c Hc. rewrite !lookup_iloc, Hc. cbn [option_map].
    eexists. eexists. split; [reflexivity|]. split; [reflexivity|].
    apply py_slice_split.
  - unfold nrows. cbn [iloc index]. rewrite py_slice_from, length_skipn.
    cbn [slice_bound]. change (-300 <? 0) with true. cbv iota. lia.
Qed.

(** ** Folds *)

Lemma range_len_closed lo hi step :
  0 < step ->
  range_len lo hi step = Z.max 0 ((hi - lo + step - 1) / step).
Proof.
  intros Hs. unfold range_len.
  destruct (Z.ltb_spec 0 step); [|lia].
  destruct (Z.ltb_spec lo hi); cbn [andb].
  - replace (hi - lo + step - 1) with (hi - 1 - lo + 1 * step) by ring.
    rewrite Z.div_add by lia.
    assert (0 <= (hi - 1 - lo) / step) by (apply Z.div_pos; lia). lia.
  - destruct (Z.ltb_spec step 0); [lia|]. cbn [andb].
    assert ((hi - lo + step - 1) / step < 1)
      by (apply Z.div_lt_upper_bound; lia).
    lia.
Qed.

(** The loop of [backtest] runs once for every [step] rows from [start]
    on, rounded up.  The training set of a fold holds the rows before its
    boundary; its test set holds the next [step] rows, or the rows that
    are left when fewer remain, and is never empty. *)
Theorem fold_sizes data start step fs :
  0 <= start -> 1 <= step ->
  folds data start step = Ok fs ->
  Z.of_nat (length fs)
  = Z.max 0 ((Z.of_nat (nrows data) - start + step - 1) / step) /\
  forall f, In f fs ->
    Z.of_nat (nrows (train f)) = boundary f /\
    Z.of_nat (nrows (test f))
    = Z.min step (Z.of_nat (nrows data) - boundary f) /\
    (1 <= nrows (test f))%nat.
Proof.
  intros Hstart Hstep Hfs. rewrite folds_ok in Hfs by lia.
  injection Hfs as <-. split.
  - rewrite length_map. unfold range_items. rewrite length_map, length_seq.
    rewrite range_len_closed by lia. lia.
  - intros f Hin. apply in_map_iff in Hin. destruct Hin as (i & <- & Hi).
    apply range_items_bounds in Hi; [|lia].
    unfold nrows in *. cbn [fold_at boundary train test iloc index].
    rewrite py_slice_prefix by lia. rewrite py_slice_block by lia.
    rewrite !length_firstn, length_skipn. lia.
Qed.

(** The train slice of a fold is the train slice of the fold before it
    followed by the test slice of that fold. *)
Theorem train_window_expands data start step fs k f g :
  0 <= start -> 1 <= step ->
  folds data start step = Ok fs ->
  nth_error fs k = Some f ->
  nth_error fs (S k) = Some g ->
  index (train g) = index (train f) ++ index (test f) /\
  forall n,
    lookup_col n (columns (train g))
    = match lookup_col n (columns (train f)),
            lookup_col n (columns (test f)) with
      | Some a, Some b => Some (a ++ b)
      | _, _ => None
      end.
Proof.
  intros Hstart Hstep Hfs Hf Hg. rewrite folds_ok in Hfs by lia.
  injection Hfs as <-. rewrite nth_error_map in Hf, Hg.
  destruct (nth_error (range_items start (Z.of_nat (nrows data)) step) k)
    as [i|] eqn:Ei; [|discriminate].
  destruct (nth_error (range_items start (Z.of_nat (nrows data)) step) (S k))
    as [j|] eqn:Ej; [|discriminate].
  cbn [option_map] in Hf, Hg. injection Hf as <-. injection Hg as <-.
  assert (Hij : j = i + step).
  { apply range_items_nth in Ej. apply range_items_nth in Ei. lia. }
  assert (Hi : start <= i).
  { apply nth_error_In in Ei. apply range_items_bounds in Ei; lia. }
  subst j.
  assert (0 <= i <= i + step) by lia.
  cbn [fold_at train test iloc index]. split.
  - now apply py_slice_append.
  - intros n. rewrite !lookup_iloc.
    destruct (lookup_col n (columns data)); cbn [option_map]; [|reflexivity].
    f_equal. now apply py_slice_append.
Qed.

(** ** What [backtest] returns *)

Lemma blocks_cover_tail {A} (l : list A) step :
  0 < step ->
  forall lo, 0 <= lo ->
  flat_map (fun i => py_slice (Some i) (Some (i + step)) l)
           (range_items lo (Z.of_nat (length l)) step)
  = skipn (Z.to_nat lo) l.
Proof.
  intros Hs lo.
  apply (range_items_ind
           (fun lo items =>
              0 <= lo ->
              flat_map (fun i => py_slice (Some i) (Some (i + step)) l) items
              = skipn (Z.to_nat lo) l)
           (Z.of_nat (length l)) step Hs).
  - intros lo' Hle _. cbn [flat_map]. symmetry. apply skipn_all2. lia.
  - intros lo' Hlt IH Hnn. cbn [flat_map]. rewrite IH by lia.
    apply block_then_rest; lia.
Qed.

Lemma predict_shape tr te predictors model out :
  predict tr te predictors model = Ok out ->
  exists y p,
    lookup_col "target" (columns te) = Some y /\
    length p = nrows te /\
    out = {| index := index te;
             columns := [("target", y); ("Predictions", p)] |}.
Proof.
  unfold predict. intros H.
  inv_bind_as H x_train H1. inv_bind_as H y_train H2. inv_bind_as H m H3.
  inv_bind_as H x_test H4. inv_bind_as H preds H5.
  destruct (Nat.eqb_spec (length preds) (nrows te)) as [Hlen|];
    [|discriminate].
  cbn [negb] in H. inv_bind_as H y_test H6. injection H as <-.
  apply get_col_lookup in H6. eauto.
Qed.


Lemma predictions_shape predictors model fs :
  forall outs,
    mapM (fun f => predict (train f) (test f) predictors model) fs = Ok outs ->
    flat_map (column_or_missing "target") outs
    = flat_map (fun f => column_or_missing "target" (test f)) fs /\
    length (flat_map (column_or_missing "Predictions") outs)
    = length (flat_map (fun f => index (test f)) fs) /\
    Forall (fun o => map fst (columns o) = ["target"; "Predictions"]) outs.
Proof.
  induction fs as [|f fs IH]; intros outs H; cbn [mapM] in H.
  - injection H as <-. repeat split; constructor.
  - inv_bind_as H o Ho. inv_bind_as H os Hos. injection H as <-.
    destruct (IH os Hos) as (Ht & Hp & Hn).
    destruct (predict_shape _ _ _ _ _ Ho) as (y & p & Hy & Hlen & ->).
    cbn [flat_map].
    change (column_or_missing "target" {| index := index (test f);
              columns := [("target", y); ("Predictions", p)] |}) with y.
    change (column_or_missing "Predictions" {| index := index (test f);
              columns := [("target", y); ("Predictions", p)] |}) with p.
    unfold column_or_missing at 2. rewrite Hy, Ht.
    split; [reflexivity|]. split.
    + rewrite !length_app, Hp. unfold nrows in Hlen. lia.
    + constructor; [reflexivity|exact Hn].
Qed.

Lemma concat_frames_columns fs out :
  concat_frames fs = Ok out ->
  exists o, head fs = Some o /\
    columns out
    = map (fun nc => (fst nc, flat_map (column_or_missing (fst nc)) fs))
          (columns o).
Proof.
  destruct fs as [|o fs]; [discriminate|]. intros [= <-]. now exists o.
Qed.

(** The table that [backtest] returns has the two columns "target" and
    "Predictions"; its target column is the target column of the data from
    row [start] on, and there is one prediction per such row. *)
Theorem backtest_returns_truth_and_predictions
  data model predictors start step out tgt :
  0 <= start -> 1 <= step ->
  lookup_col "target" (columns data) = Some tgt ->
  length tgt = nrows data ->
  backtest data model predictors start step = Ok out ->
  exists preds,
    columns out = [("target", skipn (Z.to_nat start) tgt);
                   ("Predictions", preds)] /\
    length preds = (nrows data - Z.to_nat start)%nat /\
    index out = skipn (Z.to_nat start) (index data).
Proof.
  intros Hstart Hstep Htgt Hlen H. unfold backtest in H.
  rewrite folds_ok in H by lia. cbn [bind] in H.
  inv_bind_as H outs Houts.
  destruct (predictions_shape _ _ _ _ Houts) as (Ht & Hp & Hn).
  pose proof (predictions_index _ _ _ _ Houts) as Hi.
  assert (Hcover : flat_map (fun f => index (test f))
                     (map (fold_at data step)
                          (range_items start (Z.of_nat (nrows data)) step))
                   = skipn (Z.to_nat start) (index data)).
  { rewrite flat_map_concat_map, map_map, <- flat_map_concat_map.
    cbn [fold_at test iloc index]. apply blocks_cover_tail; lia. }
  assert (Htruth : flat_map (fun f => column_or_missing "target" (test f))
                     (map (fold_at data step)
                          (range_items start (Z.of_nat (nrows data)) step))
                   = skipn (Z.to_nat start) tgt).
  { rewrite flat_map_concat_map, map_map, <- flat_map_concat_map.
    unfold column_or_missing. cbn [fold_at test].
    erewrite flat_map_ext.
    - rewrite <- Hlen. apply blocks_cover_tail; lia.
    - intros i. rewrite lookup_iloc, Htgt. reflexivity. }
  destruct (concat_frames_columns _ _ H) as (o & Ho & ->).
  rewrite (concat_frames_index _ _ H).
  destruct outs as [|o' outs]; [discriminate|]. injection Ho as ->.
  inversion Hn as [|? ? Hnames _]; subst.
  exists (flat_map (column_or_missing "Predictions") (o :: outs)).
  split; [|split].
  - destruct (columns o) as [|[n1 c1] [|[n2 c2] [|? ?]]];
      try discriminate.
    cbn [map fst] in Hnames. injection Hnames as -> ->.
    cbn [map fst]. now rewrite Ht, Htruth.
  - rewrite Hp, Hcover, length_skipn. reflexivity.
  - now rewrite Hi.
Qed.

(** ** Descending ranges *)

Lemma range_items_descending lo hi step i :
  step < 0 -> In i (range_items lo hi step) -> hi < i <= lo.
Proof.
  intros Hs Hin. unfold range_items in Hin.
  apply in_map_iff in Hin. destruct Hin as (k & <- & Hk).
  apply in_seq in Hk. unfold range_len in Hk.
  destruct (Z.ltb_spec 0 step); [lia|]. cbn [andb] in Hk.
  destruct (Z.ltb_spec step 0); [|lia].
  destruct (Z.ltb_spec hi lo); cbn [andb] in Hk; [|cbn in Hk; lia].
  assert (Hq : 0 <= (lo - 1 - hi) / - step) by (apply Z.div_pos; lia).
  assert (Hm : - step * ((lo - 1 - hi) / - step) <= lo - 1 - hi)
    by (apply Z.mul_div_le; lia).
  assert (Hkq : Z.of_nat k <= (lo - 1 - hi) / - step) by lia.
  nia.
Qed.

Lemma py_slice_beyond {A} (i : Z) (b : option Z) (l : list A) :
  Z.of_nat (length l) <= i -> py_slice (Some i) b l = [].
Proof.
  intros Hi. unfold py_slice, slice_bound.
  destruct (Z.ltb_spec i 0); [lia|]. rewrite Z.min_r by lia.
  rewrite Nat2Z.id, skipn_all. apply firstn_nil.
Qed.

(** A call of [backtest] with a step that is not positive never yields a
    prediction: a zero step raises, and with a negative step every test
    slice is empty, so that a call that returns at all returns no row. *)
Theorem backtest_nonpositive_step data model predictors start step out :
  step <= 0 ->
  backtest data model predictors start step = Ok out ->
  index out = [].
Proof.
  intros Hstep H. unfold backtest in H.
  destruct (Z.eq_dec step 0) as [->|Hne].
  { unfold folds, py_range in H. cbn in H. discriminate. }
  rewrite folds_ok in H by lia. cbn [bind] in H.
  inv_bind_as H outs Houts.
  rewrite (concat_frames_index _ _ H), (predictions_index _ _ _ _ Houts).
  rewrite flat_map_concat_map, map_map, <- flat_map_concat_map.
  cbn [fold_at test iloc index].
  assert (Hall : forall i,
             In i (range_items start (Z.of_nat (nrows data)) step) ->
             Z.of_nat (nrows data) < i)
    by (intros i Hi; apply range_items_descending in Hi; lia).
  clear Houts H.
  induction (range_items start (Z.of_nat (nrows data)) step) as [|i l IH];
    [reflexivity|].
  cbn [flat_map]. rewrite py_slice_beyond.
  - apply IH. intros j Hj. apply Hall. now right.
  - specialize (Hall i (or_introl eq_refl)). unfold nrows in Hall. lia.
Qed.

(** ** Missing columns *)

Lemma select_cols_cases df names :
  (Forall (fun n => lookup_col n (columns df) <> None) names /\
   exists x, select_cols df names = Ok x) \/
  (exists p, In p names /\ lookup_col p (columns df) = None /\
             select_cols df names = Raise (MissingColumn p)).
Proof.
  unfold select_cols.
  induction names as [|n names IH]; cbn [mapM].
  - left. split; [constructor|]. cbn [bind]. eauto.
  - unfold get_col at 1 3.
    destruct (lookup_col n (columns df)) as [c|] eqn:En; cbn [bind].
    + destruct IH as [(Hall & x & Hx)|(p & Hin & Hp & Hr)].
      * left. split; [constructor; [congruence|exact Hall]|].
        destruct (mapM _ names); [|discriminate]. cbn [bind]. eauto.
      * right. exists p. split; [now right|]. split; [exact Hp|].
        destruct (mapM _ names); [discriminate|]. exact Hr.
    + right. exists n. split; [now left|]. now split.
Qed.

(** When a predictor or the target is not a column of the data and the loop
    of [backtest] runs at least once, [backtest] raises the error of a
    missing column, for one of the names that are missing. *)
Theorem backtest_missing_column data model predictors start step p :
  0 <= start < Z.of_nat (nrows data) -> 1 <= step ->
  In p (predictors ++ ["target"]) ->
  lookup_col p (columns data) = None ->
  exists q,
    In q (predictors ++ ["target"]) /\
    lookup_col q (columns data) = None /\
    backtest data model predictors start step = Raise (MissingColumn q).
Proof.
  intros Hstart Hstep Hin Hp. unfold backtest.
  rewrite folds_ok by lia. cbn [bind].
  rewrite range_items_cons by lia. cbn [map mapM].
  set (tr := train (fold_at data step start)).
  assert (Htr : forall n, lookup_col n (columns tr) = None <->
                          lookup_col n (columns data) = None).
  { intros n. unfold tr. cbn [fold_at train]. rewrite lookup_iloc.
    destruct (lookup_col n (columns data)); cbn; split; congruence. }
  unfold predict at 1.
  destruct (select_cols_cases tr predictors)
    as [(Hall & x & Hx)|(q & Hq & Hnone & Hr)].
  - rewrite Hx. cbn [bind]. apply in_app_or in Hin.
    destruct Hin as [Hin|[<-|[]]].
    + rewrite Forall_forall in Hall. apply Hall in Hin.
      exfalso. apply Hin. now apply Htr.
    + exists "target". split; [apply in_or_app; right; now left|].
      split; [exact Hp|]. unfold get_col at 1.
      apply Htr in Hp. rewrite Hp. reflexivity.
  - exists q. split; [apply in_or_app; now left|].
    split; [now apply Htr|]. rewrite Hr. reflexivity.
Qed.

(** ** No look-ahead in [backtest] *)

Lemma assign_same n c cs :
  lookup_col n cs = Some c -> assign n c cs = cs.
Proof.
  induction cs as [|[m c0] cs IH]; cbn [lookup_col assign]; [discriminate|].
  destruct (String.eqb_spec m n) as [->|Hne].
  - now intros [= ->].
  - intros H. now rewrite IH.
Qed.

Lemma map_assign (g : list cell -> list cell) n c cs :
  map (fun nc => (fst nc, g (snd nc))) (assign n c cs)
  = assign n (g c) (map (fun nc => (fst nc, g (snd nc))) cs).
Proof.
  induction cs as [|[m c0] cs IH]; cbn [assign map fst snd]; [reflexivity|].
  destruct (String.eqb m n); cbn [map fst snd]; [reflexivity|].
  now rewrite IH.
Qed.

Lemma lookup_map_cells (g : list cell -> list cell) n cs :
  lookup_col n (map (fun nc => (fst nc, g (snd nc))) cs)
  = option_map g (lookup_col n cs).
Proof.
  induction cs as [|[m c0] cs IH]; cbn [map lookup_col fst snd];
    [reflexivity|].
  destruct (String.eqb m n); [reflexivity|exact IH].
Qed.

Lemma firstn_update {A} (i t : nat) (v : A) l :
  (i <= t)%nat -> firstn i (update t v l) = firstn i l.
Proof.
  intros Hle.
  replace i with (Nat.min i t) by lia.
  rewrite <- !firstn_firstn. now rewrite update_prefix.
Qed.

Lemma train_ignores_later_cell data name t v i :
  0 <= i <= Z.of_nat t ->
  iloc (set_cell name t v data) (Some 0) (Some i)
  = iloc data (Some 0) (Some i).
Proof.
  intros Hi. unfold set_cell.
  destruct (lookup_col name (columns data)) as [c|] eqn:Ec; [|reflexivity].
  unfold iloc, set_col. cbn [index columns]. f_equal.
  rewrite map_assign. apply assign_same.
  rewrite lookup_map_cells, Ec. cbn [option_map]. f_equal.
  rewrite !py_slice_prefix by lia. symmetry. apply firstn_update. lia.
Qed.

Lemma select_cols_agree df df' names :
  index df' = index df ->
  (forall n, In n names ->
             lookup_col n (columns df') = lookup_col n (columns df)) ->
  select_cols df' names = select_cols df names.
Proof.
  intros Hidx Hcols. unfold select_cols. rewrite Hidx.
  assert (mapM (fun n => c <- get_col df' n ;; Ok (n, c)) names
          = mapM (fun n => c <- get_col df n ;; Ok (n, c)) names) as ->;
    [|reflexivity].
  induction names as [|n names IH]; cbn [mapM]; [reflexivity|].
  unfold get_col at 1 3. rewrite (Hcols n) by now left.
  rewrite IH; [reflexivity|]. intros m Hm. apply Hcols. now right.
Qed.

(** No look-ahead: changing the label of a row does not change what
    [backtest] predicts in any fold whose boundary is at or before that row.
    The fold of the changed data has the same boundary and the same training
    rows, and [predict] returns the same index and the same predictions for
    it; only the column of true labels of its output may differ. *)
Theorem fold_predictions_ignore_later_labels
  data model predictors step i t v out :
  0 <= i <= Z.of_nat t ->
  ~ In "target" predictors ->
  let f := fold_at data step i in
  let f' := fold_at (set_cell "target" t v data) step i in
  predict (train f) (test f) predictors model = Ok out ->
  train f' = train f /\
  exists out',
    predict (train f') (test f') predictors model = Ok out' /\
    index out' = index out /\
    lookup_col "Predictions" (columns out')
    = lookup_col "Predictions" (columns out).
Proof.
  intros Hi Hnot f f' H.
  assert (Htrain : train f' = train f)
    by (apply train_ignores_later_cell; exact Hi).
  split; [exact Htrain|]. rewrite Htrain.
  assert (Hidx : index (test f') = index (test f)).
  { unfold f', f. cbn [fold_at test iloc index].
    now rewrite set_cell_index. }
  assert (Hx : select_cols (test f') predictors
               = select_cols (test f) predictors).
  { apply select_cols_agree; [exact Hidx|].
    intros n Hn. unfold f', f. cbn [fold_at test]. rewrite !lookup_iloc.
    rewrite set_cell_lookup_other; [reflexivity|].
    intros ->. contradiction. }
  unfold predict in *. rewrite Hx.
  inv_bind_as H x_train H1. rewrite H1. cbn [bind].
  inv_bind_as H y_train H2. rewrite H2. cbn [bind].
  inv_bind_as H m H3. rewrite H3. cbn [bind].
  inv_bind_as H x_test H4. rewrite H4. cbn [bind].
  inv_bind_as H preds H5. rewrite H5. cbn [bind].
  unfold nrows in *. rewrite Hidx.
  destruct (negb (length preds =? length (index (test f)))%nat);
    [discriminate|].
  inv_bind_as H y_test H6. injection H as <-.
  apply get_col_lookup in H6.
  assert (H6' : exists y', get_col (test f') "target" = Ok y').
  { unfold get_col, f', f in *. cbn [fold_at test] in *.
    rewrite lookup_iloc in *.
    destruct (lookup_col "target" (columns data)) as [c|] eqn:Ec;
      [|discriminate].
    rewrite (set_cell_lookup_same _ _ _ _ _ Ec). cbn [option_map]. eauto. }
  destruct H6' as (y' & ->). cbn [bind].
  eexists. split; [reflexivity|]. split; reflexivity.
Qed.

(** ** Running the target cell again *)

Lemma set_col_same n c df :
  lookup_col n (columns df) = Some c -> set_col n c df = df.
Proof.
  intros H. unfold set_col. rewrite (assign_same _ _ _ H). now destruct df.
Qed.

Section TargetsAgain.
Context {F : FloatOps}.

(** Running the target cell a second time changes nothing: on the table it
    has returned, [create_targets] succeeds and returns that table. *)
Theorem create_targets_idempotent df out :
  create_targets df = Ok out -> create_targets out = Ok out.
Proof.
  intros H. destruct (create_targets_columns _ _ H) as (close & Hc & ->).
  set (tomorrow := floats (shift NaN (-1) close)).
  set (target := zip_with label_up (shift NaN (-1) close) close).
  set (out := set_col "target" target (set_col "tomorrow" tomorrow df)).
  assert (Hclose : numeric out "close" = Ok close).
  { unfold out. now rewrite !numeric_set_other by discriminate. }
  assert (Hsame : set_col "tomorrow" tomorrow out = out).
  { apply set_col_same. unfold out. cbn [set_col columns].
    rewrite lookup_assign_other by discriminate. apply lookup_assign_same. }
  unfold create_targets. rewrite Hclose. cbn [bind]. fold tomorrow.
  rewrite Hsame.
  assert (Htom : numeric out "tomorrow" = Ok (shift NaN (-1) close)).
  { unfold out. rewrite numeric_set_other by discriminate.
    apply numeric_set_same. }
  rewrite Htom, Hclose. cbn [bind]. fold target. f_equal.
  apply set_col_same. unfold out. cbn [set_col columns].
  apply lookup_assign_same.
Qed.

End TargetsAgain.

(** ** Rows that [create_ohlc_features] keeps *)


Lemma lookup_assign_all_other cs df n :
  ~ In n (map fst cs) ->
  lookup_col n (columns (assign_all cs df)) = lookup_col n (columns df).
Proof.
  unfold assign_all. revert df.
  induction cs as [|[m c] cs IH]; intros df Hn; [reflexivity|].
  cbn [fold_left fst snd]. cbn [map fst In] in Hn.
  rewrite IH by tauto. cbn [set_col columns].
  apply lookup_assign_other. intros ->. tauto.
Qed.

Lemma lookup_assign_all_in cs df n :
  In n (map fst cs) ->
  exists c, In (n, c) cs /\
            lookup_col n (columns (assign_all cs df)) = Some c.
Proof.
  revert df. induction cs as [|[m c] cs IH]; intros df Hn; [contradiction|].
  destruct (in_dec string_dec n (map fst cs)) as [Hin|Hout].
  - destruct (IH (set_col m c df) Hin) as (c' & Hc' & Hl).
    exists c'. split; [now right|exact Hl].
  - destruct Hn as [Hn|Hn]; [|contradiction]. cbn [fst] in Hn. subst m.
    exists c. split; [now left|].
    change (assign_all ((n, c) :: cs) df)
      with (assign_all cs (set_col n c df)).
    rewrite lookup_assign_all_other by exact Hout.
    cbn [set_col columns]. apply lookup_assign_same.
Qed.

Lemma select_all {A} (mask : list bool) :
  forall l : list A,
    Forall (fun b => b = true) mask -> (length l <= length mask)%nat ->
    select mask l = l.
Proof.
  unfold select. induction mask as [|b mask IH]; intros [|a l] Hall Hlen;
    try reflexivity.
  - cbn [length] in Hlen. lia.
  - inversion Hall as [|? ? -> Hall']; subst.
    cbn [combine filter fst map snd]. f_equal.
    apply IH; [exact Hall'|]. cbn [length] in Hlen. lia.
Qed.

Lemma mapM_in {A B} (f : A -> result B) (l : list A) (bs : list B) a :
  mapM f l = Ok bs -> In a l -> exists b, In b bs /\ f a = Ok b.
Proof.
  intros H Hin. apply In_nth_error in Hin. destruct Hin as (t & Ht).
  destruct (mapM_nth _ _ _ H _ _ Ht) as (b & Hb & Hf).
  exists b. split; [eapply nth_error_In; exact Hb|exact Hf].
Qed.

Section KeptRows.
Context {F : FloatOps} {R : RollingPolicy}.
Hypothesis rnd_positive : forall q : Q, (0 < q)%Q -> (0 < rnd q)%Q.

Lemma rnd_above_1 q : (1 <= q)%Q -> (1 <= rnd q)%Q.
Proof. intros H. apply rnd_mono in H. pose proof rnd_1. lra. Qed.

Lemma rnd_below_1 q : (q <= 1)%Q -> (rnd q <= 1)%Q.
Proof. intros H. apply rnd_mono in H. pose proof rnd_1. lra. Qed.

Lemma ewm_alpha_positive h :
  1 <= h -> exists a, ewm_alpha h = Fin a /\ (0 < a <= 1)%Q.
Proof.
  intros Hh. unfold ewm_alpha, of_Z, fsub. cbn [fneg fadd].
  assert (H1 : (0 <= rnd (inject_Z h + - (1)))%Q).
  { apply rnd_nonneg.
    assert (1 <= inject_Z h)%Q by (rewrite <- (Zle_Qle 1); exact Hh). lra. }
  set (q1 := rnd (inject_Z h + - (1))) in *.
  cbn [fdiv]. change (Qeq_bool 2 0) with false. cbv iota.
  assert (H2 : (0 <= rnd (q1 / 2))%Q).
  { apply rnd_nonneg. apply Qle_shift_div_l; lra. }
  set (q2 := rnd (q1 / 2)) in *. cbn [fadd].
  assert (H3 : (1 <= rnd (1 + q2))%Q) by (apply rnd_above_1; lra).
  set (d := rnd (1 + q2)) in *.
  rewrite Qeq_bool_false_pos by lra.
  eexists. split; [reflexivity|]. split.
  - apply rnd_positive. apply Qlt_shift_div_l; lra.
  - apply rnd_below_1. apply Qle_shift_div_r; lra.
Qed.

Lemma ewm_step_finite a w c :
  (0 < a <= 1)%Q ->
  exists w', ewm_step (Fin a) (Fin w, Fin 1) (Fin c) = (Fin w', Fin 1).
Proof.
  intros Ha. unfold ewm_step. cbn [notna]. unfold fsub.
  cbn [fneg fadd fmul].
  destruct (feqb (Fin w) (Fin c)); [eauto|].
  assert (Ho : (0 <= rnd (1 * rnd (1 + - a)))%Q).
  { apply rnd_nonneg.
    assert (0 <= rnd (1 + - a))%Q by (apply rnd_nonneg; lra).
    lra. }
  set (o := rnd (1 * rnd (1 + - a))) in *.
  cbn [fdiv].
  assert (Hd : (0 < rnd (o + a))%Q) by (apply rnd_positive; lra).
  rewrite Qeq_bool_false_pos by exact Hd. eauto.
Qed.

Lemma ewm_scan_finite a :
  (0 < a <= 1)%Q ->
  forall l w, Forall finite l ->
              Forall finite (ewm_scan (Fin a) (Fin w, Fin 1) l).
Proof.
  intros Ha. induction l as [|x l IH]; intros w Hl; cbn [ewm_scan];
    [constructor|].
  inversion Hl as [|? ? Hx Hl']; subst.
  destruct x as [c| | |]; try contradiction.
  destruct (ewm_step_finite a w c Ha) as (w' & ->). cbn [fst].
  constructor; [exact I|]. now apply IH.
Qed.

Lemma ewm_scan_length alpha l : forall st,
  length (ewm_scan alpha st l) = length l.
Proof.
  induction l as [|x l IH]; intros st; cbn [ewm_scan length];
    [reflexivity|].
  now rewrite IH.
Qed.

Lemma prep_of_numbers l : Forall finite l -> map prep_value l = l.
Proof.
  induction 1 as [|x l Hx _ IH]; cbn [map]; [reflexivity|].
  destruct x; simpl in Hx; try contradiction. cbn [prep_value].
  now rewrite IH.
Qed.

Lemma ewm_mean_finite h close :
  1 <= h -> Forall finite close ->
  Forall finite (ewm_mean h close) /\
  length (ewm_mean h close) = length close.
Proof.
  intros Hh Hc. destruct (ewm_alpha_positive h Hh) as (a & Ha & Hpos).
  unfold ewm_mean. rewrite (prep_of_numbers close Hc).
  destruct close as [|x close]; [split; [constructor|auto]|].
  inversion Hc as [|? ? Hx Hc']; subst.
  destruct x as [c| | |]; try contradiction. rewrite Ha. split.
  - constructor; [exact I|]. now apply ewm_scan_finite.
  - cbn [length]. now rewrite ewm_scan_length.
Qed.

Lemma add_horizons_positive hs :
  forall df ps df' ps',
    add_horizons hs df ps = Ok (df', ps') ->
    Forall (fun h => 1 <= h) (processed df hs).
Proof.
  induction hs as [|h hs IH]; intros df ps df' ps' H; [constructor|].
  cbn [add_horizons] in H. unfold processed in *. cbn [filter].
  destruct (Z.ltb_spec (Z.of_nat (nrows df)) h) as [Hskip|Hrun].
  - destruct (Z.leb_spec h (Z.of_nat (nrows df))); [lia|].
    eapply IH; exact H.
  - destruct (Z.leb_spec h (Z.of_nat (nrows df))); [|lia].
    inv_bind_as H df1 H1.
    assert (Hh : 1 <= h).
    { unfold add_horizon in H1. destruct (h <? 0); [discriminate|].
      inv_bind_as H1 ra Hra. inv_bind_as H1 close Hc.
      inv_bind_as H1 averages Hav. inv_bind_as H1 target Ht.
      destruct (Z.ltb_spec h 1); [discriminate|lia]. }
    constructor; [exact Hh|].
    destruct (add_horizon_inv _ _ _ H1) as (close & target & _ & _ & ->).
    specialize (IH _ _ _ _ H).
    unfold nrows in *. now rewrite assign_all_index in IH.
Qed.

Lemma ema_column_present h h0 close target c :
  1 <= h -> Forall finite close ->
  In (fmt "EMA_" h0, c) (horizon_columns_of h close target) ->
  length c = length close /\ Forall (fun v => isna v = false) c.
Proof.
  intros Hh Hc Hin.
  destruct (ewm_mean_finite h close Hh Hc) as (Hfin & Hlen).
  unfold horizon_columns_of, horizon_columns in Hin. cbn [In] in Hin.
  repeat (destruct Hin as [Hin|Hin];
          [injection Hin as Hname Hcol;
           first [ exfalso; unfold fmt in Hname; cbn in Hname;
                   discriminate Hname
                 | idtac ]|]);
    [|contradiction].
  subst c. unfold floats. rewrite length_map. split; [exact Hlen|].
  apply Forall_map. eapply Forall_impl; [|exact Hfin].
  intros [q| | |] Hq; try contradiction. reflexivity.
Qed.

(** When the closes are numbers and at least one horizon is processed, the
    final [dropna] of [create_ohlc_features] removes no row: the
    exponential average of a processed horizon is present from the first
    row on, so no row has all of its predictors missing.  The rows of the
    warm-up period are returned with their missing values, and the columns
    of the input are returned as they were.  The rounding is taken to keep
    positive numbers positive, so that the weights of the average do not
    vanish. *)
Theorem create_ohlc_features_keeps_every_row df hs out ps close :
  well_formed df ->
  numeric df "close" = Ok close ->
  Forall finite close ->
  create_ohlc_features df hs = Ok (out, ps) ->
  ps <> [] ->
  index out = index df /\
  forall n, ~ In n ps ->
            lookup_col n (columns out) = lookup_col n (columns df).
Proof.
  intros Hwf Hclose Hfin H Hps. unfold create_ohlc_features in H.
  inv_bind_as H r1 H1. destruct r1 as [df1 ps1].
  inv_bind_as H df2 H2. injection H as E1 E2. subst df2 ps1.
  pose proof (add_horizons_positive _ _ _ _ _ H1) as Hpos.
  destruct (add_horizons_shape _ _ _ _ _ H1) as (Hnames & Hidx & Hdf1 & Hnum).
  cbn [app] in Hnames.
  assert (Hproc : processed df hs <> [])
    by (intros E; rewrite E in Hnames; contradiction).
  destruct (Hnum Hproc) as (close' & target & Hc' & Ht).
  rewrite Hclose in Hc'. injection Hc' as <-.
  unfold added in Hdf1. rewrite Hclose, Ht in Hdf1.
  assert (Hlen : length close = nrows df).
  { unfold numeric, get_col in Hclose.
    destruct (lookup_col "close" (columns df)) as [c|] eqn:Ec;
      [|discriminate].
    cbn [bind] in Hclose. rewrite (mapM_length _ _ _ Hclose).
    now apply (well_formed_lookup df "close"). }
  unfold dropna_all in H2. inv_bind_as H2 cols Hcols. injection H2 as E.
  subst out.
  set (mask := map (keep_row cols) (seq 0 (nrows df1))).
  assert (Hrows : nrows df1 = nrows df) by (unfold nrows; now rewrite Hidx).
  assert (Hmask : Forall (fun b => b = true) mask).
  { destruct (processed df hs) as [|h hs'] eqn:Eproc; [contradiction|].
    pose proof (Forall_inv Hpos) as Hh. cbv beta in Hh.
    assert (Hin : In (fmt "EMA_" h) ps).
    { rewrite Hnames. cbn [flat_map]. apply in_or_app. left.
      cbn [predictor_names In]. tauto. }
    destruct (mapM_in _ _ _ _ Hcols Hin) as (c & Hc & Hget).
    apply get_col_lookup in Hget.
    destruct (lookup_assign_all_in
                (flat_map (fun h0 => horizon_columns_of h0 close target)
                          (h :: hs')) df (fmt "EMA_" h))
      as (c' & Hc' & Hl).
    { rewrite flat_map_concat_map, concat_map, map_map,
        <- flat_map_concat_map.
      apply in_flat_map. exists h. split; [now left|].
      rewrite horizon_columns_names. cbn [predictor_names In]. tauto. }
    rewrite <- Hdf1, Hget in Hl. injection Hl as <-.
    apply in_flat_map in Hc'. destruct Hc' as (h' & Hh' & Hc').
    assert (Hh1 : 1 <= h').
    { rewrite Forall_forall in Hpos. now apply Hpos. }
    destruct (ema_column_present _ _ _ _ _ Hh1 Hfin Hc') as (Hclen & Hcp).
    unfold mask. apply Forall_map. apply Forall_forall. intros r Hr.
    apply in_seq in Hr. unfold keep_row. apply existsb_exists.
    exists c. split; [exact Hc|].
    destruct (nth_error c r) as [v|] eqn:Ev.
    - rewrite Forall_forall in Hcp. rewrite (Hcp v); [reflexivity|].
      eapply nth_error_In; exact Ev.
    - apply nth_error_None in Ev. lia. }
  assert (Hmlen : length mask = nrows df)
    by (unfold mask; now rewrite length_map, length_seq).
  split.
  - cbn [filter_rows index]. rewrite select_all; [exact Hidx|exact Hmask|].
    rewrite Hmlen. unfold nrows. rewrite Hidx. lia.
  - intros n Hn. rewrite lookup_filter_rows, Hdf1.
    rewrite lookup_assign_all_other.
    + destruct (lookup_col n (columns df)) as [c|] eqn:Ec; [|reflexivity].
      cbn [option_map]. f_equal. apply select_all; [exact Hmask|].
      rewrite Hmlen, (well_formed_lookup df n c Hwf Ec). lia.
    + intros Hin. apply Hn. rewrite Hnames.
      apply in_map_iff in Hin. destruct Hin as ([m c] & <- & Hin).
      apply in_flat_map in Hin. destruct Hin as (h & Hh & Hin).
      apply in_flat_map. exists h. split; [exact Hh|].
      rewrite <- (horizon_columns_names h close target).
      apply in_map_iff. now exists (m, c).
Qed.

End KeptRows.

(** ** The features of a row use no later close *)

Lemma firstn_zip_with {A B C} (f : A -> B -> C) k :
  forall l m,
    firstn k (zip_with f l m) = zip_with f (firstn k l) (firstn k m).
Proof.
  induction k as [|k IH]; intros [|a l] [|b m]; cbn [firstn zip_with];
    try reflexivity.
  now rewrite IH.
Qed.

Lemma firstn_shift_down {A} (fill : A) (n : Z) k (l : list A) :
  0 <= n -> firstn k (shift fill n l) = shift fill n (firstn k l).
Proof.
  intros Hn. unfold shift. destruct (Z.leb_spec 0 n); [|lia].
  rewrite firstn_firstn, length_firstn.
  set (j := Nat.min k (length l)).
  rewrite !firstn_app, firstn_firstn. f_equal. f_equal. lia.
Qed.

Lemma firstn_ffill_from k : forall last l,
  firstn k (ffill_from last l) = ffill_from last (firstn k l).
Proof.
  induction k as [|k IH]; intros last [|x l]; cbn [firstn ffill_from];
    try reflexivity.
  now rewrite IH.
Qed.

Section Causality.
Context {F : FloatOps}.

Lemma firstn_ewm_scan alpha k : forall st l,
  firstn k (ewm_scan alpha st l) = ewm_scan alpha st (firstn k l).
Proof.
  induction k as [|k IH]; intros st [|x l]; cbn [firstn ewm_scan];
    try reflexivity.
  now rewrite IH.
Qed.

Lemma firstn_ewm_mean h k l :
  firstn k (ewm_mean h l) = ewm_mean h (firstn k l).
Proof.
  unfold ewm_mean. rewrite <- firstn_map.
  destruct k as [|k], (map prep_value l) as [|x l']; cbn [firstn];
    try reflexivity.
  now rewrite firstn_ewm_scan.
Qed.

Lemma firstn_rolling h agg k l :
  firstn k (rolling h agg l) = rolling h agg (firstn k l).
Proof.
  unfold rolling. rewrite firstn_map, firstn_seq, length_firstn.
  apply map_ext_in. intros t Ht. apply in_seq in Ht.
  unfold rolling_at, window.
  rewrite firstn_firstn. now replace (Nat.min (S t) k) with (S t) by lia.
Qed.

Lemma firstn_diff k l : firstn k (diff l) = diff (firstn k l).
Proof.
  unfold diff. now rewrite firstn_zip_with, firstn_shift_down by lia.
Qed.

Lemma firstn_pct_change k l :
  firstn k (pct_change l) = pct_change (firstn k l).
Proof.
  unfold pct_change. cbv zeta.
  now rewrite firstn_zip_with, firstn_shift_down, firstn_ffill_from by lia.
Qed.

Lemma same_row_of_prefix t (n : string) (c1 c2 : list fval) :
  firstn (S t) c1 = firstn (S t) c2 ->
  same_row t (n, floats c1) (n, floats c2).
Proof.
  intros H. split; [reflexivity|]. cbn [snd]. unfold floats.
  rewrite !nth_error_map.
  assert (E : forall c : list fval,
             nth_error c t = nth_error (firstn (S t) c) t).
  { intros c. rewrite nth_error_firstn.
    destruct (Nat.ltb_spec t (S t)); [reflexivity|lia]. }
  now rewrite (E c1), (E c2), H.
Qed.

(** No look-ahead in the features: the nine columns of a horizon at a row
    are computed from the closes up to that row: two close columns that
    agree up to row [t] give the same nine cells at row [t]. *)
Theorem features_use_no_later_close h close1 close2 target t :
  0 <= h ->
  firstn (S t) close1 = firstn (S t) close2 ->
  Forall2 (same_row t) (horizon_columns_of h close1 target)
          (horizon_columns_of h close2 target).
Proof.
  intros Hh Hpre. unfold horizon_columns_of, horizon_columns. cbv zeta.
  repeat (apply Forall2_cons; [apply same_row_of_prefix|]);
    [..|apply Forall2_nil].
  - unfold close_ratio, rolling_mean.
    now rewrite !firstn_zip_with, !firstn_rolling, Hpre.
  - reflexivity.
  - unfold rolling_std. now rewrite !firstn_rolling, Hpre.
  - unfold momentum.
    now rewrite !firstn_zip_with, !firstn_shift_down, Hpre by exact Hh.
  - now rewrite !firstn_ewm_mean, Hpre.
  - unfold rsi, gain, loss, rolling_mean.
    now rewrite !firstn_zip_with, !firstn_rolling, !firstn_map, !firstn_diff,
      Hpre.
  - unfold bollinger_upper, rolling_mean, rolling_std.
    now rewrite !firstn_zip_with, !firstn_map, !firstn_rolling, Hpre.
  - unfold bollinger_lower, rolling_mean, rolling_std.
    now rewrite !firstn_zip_with, !firstn_map, !firstn_rolling, Hpre.
  - unfold cumulative_return, rolling_sum.
    now rewrite !firstn_rolling, !firstn_pct_change, Hpre.
Qed.

End Causality.

(** ** The warm-up rows of a horizon *)

Section WarmUp.
Context {F : FloatOps}.

Lemma rolling_at_warm_up h agg l t :
  (S t < h)%nat -> rolling_at h agg l t = NaN.
Proof.
  intros Ht. unfold rolling_at.
  pose proof (filter_shorter notna (map prep_value (window h t l))) as Hf.
  rewrite length_map in Hf.
  assert (Hw : (length (window h t l) <= S t)%nat).
  { unfold window. rewrite length_skipn, length_firstn. lia. }
  destruct (Nat.leb_spec h (length (filter notna
                                      (map prep_value (window h t l)))));
    [lia|reflexivity].
Qed.

Lemma rolling_warm_up h agg l t x :
  (S t < h)%nat -> nth_error (rolling h agg l) t = Some x -> x = NaN.
Proof.
  intros Ht. rewrite nth_error_rolling.
  destruct (t <? length l)%nat; [|discriminate].
  intros [= <-]. now apply rolling_at_warm_up.
Qed.

Lemma nth_error_shift_down {A} (fill : A) (n : nat) (l : list A) t x :
  (t < n)%nat ->
  nth_error (shift fill (Z.of_nat n) l) t = Some x -> x = fill.
Proof.
  intros Ht. unfold shift. destruct (Z.leb_spec 0 (Z.of_nat n)); [|lia].
  rewrite Nat2Z.id, nth_error_firstn.
  destruct (t <? length l)%nat; [|discriminate].
  rewrite nth_error_app1 by (rewrite repeat_length; exact Ht).
  intros Hx. apply nth_error_In in Hx. now apply repeat_spec in Hx.
Qed.

Lemma trend_warm_up h target t x :
  (t < h)%nat -> nth_error (trend h target) t = Some x -> x = NaN.
Proof.
  intros Ht. unfold trend, rolling_sum. rewrite nth_error_rolling.
  destruct (t <? length (shift NaN 1 target))%nat eqn:El; [|discriminate].
  intros [= <-]. unfold rolling_at.
  destruct (Nat.eq_dec (S t) h) as [<-|Hne];
    [|apply rolling_at_warm_up; lia].
  apply Nat.ltb_lt in El.
  assert (Hw : window (S t) t (shift NaN 1 target)
               = firstn (S t) (shift NaN 1 target)).
  { unfold window. now rewrite Nat.sub_diag. }
  rewrite Hw.
  destruct (shift NaN 1 target) as [|y rest] eqn:Es;
    [cbn [length] in El; lia|].
  assert (Hy : y = NaN).
  { apply (nth_error_shift_down NaN 1 target 0); [lia|].
    change (Z.of_nat 1) with 1. now rewrite Es. }
  subst y. cbn [firstn map prep_value filter notna].
  pose proof (filter_shorter notna (map prep_value (firstn t rest))) as Hf.
  rewrite length_map, length_firstn in Hf.
  destruct (Nat.leb_spec (S t)
              (length (filter notna (map prep_value (firstn t rest)))));
    [lia|reflexivity].
Qed.

(** During the warm-up of a horizon the features are missing: on a row
    with fewer than [h] rows up to it, every column of the horizon except
    the exponential average holds the missing value, and the trend and the
    momentum are missing on the row after these as well. *)
Theorem warm_up_features_are_missing h close target t n c v :
  1 <= h ->
  In (n, c) (horizon_columns_of h close target) ->
  nth_error c t = Some v ->
  (Z.of_nat t + 1 < h -> n <> fmt "EMA_" h -> v = VFloat NaN) /\
  (Z.of_nat t < h -> n = fmt "Trend_" h \/ n = fmt "Momentum_" h ->
   v = VFloat NaN).
Proof.
  intros Hh Hin Hv.
  assert (Hroll : forall agg l x,
             Z.of_nat t + 1 < h ->
             nth_error (rolling (Z.to_nat h) agg l) t = Some x -> x = NaN)
    by (intros agg l x Ht; apply rolling_warm_up; lia).
  assert (Htrend : forall x,
             Z.of_nat t < h ->
             nth_error (trend (Z.to_nat h) target) t = Some x -> x = NaN)
    by (intros x Ht; apply trend_warm_up; lia).
  assert (Hmom : forall x,
             Z.of_nat t < h ->
             nth_error (momentum h close) t = Some x -> x = NaN).
  { intros x Ht. unfold momentum. rewrite nth_error_zip_with.
    destruct (nth_error close t) as [a|]; [|discriminate].
    destruct (nth_error (shift NaN h close) t) as [b|] eqn:Eb;
      [|discriminate].
    rewrite <- (Z2Nat.id h) in Eb by lia.
    apply nth_error_shift_down in Eb; [|lia]. subst b.
    intros [= <-]. unfold fsub. cbn [fneg]. now destruct a. }
  unfold horizon_columns_of, horizon_columns in Hin. cbv zeta in Hin.
  cbn [In] in Hin.
  repeat (destruct Hin as [Hin|Hin];
          [injection Hin as <- <-; unfold floats in Hv;
           rewrite nth_error_map in Hv|]);
    [..|contradiction].
  - (* Close_Ratio *)
    split; [intros Ht _|intros _ [E|E]; exfalso; revert E; name_neq].
    unfold close_ratio in Hv. rewrite nth_error_zip_with in Hv.
    destruct (nth_error close t) as [a|]; [|discriminate].
    destruct (nth_error (rolling_mean (Z.to_nat h) close) t) as [b|] eqn:Eb;
      [|discriminate].
    apply Hroll in Eb; [|exact Ht]. subst b. injection Hv as <-.
    now destruct a.
  - (* Trend *)
    destruct (nth_error (trend (Z.to_nat h) target) t) as [x|] eqn:Ex;
      [|discriminate].
    injection Hv as <-.
    split; intros Ht _; f_equal; apply Htrend;
      [lia|reflexivity|exact Ht|reflexivity].
  - (* Volatility *)
    split; [intros Ht _|intros _ [E|E]; exfalso; revert E; name_neq].
    destruct (nth_error (rolling_std (Z.to_nat h) close) t) as [x|] eqn:Ex;
      [|discriminate].
    injection Hv as <-. f_equal. now apply (Hroll _ _ _ Ht Ex).
  - (* Momentum *)
    destruct (nth_error (momentum h close) t) as [x|] eqn:Ex;
      [|discriminate].
    injection Hv as <-.
    split; intros Ht _; f_equal; apply Hmom;
      [lia|reflexivity|exact Ht|reflexivity].
  - (* EMA *)
    split; [intros _ Hne; now contradiction Hne
           |intros _ [E|E]; exfalso; revert E; name_neq].
  - (* RSI *)
    split; [intros Ht _|intros _ [E|E]; exfalso; revert E; name_neq].
    unfold rsi in Hv. rewrite nth_error_zip_with in Hv.
    destruct (nth_error (gain (Z.to_nat h) close) t) as [g|] eqn:Eg;
      [|discriminate].
    destruct (nth_error (loss (Z.to_nat h) close) t) as [l|] eqn:El;
      [|discriminate].
    apply Hroll in Eg; [|exact Ht]. apply Hroll in El; [|exact Ht].
    subst g l. injection Hv as <-. reflexivity.
  - (* Bollinger_Upper *)
    split; [intros Ht _|intros _ [E|E]; exfalso; revert E; name_neq].
    unfold bollinger_upper in Hv. rewrite nth_error_zip_with in Hv.
    destruct (nth_error (rolling_mean (Z.to_nat h) close) t) as [a|] eqn:Ea;
      [|discriminate].
    apply Hroll in Ea; [|exact Ht]. subst a.
    destruct (nth_error _ t); [|discriminate]. now injection Hv as <-.
  - (* Bollinger_Lower *)
    split; [intros Ht _|intros _ [E|E]; exfalso; revert E; name_neq].
    unfold bollinger_lower in Hv. rewrite nth_error_zip_with in Hv.
    destruct (nth_error (rolling_mean (Z.to_nat h) close) t) as [a|] eqn:Ea;
      [|discriminate].
    apply Hroll in Ea; [|exact Ht]. subst a.
    destruct (nth_error _ t); [|discriminate]. now injection Hv as <-.
  - (* Cumulative_Return *)
    split; [intros Ht _|intros _ [E|E]; exfalso; revert E; name_neq].
    destruct (nth_error (cumulative_return (Z.to_nat h) close) t)
      as [x|] eqn:Ex; [|discriminate].
    injection Hv as <-. f_equal. now apply (Hroll _ _ _ Ht Ex).
Qed.

(** When the average loss of a window is zero, the relative strength index
    is 100 if the window holds a gain, and missing if the close did not
    move at all in the window. *)
Theorem rsi_without_losses h close t g l :
  nth_error (loss h close) t = Some (Fin l) ->
  nth_error (gain h close) t = Some (Fin g) ->
  (l == 0)%Q ->
  ((0 < g)%Q ->
   exists r, nth_error (rsi h close) t = Some (Fin r) /\ (r == 100)%Q) /\
  ((g == 0)%Q -> nth_error (rsi h close) t = Some NaN).
Proof.
  intros Hl Hg Hzero. unfold rsi. rewrite nth_error_zip_with, Hg, Hl.
  unfold rsi_value. cbn [fdiv].
  assert (El : Qeq_bool l 0 = true) by (now apply Qeq_bool_iff).
  rewrite El. split.
  - intros Hpos. rewrite Qeq_bool_false_pos by exact Hpos.
    rewrite Qlt_bool_false by lra. cbn [signed_inf fadd fdiv].
    unfold fsub. cbn [fneg fadd]. eexists. split; [reflexivity|].
    assert (E : (100 + - 0 == 100)%Q) by lra.
    pose proof rnd_100 as H100.
    assert (H1 : (rnd (100 + - 0) <= rnd 100)%Q) by (apply rnd_mono; lra).
    assert (H2 : (rnd 100 <= rnd (100 + - 0))%Q) by (apply rnd_mono; lra).
    lra.
  - intros Hg0.
    assert (Eg : Qeq_bool g 0 = true) by (now apply Qeq_bool_iff).
    rewrite Eg. reflexivity.
Qed.

End WarmUp.

(** ** Calendar arithmetic *)


Lemma civil_from_days_ranges z :
  let '(y, m, d) := civil_from_days z in 1 <= m <= 12 /\ 1 <= d <= 31.
Proof.
  unfold civil_from_days. cbv zeta.
  set (doe := z + 719468 - (z + 719468) / 146097 * 146097).
  assert (Hdoe : 0 <= doe <= 146096) by (subst doe; Z.div_mod_to_equations; lia).
  clearbody doe.
  set (yoe := (doe - doe / 1460 + doe / 36524 - doe / 146096) / 365).
  set (doy := doe - (365 * yoe + yoe / 4 - yoe / 100)).
  assert (Hdoy : 0 <= doy <= 365) by (subst doy yoe; Z.div_mod_to_equations; lia).
  clearbody doy.
  destruct (Z.ltb_spec ((5 * doy + 2) / 153) 10); Z.div_mod_to_equations; lia.
Qed.

Lemma days_from_civil_of_civil z :
  let '(y, m, d) := civil_from_days z in days_from_civil y m d = z.
Proof.
  unfold civil_from_days. cbv zeta.
  set (era := (z + 719468) / 146097).
  set (doe := z + 719468 - era * 146097).
  assert (Hz : z = era * 146097 + doe - 719468) by (subst doe; lia).
  assert (Hdoe : 0 <= doe <= 146096) by (subst doe era; Z.div_mod_to_equations; lia).
  clearbody doe era. subst z.
  set (yoe := (doe - doe / 1460 + doe / 36524 - doe / 146096) / 365).
  set (doy := doe - (365 * yoe + yoe / 4 - yoe / 100)).
  assert (Hyoe : 0 <= yoe <= 399 /\ 0 <= doy <= 365) by (subst doy yoe; Z.div_mod_to_equations; lia).
  assert (Hdoe' : doe = yoe * 365 + yoe / 4 - yoe / 100 + doy) by (subst doy; lia).
  clearbody doy yoe. 
  set (mp := (5 * doy + 2) / 153).
  assert (Hmp : 0 <= mp <= 11) by (subst mp; Z.div_mod_to_equations; lia).
  unfold days_from_civil.
  destruct (Z.ltb_spec mp 10).
  - destruct (Z.leb_spec (mp + 3) 2); [lia|].
    destruct (Z.ltb_spec 2 (mp + 3)); [|lia].
    replace ((yoe + era * 400) / 400) with era by (Z.div_mod_to_equations; lia).
    replace (mp + 3 - 3) with mp by lia.
    subst mp; Z.div_mod_to_equations; lia.
  - destruct (Z.leb_spec (mp - 9) 2); [|lia].
    destruct (Z.ltb_spec 2 (mp - 9)); [lia|].
    replace (mp - 9 + 9) with mp by lia.
    assert (Hy : yoe <= 398 \/ yoe = 399) by lia.
    destruct Hy as [Hy|Hy].
    + replace ((yoe + era * 400 + 1 - 1) / 400) with era by (Z.div_mod_to_equations; lia).
      subst mp; Z.div_mod_to_equations; lia.
    + subst yoe. replace ((399 + era * 400 + 1 - 1) / 400) with era by (Z.div_mod_to_equations; lia).
      subst mp; Z.div_mod_to_equations; lia.
Qed.

Lemma civil_of_days_from_civil y m d :
  1 <= m <= 12 -> 1 <= d <= days_in_month y m ->
  civil_from_days (days_from_civil y m d) = (y, m, d).
Proof.
  intros Hm Hd.
  assert (Hcases : m = 1 \/ m = 2 \/ m = 3 \/ m = 4 \/ m = 5 \/ m = 6 \/
                   m = 7 \/ m = 8 \/ m = 9 \/ m = 10 \/ m = 11 \/ m = 12) by lia.
  unfold days_in_month, is_leap in Hd.
  assert (Hmain : forall y' mp doy0,
             0 <= mp <= 11 ->
             doy0 = (153 * mp + 2) / 5 ->
             1 <= d ->
             (mp <= 10 -> doy0 + d - 1 <= (153 * (mp + 1) + 2) / 5 - 1) ->
             (mp = 11 -> d <= 28 \/ (d = 29 /\ (y' + 1) mod 4 = 0 /\
                                      ((y' + 1) mod 100 <> 0 \/ (y' + 1) mod 400 = 0))) ->
             civil_from_days (y' / 400 * 146097 +
                              ((y' - y' / 400 * 400) * 365 + (y' - y' / 400 * 400) / 4
                               - (y' - y' / 400 * 400) / 100 + (doy0 + d - 1)) - 719468)
             = (if (if mp <? 10 then mp + 3 else mp - 9) <=? 2 then y' + 1 else y',
                if mp <? 10 then mp + 3 else mp - 9, d)).
  { clear. intros y' mp doy0 Hmp Hdoy0 Hd1 Hle Hfeb.
    set (era := y' / 400). set (yoe := y' - era * 400).
    assert (Hyoe : 0 <= yoe <= 399) by (subst yoe era; Z.div_mod_to_equations; lia).
    assert (Hy : y' = era * 400 + yoe) by (subst yoe; lia).
    clearbody yoe era. subst y'.
    set (doy := doy0 + d - 1).
    assert (Hdoy : 0 <= doy <= 365 /\
                   (doy = 365 -> (yoe + 1) mod 4 = 0 /\ ((yoe + 1) mod 100 <> 0 \/ yoe = 399))).
    { subst doy. destruct (Z.eq_dec mp 11) as [->|Hne].
      - destruct (Hfeb eq_refl) as [H28|(H29 & H4 & H100)].
        + split; [Z.div_mod_to_equations; lia|]. intros E. exfalso. Z.div_mod_to_equations. lia.
        + split; [Z.div_mod_to_equations; lia|]. intros _.
          revert H4 H100. Z.div_mod_to_equations. lia.
      - assert (Hmp' : mp <= 10) by lia. specialize (Hle Hmp').
        split; [Z.div_mod_to_equations; lia|]. intros E. exfalso. Z.div_mod_to_equations. lia. }
    assert (Hdm : doy0 <= doy /\ (mp <= 10 -> doy < (153 * (mp + 1) + 2) / 5)).
    { subst doy. split; [lia|]. intros H. specialize (Hle H). lia. }
    assert (Edoy : doy = doy0 + d - 1) by reflexivity.
    clearbody doy.
    unfold civil_from_days. cbv zeta.
    set (doe := yoe * 365 + yoe / 4 - yoe / 100 + doy).
    assert (Hdoe : 0 <= doe <= 146096).
    { subst doe. destruct Hdoy as (Hr & Hl). Z.div_mod_to_equations. lia. }
    replace (era * 146097 + doe - 719468 + 719468) with (era * 146097 + doe) by lia.
    replace ((era * 146097 + doe) / 146097) with era by (Z.div_mod_to_equations; lia).
    replace (era * 146097 + doe - era * 146097) with doe by lia.
    assert (Hy2 : (doe - doe / 1460 + doe / 36524 - doe / 146096) / 365 = yoe).
    { subst doe. destruct Hdoy as (Hr & Hl).
      destruct (Z.eq_dec doy 365) as [E|E].
      - destruct (Hl E) as (H4 & H100). clear Hl. subst doy. Z.div_mod_to_equations. lia.
      - clear Hl. Z.div_mod_to_equations. lia. }
    rewrite Hy2.
    replace (doe - (365 * yoe + yoe / 4 - yoe / 100)) with doy by (subst doe; lia).
    assert (Hmp2 : (5 * doy + 2) / 153 = mp).
    { destruct Hdm as (Hlo & Hhi). destruct Hdoy as (Hr & _). subst doy0.
      destruct (Z.eq_dec mp 11) as [->|Hne].
      - Z.div_mod_to_equations. lia.
      - assert (Hmp' : mp <= 10) by lia. specialize (Hhi Hmp').
        assert (Hc : mp = 0 \/ mp = 1 \/ mp = 2 \/ mp = 3 \/ mp = 4 \/ mp = 5 \/ mp = 6 \/
                     mp = 7 \/ mp = 8 \/ mp = 9 \/ mp = 10) by lia.
        repeat (destruct Hc as [->|Hc]; [Z.div_mod_to_equations; lia|]).
        subst mp. Z.div_mod_to_equations; lia. }
    rewrite Hmp2. rewrite <- Hdoy0.
    replace (doy - doy0 + 1) with d by lia.
    replace (yoe + era * 400) with (era * 400 + yoe) by lia. reflexivity. }
  destruct (Z.leb_spec m 2) as [Hjf|Hrest].
  - (* January and February *)
    unfold days_from_civil. destruct (Z.leb_spec m 2); [|lia].
    destruct (Z.ltb_spec 2 m); [lia|]. cbv zeta.
    replace ((153 * (m + 9) + 2) / 5 + d - 1) with ((153 * (m + 9) + 2) / 5 + d - 1) by lia.
    rewrite (Hmain (y - 1) (m + 9) ((153 * (m + 9) + 2) / 5)); try lia.
    + destruct (Z.ltb_spec (m + 9) 10); [lia|].
      destruct (Z.leb_spec (m + 9 - 9) 2); [|lia].
      replace (y - 1 + 1) with y by lia. replace (m + 9 - 9) with m by lia.
      reflexivity.
    + intros Hle. assert (m = 1) by lia. subst m. cbn in Hd. Z.div_mod_to_equations. lia.
    + intros E. assert (m = 2) by lia. subst m.
      replace (y - 1 + 1) with y by lia.
      change (2 =? 2) with true in Hd. cbv iota in Hd.
      destruct (Z.eqb_spec (y mod 4) 0); destruct (Z.eqb_spec (y mod 100) 0);
        destruct (Z.eqb_spec (y mod 400) 0); cbn in Hd; lia.
  - unfold days_from_civil. destruct (Z.leb_spec m 2); [lia|].
    destruct (Z.ltb_spec 2 m); [|lia]. cbv zeta.
    rewrite (Hmain y (m - 3) ((153 * (m - 3) + 2) / 5)); try lia.
    + destruct (Z.ltb_spec (m - 3) 10); [|lia].
      destruct (Z.leb_spec (m - 3 + 3) 2); [lia|].
      replace (m - 3 + 3) with m by lia. reflexivity.
    + intros _.
      assert (Hc : m = 3 \/ m = 4 \/ m = 5 \/ m = 6 \/ m = 7 \/ m = 8 \/ m = 9 \/
                   m = 10 \/ m = 11 \/ m = 12) by lia.
      repeat (destruct Hc as [->|Hc];
              [cbn in Hd; Z.div_mod_to_equations; lia|]).
      subst m. cbn in Hd. Z.div_mod_to_equations. lia.
Qed.

Lemma day_of_year_bounds z :
  0 <= z - days_from_civil (fst (fst (civil_from_days z))) 1 1 <= 365.
Proof.
  unfold civil_from_days. cbv zeta. cbn [fst].
  set (era := (z + 719468) / 146097).
  set (doe := z + 719468 - era * 146097).
  assert (Hz : z = era * 146097 + doe - 719468) by (subst doe; lia).
  assert (Hdoe : 0 <= doe <= 146096)
    by (subst doe era; Z.div_mod_to_equations; lia).
  clearbody doe era. subst z.
  set (yoe := (doe - doe / 1460 + doe / 36524 - doe / 146096) / 365).
  set (doy := doe - (365 * yoe + yoe / 4 - yoe / 100)).
  assert (Hyoe : 0 <= yoe <= 399 /\ 0 <= doy <= 365)
    by (subst doy yoe; Z.div_mod_to_equations; lia).
  assert (Hdoe' : doe = yoe * 365 + yoe / 4 - yoe / 100 + doy)
    by (subst doy; lia).
  clearbody doy yoe. subst doe.
  set (mp := (5 * doy + 2) / 153).
  assert (Hmp : (mp < 10 <-> doy < 306) /\ 0 <= mp <= 11)
    by (subst mp; Z.div_mod_to_equations; lia).
  clearbody mp. unfold days_from_civil. cbn [Z.leb Z.ltb Z.compare Pos.compare Pos.compare_cont].
  cbv zeta.
  change ((153 * (1 + 9) + 2) / 5 + 1 - 1) with 306.
  destruct (Z.ltb_spec mp 10).
  - destruct (Z.leb_spec (mp + 3) 2); [lia|].
    assert (Hy : yoe = 0 \/ 1 <= yoe) by lia. destruct Hy as [->|Hy].
    + replace ((0 + era * 400 - 1) / 400) with (era - 1)
        by (Z.div_mod_to_equations; lia).
      Z.div_mod_to_equations. lia.
    + replace ((yoe + era * 400 - 1) / 400) with era
        by (Z.div_mod_to_equations; lia).
      Z.div_mod_to_equations. lia.
  - destruct (Z.leb_spec (mp - 9) 2); [|lia].
    replace ((yoe + era * 400 + 1 - 1) / 400) with era
      by (Z.div_mod_to_equations; lia).
    Z.div_mod_to_equations. lia.
Qed.

Lemma dayofweek_range ns : 0 <= dayofweek ns <= 6.
Proof. unfold dayofweek. pose proof (Z.mod_pos_bound (days_of ns + 3) 7). lia. Qed.

Lemma month_day_ranges ns :
  1 <= month_of ns <= 12 /\ 1 <= day_of ns <= 31.
Proof.
  unfold month_of, day_of.
  pose proof (civil_from_days_ranges (days_of ns)) as H.
  destruct (civil_from_days (days_of ns)) as [[y m] d]. exact H.
Qed.

Lemma quarter_range ns : 1 <= quarter_of ns <= 4.
Proof.
  unfold quarter_of. destruct (month_day_ranges ns) as (Hm & _).
  Z.div_mod_to_equations. lia.
Qed.

Lemma iso_week_range ns : 1 <= iso_week ns <= 53.
Proof.
  unfold iso_week. cbv zeta.
  pose proof (day_of_year_bounds (days_of ns - dayofweek ns + 3)) as H.
  Z.div_mod_to_equations. lia.
Qed.

Lemma date_parts_determine_day ns :
  days_from_civil (year_of ns) (month_of ns) (day_of ns) = days_of ns.
Proof.
  unfold year_of, month_of, day_of.
  pose proof (days_from_civil_of_civil (days_of ns)) as H.
  destruct (civil_from_days (days_of ns)) as [[y m] d]. exact H.
Qed.

(** ** The calendar columns, row by row *)

Lemma peek_get_col df n c t :
  get_col df n = Ok c -> peek t (columns df) n = Some (nth_error c t).
Proof.
  intros H. apply get_col_lookup in H. unfold peek. now rewrite H.
Qed.

Section CalendarRows.
Context {F : FloatOps} {P : DateParsers}.

Lemma to_datetime_gives_datetimes dates : forall parsed,
  mapM to_datetime dates = Ok parsed -> Forall is_datetime parsed.
Proof.
  induction dates as [|c dates IH]; intros parsed H; cbn [mapM] in H.
  - injection H as <-. constructor.
  - inv_bind_as H x Hx. inv_bind_as H xs Hxs. injection H as <-.
    constructor; [|now apply IH].
    destruct c as [[q| | |]|z|s|ns|]; cbn in Hx;
      try discriminate; try (injection Hx as <-; exact I).
    destruct (parse_datetime s); [injection Hx as <-; exact I|discriminate].
Qed.

Lemma calendar_columns df date_col out ps :
  create_calendar_features df date_col = Ok (out, ps) ->
  ~ In date_col calendar_predictors ->
  exists parsed dow dom week month year quarter me ms dsin dcos msin mcos,
    (get_col out date_col = Ok parsed /\ Forall is_datetime parsed) /\
    (mapM (dt_field dayofweek) parsed = Ok dow /\
     get_col out "day_of_week" = Ok dow) /\
    (mapM (dt_field day_of) parsed = Ok dom /\
     get_col out "day_of_month" = Ok dom) /\
    (mapM (dt_field iso_week) parsed = Ok week /\
     get_col out "week_of_year" = Ok week) /\
    (mapM (dt_field month_of) parsed = Ok month /\
     get_col out "month" = Ok month) /\
    (mapM (dt_field year_of) parsed = Ok year /\
     get_col out "year" = Ok year) /\
    (mapM (dt_field quarter_of) parsed = Ok quarter /\
     get_col out "quarter" = Ok quarter) /\
    (mapM (dt_flag is_month_end) parsed = Ok me /\
     get_col out "is_month_end" = Ok me) /\
    (mapM (dt_flag is_month_start) parsed = Ok ms /\
     get_col out "is_month_start" = Ok ms) /\
    (mapM (cyclical np_sin 7) dow = Ok dsin /\
     get_col out "day_of_week_sin" = Ok dsin) /\
    (mapM (cyclical np_cos 7) dow = Ok dcos /\
     get_col out "day_of_week_cos" = Ok dcos) /\
    (mapM (cyclical np_sin 12) month = Ok msin /\
     get_col out "month_sin" = Ok msin) /\
    (mapM (cyclical np_cos 12) month = Ok mcos /\
     get_col out "month_cos" = Ok mcos).
Proof.
  unfold create_calendar_features. intros H Hd.
  assert (Hne : forall n, In n calendar_predictors -> date_col <> n)
    by (intros n Hn ->; contradiction).
  cbn [calendar_predictors In] in Hne.
  inv_bind_as H d0 H0. inv_bind_as H d1 H1. inv_bind_as H d2 H2.
  inv_bind_as H d3 H3. inv_bind_as H d4 H4. inv_bind_as H d5 H5.
  inv_bind_as H d6 H6. inv_bind_as H d7 H7. inv_bind_as H d8 H8.
  inv_bind_as H d9 H9. inv_bind_as H d10 H10. inv_bind_as H d11 H11.
  inv_bind_as H d12 H12. injection H as <- <-.
  destruct (derive_inv _ _ _ _ _ H0) as (c0 & parsed & G0 & M0 & ->).
  destruct (derive_inv _ _ _ _ _ H1) as (c1 & dow & G1 & M1 & ->).
  destruct (derive_inv _ _ _ _ _ H2) as (c2 & dom & G2 & M2 & ->).
  destruct (derive_inv _ _ _ _ _ H3) as (c3 & week & G3 & M3 & ->).
  destruct (derive_inv _ _ _ _ _ H4) as (c4 & month & G4 & M4 & ->).
  destruct (derive_inv _ _ _ _ _ H5) as (c5 & year & G5 & M5 & ->).
  destruct (derive_inv _ _ _ _ _ H6) as (c6 & quarter & G6 & M6 & ->).
  destruct (derive_inv _ _ _ _ _ H7) as (c7 & me & G7 & M7 & ->).
  destruct (derive_inv _ _ _ _ _ H8) as (c8 & ms & G8 & M8 & ->).
  destruct (derive_inv _ _ _ _ _ H9) as (c9 & dsin & G9 & M9 & ->).
  destruct (derive_inv _ _ _ _ _ H10) as (c10 & dcos & G10 & M10 & ->).
  destruct (derive_inv _ _ _ _ _ H11) as (c11 & msin & G11 & M11 & ->).
  destruct (derive_inv _ _ _ _ _ H12) as (c12 & mcos & G12 & M12 & ->).
  clear H0 H1 H2 H3 H4 H5 H6 H7 H8 H9 H10 H11 H12.
  repeat match goal with
         | G : get_col _ _ = Ok _ |- _ =>
             repeat (rewrite get_set_other in G
                       by first [ discriminate | apply Hne; tauto ]);
             rewrite get_set_same in G; injection G as <-
         end.
  exists parsed, dow, dom, week, month, year, quarter, me, ms,
    dsin, dcos, msin, mcos.
  repeat split; try assumption;
    try (eapply to_datetime_gives_datetimes; eassumption);
    repeat (rewrite get_set_other
              by first [ discriminate | apply Hne; tauto ]);
    apply get_set_same.
Qed.

(** On every row whose date is present, the calendar columns hold the
    parts of that date, each within its range: the weekday from 0 (Monday)
    to 6, the day from 1 to 31, the ISO week from 1 to 53, the month from
    1 to 12, the quarter from 1 to 4 and the two month flags 0 or 1.  The
    year, the month and the day together determine the day of the date. *)
Theorem calendar_values_in_range df date_col out ps parsed t ns :
  create_calendar_features df date_col = Ok (out, ps) ->
  ~ In date_col calendar_predictors ->
  get_col out date_col = Ok parsed ->
  nth_error parsed t = Some (VTime ns) ->
  (peek t (columns out) "day_of_week" = Some (Some (VInt (dayofweek ns))) /\
   0 <= dayofweek ns <= 6) /\
  (peek t (columns out) "day_of_month" = Some (Some (VInt (day_of ns))) /\
   1 <= day_of ns <= 31) /\
  (peek t (columns out) "week_of_year" = Some (Some (VInt (iso_week ns))) /\
   1 <= iso_week ns <= 53) /\
  (peek t (columns out) "month" = Some (Some (VInt (month_of ns))) /\
   1 <= month_of ns <= 12) /\
  peek t (columns out) "year" = Some (Some (VInt (year_of ns))) /\
  (peek t (columns out) "quarter" = Some (Some (VInt (quarter_of ns))) /\
   1 <= quarter_of ns <= 4) /\
  peek t (columns out) "is_month_end"
  = Some (Some (VInt (if is_month_end ns then 1 else 0))) /\
  peek t (columns out) "is_month_start"
  = Some (Some (VInt (if is_month_start ns then 1 else 0))) /\
  days_from_civil (year_of ns) (month_of ns) (day_of ns) = days_of ns.
Proof.
  intros H Hd Hparsed Ht.
  destruct (calendar_columns _ _ _ _ H Hd)
    as (parsed' & dow & dom & week & month & year & quarter & me & ms
        & dsin & dcos & msin & mcos & (Hp & _) & (M1 & G1) & (M2 & G2) & (M3 & G3)
        & (M4 & G4) & (M5 & G5) & (M6 & G6) & (M7 & G7) & (M8 & G8) & _).
  rewrite Hparsed in Hp. injection Hp as <-.
  assert (Hcell : forall (f : cell -> result cell) (col : list cell) v,
             mapM f parsed = Ok col -> f (VTime ns) = Ok v ->
             nth_error col t = Some v).
  { intros f col v Hm Hf.
    destruct (mapM_nth _ _ _ Hm _ _ Ht) as (b & Hb & Hfb). congruence. }
  pose proof (month_day_ranges ns) as (Hmonth & Hday).
  rewrite (peek_get_col _ _ _ t G1), (peek_get_col _ _ _ t G2),
    (peek_get_col _ _ _ t G3), (peek_get_col _ _ _ t G4),
    (peek_get_col _ _ _ t G5), (peek_get_col _ _ _ t G6),
    (peek_get_col _ _ _ t G7), (peek_get_col _ _ _ t G8).
  rewrite (Hcell _ _ _ M1 eq_refl), (Hcell _ _ _ M2 eq_refl),
    (Hcell _ _ _ M3 eq_refl), (Hcell _ _ _ M4 eq_refl),
    (Hcell _ _ _ M5 eq_refl), (Hcell _ _ _ M6 eq_refl),
    (Hcell _ _ _ M7 eq_refl), (Hcell _ _ _ M8 eq_refl).
  repeat split; try reflexivity; try tauto.
  - apply dayofweek_range.
  - apply dayofweek_range.
  - apply iso_week_range.
  - apply iso_week_range.
  - apply quarter_range.
  - apply quarter_range.
  - apply date_parts_determine_day.
Qed.

(** On a row whose date is missing, the six date parts and the four
    cyclical encodings are missing, whereas the two month flags are 0. *)
Theorem calendar_fields_of_missing_date df date_col out ps parsed t n :
  create_calendar_features df date_col = Ok (out, ps) ->
  ~ In date_col calendar_predictors ->
  get_col out date_col = Ok parsed ->
  nth_error parsed t = Some VNaT ->
  In n calendar_predictors ->
  peek t (columns out) n
  = Some (Some (if String.eqb n "is_month_end" || String.eqb n "is_month_start"
                then VInt 0 else VFloat NaN)).
Proof.
  intros H Hd Hparsed Ht Hn.
  destruct (calendar_columns _ _ _ _ H Hd)
    as (parsed' & dow & dom & week & month & year & quarter & me & ms
        & dsin & dcos & msin & mcos & (Hp & _) & (M1 & G1) & (M2 & G2) & (M3 & G3)
        & (M4 & G4) & (M5 & G5) & (M6 & G6) & (M7 & G7) & (M8 & G8)
        & (M9 & G9) & (M10 & G10) & (M11 & G11) & (M12 & G12)).
  rewrite Hparsed in Hp. injection Hp as <-.
  assert (Hcell : forall (f : cell -> result cell) (col : list cell) v,
             mapM f parsed = Ok col -> f VNaT = Ok v ->
             nth_error col t = Some v).
  { intros f col v Hm Hf.
    destruct (mapM_nth _ _ _ Hm _ _ Ht) as (b & Hb & Hfb). congruence. }
  assert (Hdow : nth_error dow t = Some (VFloat NaN))
    by (apply (Hcell _ _ _ M1); reflexivity).
  assert (Hmonth : nth_error month t = Some (VFloat NaN))
    by (apply (Hcell _ _ _ M4); reflexivity).
  assert (Hcyc : forall f period (src col : list cell),
             nth_error src t = Some (VFloat NaN) ->
             mapM (cyclical f period) src = Ok col ->
             nth_error col t = Some (VFloat NaN)).
  { intros f period src col Hsrc Hm.
    destruct (mapM_nth _ _ _ Hm _ _ Hsrc) as (b & Hb & Hfb).
    rewrite Hb. f_equal. unfold cyclical in Hfb. cbn in Hfb.
    now injection Hfb as <-. }
  cbn [calendar_predictors In] in Hn.
  repeat (destruct Hn as [<-|Hn];
          [cbn [String.eqb Ascii.eqb Bool.eqb orb];
           first [ rewrite (peek_get_col _ _ _ t G1)
                 | rewrite (peek_get_col _ _ _ t G2)
                 | rewrite (peek_get_col _ _ _ t G3)
                 | rewrite (peek_get_col _ _ _ t G4)
                 | rewrite (peek_get_col _ _ _ t G5)
                 | rewrite (peek_get_col _ _ _ t G6)
                 | rewrite (peek_get_col _ _ _ t G7)
                 | rewrite (peek_get_col _ _ _ t G8)
                 | rewrite (peek_get_col _ _ _ t G9)
                 | rewrite (peek_get_col _ _ _ t G10)
                 | rewrite (peek_get_col _ _ _ t G11)
                 | rewrite (peek_get_col _ _ _ t G12) ];
           f_equal;
           first [ apply (Hcell _ _ _ M1); reflexivity
                 | apply (Hcell _ _ _ M2); reflexivity
                 | apply (Hcell _ _ _ M3); reflexivity
                 | apply (Hcell _ _ _ M4); reflexivity
                 | apply (Hcell _ _ _ M5); reflexivity
                 | apply (Hcell _ _ _ M6); reflexivity
                 | apply (Hcell _ _ _ M7); reflexivity
                 | apply (Hcell _ _ _ M8); reflexivity
                 | apply (Hcyc _ _ _ _ Hdow M9)
                 | apply (Hcyc _ _ _ _ Hdow M10)
                 | apply (Hcyc _ _ _ _ Hmonth M11)
                 | apply (Hcyc _ _ _ _ Hmonth M12) ]|]).
  contradiction.
Qed.

Ltac same_column Hget Hmap Hcol :=
  rewrite Hget; cbn [bind]; rewrite Hmap; cbn [bind];
  rewrite (set_col_same _ _ _ (get_col_lookup _ _ _ Hcol)).

(** Running the calendar cell a second time changes nothing: on the table
    it has returned, [create_calendar_features] succeeds and returns that
    table again. *)
Theorem create_calendar_features_idempotent df date_col out ps :
  create_calendar_features df date_col = Ok (out, ps) ->
  ~ In date_col calendar_predictors ->
  create_calendar_features out date_col = Ok (out, calendar_predictors).
Proof.
  intros H Hd.
  destruct (calendar_columns _ _ _ _ H Hd)
    as (parsed & dow & dom & week & month & year & quarter & me & ms
        & dsin & dcos & msin & mcos & (Hp & Hdt) & (M1 & G1) & (M2 & G2)
        & (M3 & G3) & (M4 & G4) & (M5 & G5) & (M6 & G6) & (M7 & G7)
        & (M8 & G8) & (M9 & G9) & (M10 & G10) & (M11 & G11) & (M12 & G12)).
  pose proof (to_datetime_idempotent parsed Hdt) as M0.
  unfold create_calendar_features, derive.
  same_column Hp M0 Hp. same_column Hp M1 G1. same_column Hp M2 G2.
  same_column Hp M3 G3. same_column Hp M4 G4. same_column Hp M5 G5.
  same_column Hp M6 G6. same_column Hp M7 G7. same_column Hp M8 G8.
  same_column G1 M9 G9. same_column G1 M10 G10.
  same_column G4 M11 G11. same_column G4 M12 G12.
  reflexivity.
Qed.

End CalendarRows.

(** ** Parsing the announcement dates *)

Lemma prefix_empty s : String.prefix "" s = true.
Proof. now destruct s. Qed.

Lemma before_paren_cut a tail :
  String.prefix " (" tail = true -> before_paren (a ++ tail) = before_paren a.
Proof.
  intros Htail. destruct tail as [|x tail]; [discriminate|].
  assert (Hx : x = " "%char).
  { cbn [String.prefix] in Htail.
    destruct (Ascii.ascii_dec " " x); [congruence|discriminate]. }
  subst x. induction a as [|c a IH].
  - cbn [String.append before_paren]. now rewrite Htail.
  - cbn [String.append before_paren]. rewrite IH.
    assert (E : String.prefix " (" (String c (a ++ String " " tail))
                = String.prefix " (" (String c a)).
    { cbn [String.prefix]. destruct (Ascii.ascii_dec " " c); [|reflexivity].
      destruct a as [|d a]; cbn [String.append String.prefix].
      - destruct (Ascii.ascii_dec "(" " "); [discriminate|reflexivity].
      - destruct (Ascii.ascii_dec "(" d); [|reflexivity].
        now rewrite !prefix_empty. }
    now rewrite E.
Qed.

Lemma before_paren_suffix a b :
  before_paren (a ++ " (" ++ b) = before_paren a.
Proof.
  apply before_paren_cut. cbn [String.append String.prefix].
  destruct (Ascii.ascii_dec " " " ") as [_|Hne]; [|now contradiction Hne].
  destruct (Ascii.ascii_dec "(" "(") as [_|Hne]; [|now contradiction Hne].
  apply prefix_empty.
Qed.

Section AnnouncementDates.
Context {F : FloatOps} {P : DateParsers}.

(** [convert_date_format] reads the date before the first " (" only: a
    text after it changes neither the date that is returned nor whether
    one is returned. *)
Theorem convert_date_format_drops_suffix a b :
  convert_date_format (VStr (a ++ " (" ++ b))
  = match strptime_bdY (before_paren a) with
    | Some parsed_date =>
        match parse_datetime (strftime_Ymd parsed_date) with
        | Some ns => Ok (VTime ns)
        | None => Raise (UnparseableDate (strftime_Ymd parsed_date))
        end
    | None => Raise (UnparseableDate (a ++ " (" ++ b))
    end.
Proof.
  unfold convert_date_format. now rewrite before_paren_suffix.
Qed.

(** When [pd.to_datetime] reads the rewritten date as the midnight of the
    parsed date, as it does for the four-digit years that a timestamp
    holds, [convert_date_format] returns that midnight: a whole number of
    days, whose year, month and day, as the calendar features read them,
    are the parsed ones.  Otherwise the result is what [pd.to_datetime]
    makes of the rewritten date. *)
Theorem convert_date_format_fields s y m d :
  strptime_bdY (before_paren s) = Some (y, m, d) ->
  parse_datetime (strftime_Ymd (y, m, d)) = Some (midnight (y, m, d)) ->
  1 <= m <= 12 ->
  1 <= d <= days_in_month y m ->
  exists ns,
    convert_date_format (VStr s) = Ok (VTime ns) /\
    ns mod ns_per_day = 0 /\
    year_of ns = y /\ month_of ns = m /\ day_of ns = d.
Proof.
  intros Hs Hparse Hm Hd. exists (midnight (y, m, d)).
  unfold convert_date_format. rewrite Hs, Hparse. split; [reflexivity|].
  unfold midnight. split; [apply Z.mod_mul; discriminate|].
  unfold year_of, month_of, day_of, days_of.
  rewrite Z.div_mul by discriminate.
  rewrite (civil_of_days_from_civil y m d Hm Hd). now repeat split.
Qed.

End AnnouncementDates.

(** ** The columns of the announcement tables *)

Lemma rename_cols_six flag df out :
  rename_cols (macro_columns flag) df = Ok out ->
  exists a b c d e f,
    map snd (columns df) = [a; b; c; d; e; f] /\
    out = {| index := index df;
             columns := [("date", a); ("time", b); ("actual", c);
                         ("forecast", d); ("previous", e); (flag, f)] |}.
Proof.
  unfold rename_cols, macro_columns. cbn [length].
  destruct (Nat.eqb_spec 6 (length (columns df))) as [Hlen|]; [|discriminate].
  intros [= <-]. rewrite <- (length_map snd) in Hlen.
  destruct (map snd (columns df)) as [|a [|b [|c [|d [|e [|f [|? ?]]]]]]];
    try discriminate.
  now exists a, b, c, d, e, f.
Qed.

Section AnnouncementTables.
Context {F : FloatOps} {P : DateParsers}.

Ltac table_columns H :=
  let df1 := fresh "df1" in let df3 := fresh "df3" in
  let H1 := fresh "H1" in let H3 := fresh "H3" in
  inv_bind_as H df1 H1;
  destruct (rename_cols_six _ _ _ H1) as (? & ? & ? & ? & ? & ? & _ & ->);
  try (let df2 := fresh "df2" in let H2 := fresh "H2" in
       inv_bind_as H df2 H2;
       destruct (derive_inv _ _ _ _ _ H2) as (? & ? & _ & _ & ->));
  inv_bind_as H df3 H3;
  unfold announcement_gaps in H3;
  let x := fresh in let Hx := fresh in
  inv_bind_as H3 x Hx;
  let x := fresh in let Hx := fresh in
  inv_bind_as H3 x Hx;
  let x := fresh in let Hx := fresh in
  inv_bind_as H3 x Hx;
  let x := fresh in let Hx := fresh in
  inv_bind_as H3 x Hx;
  let x := fresh in let Hx := fresh in
  inv_bind_as H3 x Hx;
  let x := fresh in let Hx := fresh in
  inv_bind_as H3 x Hx;
  injection H3 as <-;
  unfold drop_cols in H;
  let x := fresh in let Hx := fresh in
  inv_bind_as H x Hx;
  injection H as <-;
  split; reflexivity.

(** The three announcement tables are returned with the rows of their
    sheet and with these columns: the date, the announcement flag, the
    change and the day count; the table of the interest rates keeps the
    shifted date column as well, which the other two drop. *)
Theorem macro_tables_columns sheet1 sheet2 sheet3 un cp fed :
  (un_rate sheet1 = Ok un ->
   map fst (columns un)
   = ["date"; "un_announcement"; "unempl_change";
      "days_until_next_announcement"] /\
   index un = index sheet1) /\
  (cpi sheet2 = Ok cp ->
   map fst (columns cp)
   = ["date"; "cpi_announcement"; "cpi_change";
      "days_until_next_announcement"] /\
   index cp = index sheet2) /\
  (interest_rates sheet3 = Ok fed ->
   map fst (columns fed)
   = ["date"; "interest_announcement"; "interest_change";
      "next_announcement_date"; "days_until_next_announcement"] /\
   index fed = index sheet3).
Proof.
  split; [|split]; intros H.
  - unfold un_rate in H. table_columns H.
  - unfold cpi in H. table_columns H.
  - unfold interest_rates in H. table_columns H.
Qed.

Lemma assign_fresh n c cs :
  ~ In n (map fst cs) -> assign n c cs = cs ++ [(n, c)].
Proof.
  induction cs as [|[m c0] cs IH]; cbn [assign map fst In app]; intros Hn;
    [reflexivity|].
  destruct (String.eqb_spec m n) as [->|_]; [tauto|].
  rewrite IH by tauto. reflexivity.
Qed.

(** The announcement tables read their sheet by position: the first
    column is the date, the fourth the forecast and the fifth the previous
    value.  The names of the sheet's columns and the cells of its second
    and third column (the time and the actual value) have no influence on
    the result. *)
Theorem macro_tables_read_by_position s1 s2 a b1 b2 c1 c2 d e :
  index s1 = index s2 ->
  map snd (columns s1) = [a; b1; c1; d; e] ->
  map snd (columns s2) = [a; b2; c2; d; e] ->
  (forall n, In n (map fst (columns s1) ++ map fst (columns s2)) ->
             ~ In n ["un_announcement"; "cpi_announcement";
                     "interest_announcement"]) ->
  un_rate s1 = un_rate s2 /\
  cpi s1 = cpi s2 /\
  interest_rates s1 = interest_rates s2.
Proof.
  intros Hidx H1 H2 Hnames.
  assert (Hfresh : forall flag,
             In flag ["un_announcement"; "cpi_announcement";
                      "interest_announcement"] ->
             ~ In flag (map fst (columns s1)) /\
             ~ In flag (map fst (columns s2))).
  { intros flag Hflag. split; intros Hin;
      apply (Hnames flag); try exact Hflag; apply in_or_app; tauto. }
  assert (Hrows : nrows s1 = nrows s2) by (unfold nrows; now rewrite Hidx).
  destruct s1 as [i1 cs1], s2 as [i2 cs2]. cbn [index columns] in *.
  subst i2.
  destruct cs1 as [|[n0 x0] [|[n1 x1] [|[n2 x2] [|[n3 x3] [|[n4 x4] [|? ?]]]]]];
    try discriminate.
  destruct cs2 as [|[m0 y0] [|[m1 y1] [|[m2 y2] [|[m3 y3] [|[m4 y4] [|? ?]]]]]];
    try discriminate.
  cbn [map snd] in H1, H2.
  injection H1 as -> -> -> -> ->. injection H2 as -> -> -> -> ->.
  unfold un_rate, cpi, interest_rates, set_col. cbn [columns index].
  rewrite Hrows.
  destruct (Hfresh "un_announcement") as (Ha1 & Ha2); [cbn; tauto|].
  destruct (Hfresh "cpi_announcement") as (Hb1 & Hb2); [cbn; tauto|].
  destruct (Hfresh "interest_announcement") as (Hc1 & Hc2); [cbn; tauto|].
  rewrite !assign_fresh by assumption.
  unfold nrows. cbn [index app].
  repeat split;
    unfold rename_cols, derive, announcement_gaps, numeric, drop_cols,
      get_col, set_col, timedelta_days_column;
    cbn;
    repeat (match goal with
            | |- context [mapM ?f ?l] => is_var l; destruct (mapM f l)
            | |- context [match ?l with [] => _ | _ :: _ => _ end] =>
                is_var l; destruct l
            | |- context [zip_withM ?f ?l ?m] => destruct (zip_withM f l m)
            end; cbn);
    reflexivity.
Qed.

End AnnouncementTables.

(** ** The names of the technical predictors *)

Section PredictorNames.
Context {F : FloatOps} {R : RollingPolicy}.

(** The predictor list that [create_ohlc_features] returns never names the
    label, the next close or the close itself: a model trained on these
    predictors is not handed the column it has to predict. *)
Theorem technical_predictors_exclude_labels df hs out ps :
  create_ohlc_features df hs = Ok (out, ps) ->
  ~ In "target" ps /\ ~ In "tomorrow" ps /\ ~ In "close" ps.
Proof.
  intros H. unfold create_ohlc_features in H.
  inv_bind_as H r1 H1. destruct r1 as [df1 ps1].
  inv_bind_as H df2 H2. injection H as _ E. subst ps1.
  destruct (add_horizons_shape _ _ _ _ _ H1) as (-> & _).
  cbn [app].
  assert (Hnot : forall n,
             In n (flat_map predictor_names (processed df hs)) ->
             n <> "target" /\ n <> "tomorrow" /\ n <> "close").
  { intros n Hin. apply in_flat_map in Hin. destruct Hin as (h & _ & Hn).
    cbn [predictor_names In] in Hn.
    repeat (destruct Hn as [<-|Hn]; [repeat split; name_neq|]).
    contradiction. }
  repeat split; intros Hin; apply Hnot in Hin; tauto.
Qed.

End PredictorNames.

(** ** Instances of the statements *)


Lemma fold_sizes_witness :
  exists fs,
    folds five_labelled 3 1 = Ok fs /\
    length fs = 2%nat /\
    forall f, In f fs ->
      Z.of_nat (nrows (train f)) = boundary f /\
      Z.of_nat (nrows (test f))
      = Z.min 1 (Z.of_nat (nrows five_labelled) - boundary f) /\
      (1 <= nrows (test f))%nat.
Proof.
  eexists. split; [vm_compute; reflexivity|]. split; [reflexivity|].
  apply (fold_sizes five_labelled 3 1); [lia|lia|vm_compute; reflexivity].
Defined.

Lemma train_window_expands_witness :
  exists fs f g,
    folds five_labelled 3 1 = Ok fs /\
    nth_error fs 0 = Some f /\ nth_error fs 1 = Some g /\
    index (train g) = index (train f) ++ index (test f) /\
    forall n, lookup_col n (columns (train g))
      = match lookup_col n (columns (train f)),
              lookup_col n (columns (test f)) with
        | Some a, Some b => Some (a ++ b)
        | _, _ => None
        end.
Proof.
  do 3 eexists. split; [vm_compute; reflexivity|].
  split; [vm_compute; reflexivity|]. split; [vm_compute; reflexivity|].
  eapply (train_window_expands five_labelled 3 1 _ 0%nat);
    [lia|lia|vm_compute; reflexivity|vm_compute; reflexivity
    |vm_compute; reflexivity].
Defined.

Lemma backtest_returns_truth_and_predictions_witness :
  exists out preds,
    backtest five_labelled always_up ["close"] 3 1 = Ok out /\
    columns out = [("target", [VInt 0; VInt 0]); ("Predictions", preds)] /\
    length preds = 2%nat /\
    index out = [3; 4].
Proof.
  destruct (backtest_returns_truth_and_predictions
              five_labelled always_up ["close"] 3 1 _
              [VInt 1; VInt 0; VInt 1; VInt 0; VInt 0]
              ltac:(lia) ltac:(lia) eq_refl eq_refl eq_refl)
    as (preds & Hc & Hl & Hi).
  eexists. exists preds. split; [vm_compute; reflexivity|].
  split; [exact Hc|]. split; [exact Hl|exact Hi].
Defined.

Lemma backtest_nonpositive_step_witness :
  exists out,
    backtest five_labelled always_up ["close"] 7 (-1) = Ok out /\
    index out = [].
Proof.
  eexists. split; [vm_compute; reflexivity|].
  apply (backtest_nonpositive_step five_labelled always_up ["close"] 7 (-1));
    [lia|vm_compute; reflexivity].
Defined.

Lemma backtest_missing_column_witness :
  exists q,
    In q (["close"; "volume"] ++ ["target"]) /\
    lookup_col q (columns five_labelled) = None /\
    backtest five_labelled always_up ["close"; "volume"] 3 1
    = Raise (MissingColumn q).
Proof.
  apply (backtest_missing_column five_labelled always_up ["close"; "volume"]
           3 1 "volume").
  - cbn. lia.
  - lia.
  - cbn. tauto.
  - reflexivity.
Defined.

Lemma fold_predictions_ignore_later_labels_witness :
  exists out out',
    predict (train (fold_at five_labelled 1 3))
            (test (fold_at five_labelled 1 3)) ["close"] always_up = Ok out /\
    predict (train (fold_at (set_cell "target" 3 (VInt 1) five_labelled) 1 3))
            (test (fold_at (set_cell "target" 3 (VInt 1) five_labelled) 1 3))
            ["close"] always_up = Ok out' /\
    index out' = index out /\
    lookup_col "Predictions" (columns out')
    = lookup_col "Predictions" (columns out) /\
    lookup_col "target" (columns out') <> lookup_col "target" (columns out).
Proof.
  destruct (fold_predictions_ignore_later_labels
              five_labelled always_up ["close"] 1 3 3 (VInt 1) _
              ltac:(lia) ltac:(cbn; intuition discriminate) eq_refl)
    as (_ & out' & Hp & Hi & Hc).
  eexists. exists out'. split; [reflexivity|]. split; [exact Hp|].
  split; [exact Hi|]. split; [exact Hc|].
  vm_compute in Hp. injection Hp as <-. discriminate.
Defined.

Lemma create_targets_idempotent_witness :
  exists out,
    create_targets (F := exact_ops) five_closes = Ok out /\ create_targets (F := exact_ops) out = Ok out.
Proof.
  eexists. split; [vm_compute; reflexivity|].
  apply (create_targets_idempotent (F := exact_ops) five_closes). vm_compute. reflexivity.
Defined.

Lemma create_ohlc_features_keeps_every_row_witness :
  exists out ps,
    create_ohlc_features (F := exact_ops) (R := rejecting)
      five_labelled [2; 5] = Ok (out, ps) /\
    index out = index five_labelled /\
    forall n, ~ In n ps ->
              lookup_col n (columns out)
              = lookup_col n (columns five_labelled).
Proof.
  do 2 eexists. split; [vm_compute; reflexivity|].
  apply (create_ohlc_features_keeps_every_row
           (F := exact_ops) (R := rejecting) (fun q Hq => Hq)
           five_labelled [2; 5] _ _ (map of_Z [100; 102; 101; 105; 103])).
  - repeat constructor.
  - reflexivity.
  - repeat constructor.
  - vm_compute. reflexivity.
  - discriminate.
Defined.

Lemma features_use_no_later_close_witness :
  Forall2 (same_row 2)
    (horizon_columns_of (F := exact_ops) 2
       (map of_Z [100; 102; 101; 105; 103]) (map of_Z [1; 0; 1; 0; 0]))
    (horizon_columns_of (F := exact_ops) 2
       (map of_Z [100; 102; 101; 90; 120]) (map of_Z [1; 0; 1; 0; 0])).
Proof.
  apply (features_use_no_later_close (F := exact_ops) 2); [lia|reflexivity].
Defined.

Lemma warm_up_features_are_missing_witness :
  nth_error (floats (rolling_std (F := exact_ops) 5
                       (map of_Z [100; 102; 101; 105; 103]))) 2
  = Some (VFloat NaN).
Proof.
  assert (H : exists v,
             nth_error (floats (rolling_std (F := exact_ops) 5
                                  (map of_Z [100; 102; 101; 105; 103]))) 2
             = Some v) by (eexists; vm_compute; reflexivity).
  destruct H as (v & Hv). rewrite Hv. f_equal.
  apply (proj1 (warm_up_features_are_missing (F := exact_ops) 5
                  (map of_Z [100; 102; 101; 105; 103])
                  (map of_Z [1; 0; 1; 0; 0]) 2
                  (fmt "Volatility_" 5) _ v ltac:(lia)
                  ltac:(cbn; tauto) Hv));
    [cbn; lia|vm_compute; discriminate].
Defined.

Lemma rsi_without_losses_witness :
  exists r,
    nth_error (rsi (F := exact_ops) 2 (map of_Z [100; 101; 103])) 2
    = Some (Fin r) /\ (r == 100)%Q.
Proof.
  apply (proj1 (rsi_without_losses (F := exact_ops) 2
                  (map of_Z [100; 101; 103]) 2 (3 # 2) (0 # 2)
                  eq_refl eq_refl ltac:(reflexivity)));
    reflexivity.
Defined.

Lemma technical_predictors_exclude_labels_witness :
  exists out ps,
    create_ohlc_features (F := exact_ops) (R := rejecting)
      five_labelled [2; 5] = Ok (out, ps) /\
    ~ In "target" ps /\ ~ In "tomorrow" ps /\ ~ In "close" ps.
Proof.
  do 2 eexists. split; [vm_compute; reflexivity|].
  eapply (technical_predictors_exclude_labels
            (F := exact_ops) (R := rejecting) five_labelled [2; 5]).
  vm_compute. reflexivity.
Defined.

Lemma calendar_values_in_range_witness :
  exists out ps,
    create_calendar_features (F := exact_ops) (P := plain_parsers)
      dated_by_string "date" = Ok (out, ps) /\
    peek 0 (columns out) "day_of_week" = Some (Some (VInt 0)) /\
    peek 0 (columns out) "week_of_year" = Some (Some (VInt 1)) /\
    peek 0 (columns out) "is_month_start" = Some (Some (VInt 1)).
Proof.
  do 2 eexists. split; [vm_compute; reflexivity|].
  match goal with
  | |- context [peek 0 (columns ?o) _] =>
      destruct (calendar_values_in_range (F := exact_ops) (P := plain_parsers)
                  dated_by_string "date" o calendar_predictors
                  [VTime (midnight (2024, 1, 1))] 0 (midnight (2024, 1, 1))
                  ltac:(vm_compute; reflexivity)
                  ltac:(cbn; intuition discriminate)
                  ltac:(vm_compute; reflexivity) eq_refl)
        as ((H1 & _) & _ & (H3 & _) & _ & _ & _ & _ & H8 & _)
  end.
  split; [exact H1|]. split; [exact H3|exact H8].
Defined.

Lemma calendar_fields_of_missing_date_witness :
  exists out ps,
    create_calendar_features (F := exact_ops) (P := plain_parsers)
      dated_with_gap "date" = Ok (out, ps) /\
    peek 1 (columns out) "month" = Some (Some (VFloat NaN)) /\
    peek 1 (columns out) "is_month_end" = Some (Some (VInt 0)).
Proof.
  do 2 eexists. split; [vm_compute; reflexivity|].
  split.
  - eapply (calendar_fields_of_missing_date
              (F := exact_ops) (P := plain_parsers) dated_with_gap "date" _ _
              [VTime (midnight (2024, 1, 1)); VNaT] 1 "month");
      [vm_compute; reflexivity|cbn; intuition discriminate
      |vm_compute; reflexivity|reflexivity|cbn; tauto].
  - eapply (calendar_fields_of_missing_date
              (F := exact_ops) (P := plain_parsers) dated_with_gap "date" _ _
              [VTime (midnight (2024, 1, 1)); VNaT] 1 "is_month_end");
      [vm_compute; reflexivity|cbn; intuition discriminate
      |vm_compute; reflexivity|reflexivity|cbn; tauto].
Defined.

Lemma convert_date_format_fields_witness :
  exists ns,
    convert_date_format (P := plain_parsers) (VStr "Nov 13, 2024 (Oct)")
    = Ok (VTime ns) /\
    ns mod ns_per_day = 0 /\
    year_of ns = 2024 /\ month_of ns = 11 /\ day_of ns = 13.
Proof.
  apply (convert_date_format_fields (P := plain_parsers)
           "Nov 13, 2024 (Oct)" 2024 11 13);
    [vm_compute; reflexivity|vm_compute; reflexivity|lia
    |vm_compute; intuition discriminate].
Defined.

Lemma macro_tables_columns_witness :
  (exists un,
      un_rate (F := exact_ops) (P := plain_parsers) cpi_sheet = Ok un /\
      map fst (columns un)
      = ["date"; "un_announcement"; "unempl_change";
         "days_until_next_announcement"]) /\
  (exists cp,
      cpi (F := exact_ops) (P := plain_parsers) cpi_sheet = Ok cp /\
      map fst (columns cp)
      = ["date"; "cpi_announcement"; "cpi_change";
         "days_until_next_announcement"]) /\
  (exists fed,
      interest_rates (F := exact_ops) fed_sheet = Ok fed /\
      map fst (columns fed)
      = ["date"; "interest_announcement"; "interest_change";
         "next_announcement_date"; "days_until_next_announcement"]).
Proof.
  split; [|split]; eexists; (split; [vm_compute; reflexivity|]).
  - apply (proj1 (macro_tables_columns (F := exact_ops) (P := plain_parsers)
                    cpi_sheet cpi_sheet fed_sheet _ cpi_sheet fed_sheet)).
    vm_compute. reflexivity.
  - apply (proj1 (proj2 (macro_tables_columns
                           (F := exact_ops) (P := plain_parsers)
                           cpi_sheet cpi_sheet fed_sheet
                           cpi_sheet _ fed_sheet))).
    vm_compute. reflexivity.
  - apply (proj2 (proj2 (macro_tables_columns
                           (F := exact_ops) (P := plain_parsers)
                           cpi_sheet cpi_sheet fed_sheet
                           cpi_sheet cpi_sheet _))).
    vm_compute. reflexivity.
Defined.

Lemma macro_tables_read_by_position_witness :
  un_rate (F := exact_ops) (P := plain_parsers) cpi_sheet
  = un_rate (F := exact_ops) (P := plain_parsers) cpi_sheet_relabelled /\
  cpi (F := exact_ops) (P := plain_parsers) cpi_sheet
  = cpi (F := exact_ops) (P := plain_parsers) cpi_sheet_relabelled /\
  interest_rates (F := exact_ops) cpi_sheet
  = interest_rates (F := exact_ops) cpi_sheet_relabelled.
Proof.
  eapply (macro_tables_read_by_position (F := exact_ops) (P := plain_parsers)
            cpi_sheet cpi_sheet_relabelled);
    [reflexivity|reflexivity|reflexivity|].
  intros n Hn. cbn in Hn. cbn. intuition (subst; discriminate).
Defined.



(** ** The predictors that the slice of the column names selects *)

Lemma assign_names n c cs :
  exists extra, map fst (assign n c cs) = map fst cs ++ extra.
Proof.
  induction cs as [|[m c0] cs (extra & IH)]; cbn [assign map fst].
  - now exists [n].
  - destruct (String.eqb m n); cbn [map fst].
    + exists []. now rewrite app_nil_r.
    + exists extra. now rewrite IH.
Qed.

Lemma assign_all_names cs df :
  exists extra,
    map fst (columns (assign_all cs df)) = map fst (columns df) ++ extra.
Proof.
  unfold assign_all. revert df.
  induction cs as [|[n c] cs IH]; intros df; cbn [fold_left fst snd].
  - exists []. now rewrite app_nil_r.
  - destruct (IH (set_col n c df)) as (extra & ->). cbn [set_col columns].
    destruct (assign_names n c (columns df)) as (extra' & ->).
    exists (extra' ++ extra). now rewrite app_assoc.
Qed.

Lemma filter_rows_names mask df :
  map fst (columns (filter_rows mask df)) = map fst (columns df).
Proof.
  cbn [filter_rows columns]. rewrite map_map. reflexivity.
Qed.

Section AssembledPredictors.
Context {F : FloatOps} {R : RollingPolicy} {P : DateParsers}.

Lemma create_ohlc_features_names df hs out ps :
  create_ohlc_features df hs = Ok (out, ps) ->
  exists extra, map fst (columns out) = map fst (columns df) ++ extra.
Proof.
  intros H. unfold create_ohlc_features in H.
  inv_bind_as H r1 H1. destruct r1 as [df1 ps1].
  inv_bind_as H df2 H2. injection H as E1 E2. subst df2 ps1.
  destruct (add_horizons_shape _ _ _ _ _ H1) as (_ & _ & -> & _).
  unfold dropna_all in H2. inv_bind_as H2 cols Hcols. injection H2 as <-.
  rewrite filter_rows_names. apply assign_all_names.
Qed.

Lemma calendar_features_names df out ps :
  map fst (columns df) = merged_names ->
  create_calendar_features df "date" = Ok (out, ps) ->
  ps = calendar_predictors /\
  map fst (columns out) = merged_names ++ calendar_predictors.
Proof.
  intros Hnames H. unfold create_calendar_features in H.
  inv_bind_as H d0 H0. inv_bind_as H d1 H1. inv_bind_as H d2 H2.
  inv_bind_as H d3 H3. inv_bind_as H d4 H4. inv_bind_as H d5 H5.
  inv_bind_as H d6 H6. inv_bind_as H d7 H7. inv_bind_as H d8 H8.
  inv_bind_as H d9 H9. inv_bind_as H d10 H10. inv_bind_as H d11 H11.
  inv_bind_as H d12 H12. injection H as <- <-.
  destruct (derive_inv _ _ _ _ _ H0) as (? & ? & _ & _ & ->).
  destruct (derive_inv _ _ _ _ _ H1) as (? & ? & _ & _ & ->).
  destruct (derive_inv _ _ _ _ _ H2) as (? & ? & _ & _ & ->).
  destruct (derive_inv _ _ _ _ _ H3) as (? & ? & _ & _ & ->).
  destruct (derive_inv _ _ _ _ _ H4) as (? & ? & _ & _ & ->).
  destruct (derive_inv _ _ _ _ _ H5) as (? & ? & _ & _ & ->).
  destruct (derive_inv _ _ _ _ _ H6) as (? & ? & _ & _ & ->).
  destruct (derive_inv _ _ _ _ _ H7) as (? & ? & _ & _ & ->).
  destruct (derive_inv _ _ _ _ _ H8) as (? & ? & _ & _ & ->).
  destruct (derive_inv _ _ _ _ _ H9) as (? & ? & _ & _ & ->).
  destruct (derive_inv _ _ _ _ _ H10) as (? & ? & _ & _ & ->).
  destruct (derive_inv _ _ _ _ _ H11) as (? & ? & _ & _ & ->).
  destruct (derive_inv _ _ _ _ _ H12) as (? & ? & _ & _ & ->).
  split; [reflexivity|].
  destruct df as [idx cs]. cbn [columns] in Hnames. unfold merged_names in *.
  destruct cs as [|[n0 c0] [|[n1 c1] [|[n2 c2] [|[n3 c3] [|[n4 c4] [|[n5 c5]
    [|[n6 c6] [|[n7 c7] [|[n8 c8] [|[n9 c9] [|[n10 c10] [|? ?]]]]]]]]]]]];
    try discriminate.
  cbn [map fst] in Hnames.
  injection Hnames as -> -> -> -> -> -> -> -> -> -> ->.
  reflexivity.
Qed.

(** When only the table of the consumer prices has been merged, the slice
    of the column names from position 8 to 14 selects the three columns of
    that table and the first three calendar columns.  These three calendar
    columns are therefore listed twice among the predictors. *)
Theorem fed_predictors_repeat_calendar_columns df out ps :
  map fst (columns df) = merged_names ->
  assemble_predictors df = Ok (out, ps) ->
  fed_predictors out
  = [ "cpi_announcement"; "cpi_change"; "days_until_next_announcement";
      "day_of_week"; "day_of_month"; "week_of_year" ] /\
  (exists ohlc_predictors,
      ps = calendar_predictors ++ fed_predictors out ++ ohlc_predictors) /\
  ~ NoDup ps.
Proof.
  intros Hnames H. unfold assemble_predictors in H.
  inv_bind_as H r1 H1. destruct r1 as [df1 calendar].
  inv_bind_as H r2 H2. destruct r2 as [df2 ohlc].
  injection H as E1 E2. subst df2 ps.
  destruct (calendar_features_names _ _ _ Hnames H1) as (-> & Hn1).
  destruct (create_ohlc_features_names _ _ _ _ H2) as (extra & Hn2).
  assert (Hfed : fed_predictors out
                 = [ "cpi_announcement"; "cpi_change";
                     "days_until_next_announcement";
                     "day_of_week"; "day_of_month"; "week_of_year" ]).
  { unfold fed_predictors. rewrite Hn2, Hn1.
    rewrite py_slice_nonneg by lia.
    rewrite !length_app. cbn [merged_names calendar_predictors length].
    rewrite !Z.min_l by lia. reflexivity. }
  split; [exact Hfed|]. split; [now exists ohlc|].
  rewrite Hfed. intros Hnd. cbn [calendar_predictors app] in Hnd.
  inversion Hnd as [|x l Hnot _]. apply Hnot. cbn [In]. tauto.
Qed.

End AssembledPredictors.


Lemma fed_predictors_repeat_calendar_columns_witness :
  exists out ps,
    assemble_predictors (F := exact_ops) (R := dropping) (P := plain_parsers)
      merged_prices = Ok (out, ps) /\
    fed_predictors out
    = [ "cpi_announcement"; "cpi_change"; "days_until_next_announcement";
        "day_of_week"; "day_of_month"; "week_of_year" ] /\
    ~ NoDup ps.
Proof.
  do 2 eexists. split; [vm_compute; reflexivity|].
  match goal with
  | |- fed_predictors ?o = _ /\ ~ NoDup ?p =>
      destruct (fed_predictors_repeat_calendar_columns
                  (F := exact_ops) (R := dropping) (P := plain_parsers)
                  merged_prices o p eq_refl ltac:(vm_compute; reflexivity))
        as (H1 & _ & H3)
  end.
  split; [exact H1|exact H3].
Defined.

Lemma create_calendar_features_idempotent_witness :
  exists out,
    create_calendar_features (F := exact_ops) (P := plain_parsers)
      dated_by_string "date" = Ok (out, calendar_predictors) /\
    create_calendar_features (F := exact_ops) (P := plain_parsers)
      out "date" = Ok (out, calendar_predictors).
Proof.
  eexists. split; [vm_compute; reflexivity|].
  eapply (create_calendar_features_idempotent
            (F := exact_ops) (P := plain_parsers) dated_by_string "date");
    [vm_compute; reflexivity|cbn; intuition discriminate].
Defined.
